(** * Shorts pipeline: upload scheduler, status repositories, viral filter

    A shallow embedding of
      - src/publishing/scheduler.py        (class UploadScheduler),
      - src/storage/repositories/video_repo.py, task_repo.py,
      - src/storage/models.py              (the columns the above touch),
      - src/discovery/youtube_monitor.py   (is_short, filter_videos,
                                            discover_and_save),
      - src/storage/database.py            (get_session),
      - src/analysis/scene_analyzer.py     (analyze_video_by_id),
      - src/publishing/uploaders/youtube.py (record_upload_to_database),
    and the properties of the specification that concern them.

    Conventions of the embedding.
      - A naive [datetime] is its number of microseconds since
        1970-01-01T00:00:00 (a [Z]); a [timedelta] is a number of
        microseconds.  The sums and differences are those of [datetime]
        for the instants of the years 1 to 9999
        ([Datetime.representable]); properties that depend on it say so.
      - A primary key is a [Z]; the database holds the signed 64-bit
        ones ([sqlite_integer]), and properties of keys that are not
        stored are stated for these.
      - The wall clock, the queue file and the database tables form a
        [world]; every method is a function in the monad [M] that threads
        the world and may raise.
      - [Optional[str]] is [option string]; Python truthiness of such a
        value is [truthy].
      - A [float] is an IEEE 754 binary64 number: a finite one is the
        rational that it denotes, and a division rounds the quotient to
        the nearest such number, ties to even ([Float]).
      - What lies outside the program (the clock, the parsers of
        datetime and isodate, the answers of the YouTube and Gemini
        services, the keys and the row order that the database chooses)
        is a parameter of the definitions that depend on it. *)

From Stdlib Require Import ZArith String Ascii List Bool Lia QArith Qround Qpower Lqa.
From Stdlib Require SpecFloat.
From stdpp Require Import base option list gmap strings sorting.
Import ListNotations.

Local Open Scope string_scope.
Local Open Scope Z_scope.

(** ** Python values *)

(** [bool(x)] for [x : Optional[str]]: [None] and the empty string are
    false. *)
Definition truthy (x : option string) : bool :=
  match x with
  | Some s => negb (String.eqb s "")
  | None => false
  end.

(** [bool(n)] for [n : Optional[int]]. *)
Definition truthy_int (x : option Z) : bool :=
  match x with
  | Some n => negb (n =? 0)
  | None => false
  end.

(** The exceptions that the embedded code can raise. *)
Inductive exn : Type :=
| TypeError
| ValueError
| IndexError
| OverflowError
| ZeroDivisionError
| ArgumentError      (* sqlalchemy.exc.ArgumentError *)
| PublishingError.   (* utils.exceptions.PublishingError *)

Inductive outcome (A : Type) : Type :=
| Ok (a : A)
| Raise (e : exn).
Arguments Ok {A} a.
Arguments Raise {A} e.

(** A computation that only may raise. *)
#[global] Instance outcome_ret : MRet outcome := fun A a => Ok a.
#[global] Instance outcome_bind : MBind outcome := fun A B k m =>
  match m with
  | Ok a => k a
  | Raise e => Raise e
  end.

(** [l[:n]] for a Python int [n]. *)
Definition slice_to {A : Type} (l : list A) (n : Z) : list A :=
  if 0 <=? n then firstn (Z.to_nat n) l
  else firstn (Z.to_nat (Z.of_nat (length l) + n)) l.

(** ** float *)

Definition Qltb (x y : Q) : bool := negb (Qle_bool y x).

Module Float.

(** A finite float is the rational that it denotes (the sign of a zero
    is not kept: no operation of the embedded code tells the two zeros
    apart). *)
Inductive t : Type :=
| Finite (q : Q)
| Infinity (negative : bool)
| NaN.

(** [floor (log2 x)] for a positive [x]. *)
Definition ilog2 (x : Q) : Z :=
  let l := Z.log2 (Qnum x) - Z.log2 (Zpos (Qden x)) in
  if Qltb x (2 ^ l) then l - 1 else l.

(** The integer nearest to [y]; of two that are equally near, the even
    one. *)
Definition nearest_even (y : Q) : Z :=
  let f := Qfloor y in
  match (y - inject_Z f ?= 1 # 2)%Q with
  | Lt => f
  | Eq => if Z.even f then f else f + 1
  | Gt => f + 1
  end.

(** The binary64 number nearest to a positive [x]: a significand of 53
    bits, the unit in the last place no smaller than [2 ^ -1074]
    (subnormal numbers), infinite from [2 ^ 1024] on. *)
Definition round_positive (x : Q) : t :=
  let e := Z.max (ilog2 x - 52) (-1074) in
  let y := (inject_Z (nearest_even (x / 2 ^ e)) * 2 ^ e)%Q in
  if Qle_bool (2 ^ 1024) y then Infinity false else Finite y.

Definition opp (x : t) : t :=
  match x with
  | Finite q => Finite (- q)
  | Infinity negative => Infinity (negb negative)
  | NaN => NaN
  end.

Definition round (x : Q) : t :=
  match (x ?= 0)%Q with
  | Eq => Finite 0
  | Gt => round_positive x
  | Lt => opp (round_positive (- x))
  end.

(** The conversion of an int that is an operand of a float operation. *)
Definition of_int (n : Z) : outcome t :=
  match round (inject_Z n) with
  | Infinity _ => Raise OverflowError
  | x => Ok x
  end.

(** [a / b] for two ints: the quotient, rounded once. *)
Definition int_truediv (a b : Z) : outcome t :=
  if b =? 0 then Raise ZeroDivisionError
  else
    match round (inject_Z a / inject_Z b) with
    | Infinity _ => Raise OverflowError
    | x => Ok x
    end.

Definition is_zero (x : t) : bool :=
  match x with
  | Finite q => Qeq_bool q 0
  | _ => false
  end.

(** [x / y] for two floats. *)
Definition truediv (x y : t) : outcome t :=
  if is_zero y then Raise ZeroDivisionError
  else
    Ok match x, y with
       | NaN, _ | _, NaN => NaN
       | Infinity _, Infinity _ => NaN
       | Infinity negative, Finite q => Infinity (xorb negative (Qltb q 0))
       | Finite _, Infinity _ => Finite 0
       | Finite p, Finite q => round (p / q)
       end.

(** [x / n] and [n / x] for a float [x] and an int [n]. *)
Definition truediv_int (x : t) (n : Z) : outcome t :=
  y ← of_int n; truediv x y.

Definition rtruediv_int (n : Z) (x : t) : outcome t :=
  y ← of_int n; truediv y x.

(** The comparisons of a float with an int, which Python makes on the
    exact values. *)
Definition lt_int (x : t) (n : Z) : bool :=
  match x with
  | Finite q => Qltb q (inject_Z n)
  | Infinity negative => negative
  | NaN => false
  end.

Definition le_int (x : t) (n : Z) : bool :=
  match x with
  | Finite q => Qle_bool q (inject_Z n)
  | Infinity negative => negative
  | NaN => false
  end.

Definition gt_int (x : t) (n : Z) : bool :=
  match x with
  | Finite q => Qltb (inject_Z n) q
  | Infinity negative => negb negative
  | NaN => false
  end.

Definition ge_int (x : t) (n : Z) : bool :=
  match x with
  | Finite q => Qle_bool (inject_Z n) q
  | Infinity negative => negb negative
  | NaN => false
  end.

(** [int(x)]: truncation towards zero. *)
Definition truncate (q : Q) : Z := Z.quot (Qnum q) (Zpos (Qden q)).

Definition to_int (x : t) : outcome Z :=
  match x with
  | Finite q => Ok (truncate q)
  | Infinity _ => Raise OverflowError
  | NaN => Raise ValueError
  end.

End Float.

(** ** datetime *)

Module Datetime.

Definition us_per_second : Z := 1000000.
Definition us_per_hour : Z := 3600 * us_per_second.
Definition us_per_day : Z := 86400 * us_per_second.

(** [timedelta(days=n)], [timedelta(hours=n)] *)
Definition timedelta_days (n : Z) : Z := n * us_per_day.
Definition timedelta_hours (n : Z) : Z := n * us_per_hour.

(** Proleptic Gregorian date of a day number (days since 1970-01-01). *)
Definition civil_from_days (z0 : Z) : Z * Z * Z :=
  let z := z0 + 719468 in
  let era := z / 146097 in
  let doe := z mod 146097 in
  let yoe := (doe - doe / 1460 + doe / 36524 - doe / 146096) / 365 in
  let doy := doe - (365 * yoe + yoe / 4 - yoe / 100) in
  let mp := (5 * doy + 2) / 153 in
  let d := doy - (153 * mp + 2) / 5 + 1 in
  let m := if mp <? 10 then mp + 3 else mp - 9 in
  let y := yoe + era * 400 in
  (if m <=? 2 then y + 1 else y, m, d).

Definition days_from_civil (y0 m d : Z) : Z :=
  let y := if m <=? 2 then y0 - 1 else y0 in
  let era := y / 400 in
  let yoe := y mod 400 in
  let doy := (153 * (if 2 <? m then m - 3 else m + 9) + 2) / 5 + d - 1 in
  let doe := yoe * 365 + yoe / 4 - yoe / 100 + doy in
  era * 146097 + doe - 719468.

Definition digit (n : Z) : ascii := ascii_of_nat (48 + Z.to_nat (n mod 10)).

(** [n] in decimal, zero-padded to [width] digits. *)
Fixpoint pad (width : nat) (n : Z) (acc : string) : string :=
  match width with
  | O => acc
  | S k => pad k (n / 10) (String (digit n) acc)
  end.

Definition year (t : Z) : Z := fst (fst (civil_from_days (t / us_per_day))).
Definition month (t : Z) : Z := snd (fst (civil_from_days (t / us_per_day))).
Definition day (t : Z) : Z := snd (civil_from_days (t / us_per_day)).
Definition hour (t : Z) : Z := (t mod us_per_day) / us_per_hour.
Definition minute (t : Z) : Z := (t mod us_per_hour) / (60 * us_per_second).
Definition second (t : Z) : Z := (t mod (60 * us_per_second)) / us_per_second.
Definition microsecond (t : Z) : Z := t mod us_per_second.

(** [t.strftime('%Y%m%d%H%M%S')] *)
Definition strftime_YmdHMS (t : Z) : string :=
  pad 4 (year t) (pad 2 (month t) (pad 2 (day t)
    (pad 2 (hour t) (pad 2 (minute t) (pad 2 (second t) ""))))).

(** [t.isoformat()] of a naive datetime: the fraction is printed only
    when the microsecond field is not zero. *)
Definition isoformat (t : Z) : string :=
  pad 4 (year t) ("-" ++ pad 2 (month t) ("-" ++ pad 2 (day t) ("T" ++
    pad 2 (hour t) (":" ++ pad 2 (minute t) (":" ++ pad 2 (second t)
      (if microsecond t =? 0 then "" else "." ++ pad 6 (microsecond t) "")))))).

(** [datetime.min] and [datetime.max], 0001-01-01T00:00:00 and
    9999-12-31T23:59:59.999999.  The arithmetic of this module is that of
    [datetime] for the instants between them; outside, [datetime] raises
    [OverflowError]. *)
Definition datetime_min : Z := days_from_civil 1 1 1 * us_per_day.
Definition datetime_max : Z := days_from_civil 10000 1 1 * us_per_day - 1.

Definition representable (t : Z) : Prop := datetime_min <= t <= datetime_max.

(** [a - b] for two datetimes: a timedelta, which holds at most
    999999999 days in either direction. *)
Definition sub (a b : Z) : outcome Z :=
  let days := (a - b) / us_per_day in
  if (-999999999 <=? days) && (days <=? 999999999) then Ok (a - b)
  else Raise OverflowError.

(** [delta.total_seconds()]: the microseconds, an int, divided by
    [10 ** 6]. *)
Definition total_seconds (delta : Z) : outcome Float.t :=
  Float.int_truediv delta us_per_second.

(** [t.replace(hour=0, minute=0, second=0, microsecond=0)] *)
Definition start_of_day (t : Z) : Z := t - t mod us_per_day.

(** [t.replace(hour=h, minute=0, second=0, microsecond=0)]; an hour
    outside 0..23 is a [ValueError]. *)
Definition replace_hour (t h : Z) : outcome Z :=
  if (0 <=? h) && (h <=? 23) then Ok (start_of_day t + h * us_per_hour)
  else Raise ValueError.

(** The value of a decimal digit. *)
Definition digit_val (c : ascii) : option Z :=
  let n := Z.of_nat (nat_of_ascii c) in
  if (48 <=? n) && (n <=? 57) then Some (n - 48) else None.

Fixpoint number (cs : list ascii) (acc : Z) : option Z :=
  match cs with
  | [] => Some acc
  | c :: rest =>
      match digit_val c with
      | Some d => number rest (acc * 10 + d)
      | None => None
      end
  end.

Definition field (cs : list ascii) (from len : nat) : option Z :=
  let part := firstn len (skipn from cs) in
  if Nat.eqb (length part) len then number part 0 else None.

Definition sep (cs : list ascii) (at_ : nat) (c : ascii) : bool :=
  match nth_error cs at_ with
  | Some c' => Ascii.eqb c c'
  | None => false
  end.

(** A reader for the strings that [isoformat] writes,
    [YYYY-MM-DDTHH:MM:SS] with an optional [.ffffff]; every other string
    is refused with [ValueError].  It is one instance of the
    [fromisoformat] that the scheduler is parameterised by. *)
Definition fromisoformat_naive (s : string) : outcome Z :=
  let cs := list_ascii_of_string s in
  let n := length cs in
  if negb (Nat.eqb n 19 || Nat.eqb n 26) then Raise ValueError
  else if negb (sep cs 4 "-" && sep cs 7 "-" && sep cs 10 "T"
                && sep cs 13 ":" && sep cs 16 ":") then Raise ValueError
  else if Nat.eqb n 26 && negb (sep cs 19 ".") then Raise ValueError
  else
    match field cs 0 4, field cs 5 2, field cs 8 2,
          field cs 11 2, field cs 14 2, field cs 17 2 with
    | Some y, Some m, Some d, Some hh, Some mm, Some ss =>
        let frac := if Nat.eqb n 26 then field cs 20 6 else Some 0 in
        match frac with
        | Some f =>
            let t := days_from_civil y m d * us_per_day + hh * us_per_hour
                     + mm * (60 * us_per_second) + ss * us_per_second + f in
            if String.eqb (isoformat t) s
               || String.eqb (isoformat (t - f) ++ "." ++ pad 6 f "") s
            then Ok t else Raise ValueError
        | None => Raise ValueError
        end
    | _, _, _, _, _, _ => Raise ValueError
    end.

End Datetime.

(** ** isodate, for the strings of the examples

    Readers for durations of the form [PT<n>H<n>M<n>S] (every part
    optional) and for datetimes of the form [YYYY-MM-DDTHH:MM:SSZ]; they
    instantiate the parameters of the viral filter in the examples. *)

Module Isodate.

Fixpoint duration_parts (cs : list ascii) (acc : option Z) (total : Z)
    : outcome Z :=
  match cs with
  | [] =>
      match acc with
      | None => Ok total
      | Some _ => Raise ValueError
      end
  | c :: rest =>
      match Datetime.digit_val c, acc with
      | Some d, _ => duration_parts rest (Some (default 0 acc * 10 + d)) total
      | None, Some n =>
          if Ascii.eqb c "H" then duration_parts rest None (total + 3600 * n)
          else if Ascii.eqb c "M" then duration_parts rest None (total + 60 * n)
          else if Ascii.eqb c "S" then duration_parts rest None (total + n)
          else Raise ValueError
      | None, None => Raise ValueError
      end
  end.

Definition total_seconds (s : string) : outcome Q :=
  match list_ascii_of_string s with
  | "P"%char :: "T"%char :: rest =>
      match duration_parts rest None 0 with
      | Ok n => Ok (inject_Z n)
      | Raise e => Raise e
      end
  | _ => Raise ValueError
  end.

Definition parse_datetime (s : string) : outcome Z :=
  let n := String.length s in
  if String.eqb (substring (n - 1) 1 s) "Z"
  then Datetime.fromisoformat_naive (substring 0 (n - 1) s)
  else Raise ValueError.

End Isodate.

(** ** storage/models.py *)

Inductive VideoStatus : Type :=
| VS_PENDING | VS_ANALYZING | VS_ANALYZED | VS_GENERATING | VS_GENERATED
| VS_PROCESSING | VS_PROCESSED | VS_READY | VS_PUBLISHED | VS_FAILED
| VS_SKIPPED.

Inductive TaskStatus : Type :=
| PENDING | RUNNING | COMPLETED | FAILED | CANCELLED.

Inductive Platform : Type :=
| YOUTUBE | TIKTOK | INSTAGRAM.

#[global] Instance VideoStatus_eq_dec : EqDecision VideoStatus.
Proof. solve_decision. Defined.
#[global] Instance TaskStatus_eq_dec : EqDecision TaskStatus.
Proof. solve_decision. Defined.
#[global] Instance Platform_eq_dec : EqDecision Platform.
Proof. solve_decision. Defined.

(** A row of [video_urls].  JSON payloads are kept as their text. *)
Module VideoURL.
Record t : Type := mk {
  id : Z;
  url : string;
  video_id : string;
  title : option string;
  channel : option string;
  views : option Z;
  likes : option Z;
  duration : option Z;
  published_at : option Z;
  status : VideoStatus;
  discovered_at : Z;
  updated_at : Z;
  analysis_data : option string;
  error_message : option string;
  retry_count : Z
}.
End VideoURL.

(** A row of [tasks]. *)
Module Task.
Record t : Type := mk {
  id : Z;
  video_url_id : option Z;
  task_type : string;
  status : TaskStatus;
  created_at : Z;
  started_at : option Z;
  completed_at : option Z;
  progress : Q;
  result : option string;
  error_message : option string;
  retry_count : Z
}.
End Task.

(** The columns of [publish_records] that the scheduler reads. *)
Module PublishRecord.
Record t : Type := mk {
  id : Z;
  generated_video_id : Z;
  platform : Platform;
  is_published : bool;
  published_at : option Z
}.
End PublishRecord.

(** An element of data/upload_queue.json, as [add_to_queue] builds it and
    [update_entry_status] extends it.  [scheduled_time] and [last_error]
    are always present and hold [null] or a string; [started_at] and
    [completed_at] are keys that are absent ([None]) until
    [update_entry_status] writes them. *)
Module Entry.
Record t : Type := mk {
  id : string;
  video_file_path : string;
  metadata : string;
  platform : string;
  scheduled_time : option string;
  priority : Z;
  status : string;
  added_at : string;
  attempts : Z;
  last_error : option string;
  started_at : option string;
  completed_at : option string
}.
End Entry.

#[global] Instance Entry_eq_dec : EqDecision Entry.t.
Proof. solve_decision. Defined.

(** ** The world and the monad of the methods *)

Record world : Type := mkWorld {
  clock : nat -> Z;                        (* k-th reading of utcnow() *)
  ticks : nat;                             (* readings taken so far *)
  queue_file : option (list Entry.t);      (* None: the file does not exist *)
  video_urls : gmap Z VideoURL.t;
  tasks : gmap Z Task.t;
  publish_records : list PublishRecord.t;
  daily_limit_cfg : option Z;              (* schedule.yaml: publishing.schedule.daily_limit *)
  optimal_times_cfg : option (list Z)      (* platforms.yaml: general.scheduling.optimal_times *)
}.

Definition set_ticks (n : nat) (w : world) : world :=
  mkWorld (clock w) n (queue_file w) (video_urls w) (tasks w)
          (publish_records w) (daily_limit_cfg w) (optimal_times_cfg w).
Definition set_queue_file (q : option (list Entry.t)) (w : world) : world :=
  mkWorld (clock w) (ticks w) q (video_urls w) (tasks w)
          (publish_records w) (daily_limit_cfg w) (optimal_times_cfg w).
Definition set_video_urls (m : gmap Z VideoURL.t) (w : world) : world :=
  mkWorld (clock w) (ticks w) (queue_file w) m (tasks w)
          (publish_records w) (daily_limit_cfg w) (optimal_times_cfg w).
Definition set_tasks (m : gmap Z Task.t) (w : world) : world :=
  mkWorld (clock w) (ticks w) (queue_file w) (video_urls w) m
          (publish_records w) (daily_limit_cfg w) (optimal_times_cfg w).

Definition M (A : Type) : Type := world -> outcome A * world.

#[global] Instance M_ret : MRet M := fun A a w => (Ok a, w).
#[global] Instance M_bind : MBind M := fun A B k m w =>
  match m w with
  | (Ok a, w') => k a w'
  | (Raise e, w') => (Raise e, w')
  end.

Definition raise {A : Type} (e : exn) : M A := fun w => (Raise e, w).

(** Lifting of a computation that only may raise. *)
Definition lift {A : Type} (o : outcome A) : M A := fun w => (o, w).

(** [datetime.utcnow()]: the next reading of the clock. *)
Definition utcnow : M Z :=
  fun w => (Ok (clock w (ticks w)), set_ticks (S (ticks w)) w).

(** The clock never runs backwards. *)
Definition clock_monotone (w : world) : Prop :=
  forall i j : nat, (i <= j)%nat -> clock w i <= clock w j.

(** ** Sessions

    The callers of the repositories run them inside
    [with get_session() as session], and raise exceptions besides those
    of [exn]. *)

Inductive error : Type :=
| Builtin (e : exn)
| IntegrityError          (* sqlalchemy.exc.IntegrityError *)
| SceneAnalysisError      (* utils.exceptions.SceneAnalysisError *)
| URLValidationError      (* utils.exceptions.URLValidationError *)
| External (name : string).  (* raised by a call into a library or a service *)

Inductive completion (A : Type) : Type :=
| Returned (a : A)
| Failed (e : error).
Arguments Returned {A} a.
Arguments Failed {A} e.

Definition ME (A : Type) : Type := world -> completion A * world.

#[global] Instance ME_ret : MRet ME := fun A a w => (Returned a, w).
#[global] Instance ME_bind : MBind ME := fun A B k m w =>
  match m w with
  | (Returned a, w') => k a w'
  | (Failed e, w') => (Failed e, w')
  end.

Definition fail {A : Type} (e : error) : ME A := fun w => (Failed e, w).

(** [try: body except Exception as e: handler(e)] *)
Definition try_except {A : Type} (body : ME A) (handler : error -> ME A) : ME A :=
  fun w =>
    match body w with
    | (Returned a, w') => (Returned a, w')
    | (Failed e, w') => handler e w'
    end.

(** A method of the scheduler or of a repository, called by a caller. *)
Definition run {A : Type} (m : M A) : ME A := fun w =>
  match m w with
  | (Ok a, w') => (Returned a, w')
  | (Raise e, w') => (Failed (Builtin e), w')
  end.

(** [session.rollback()]: the tables are as they were when the session
    began; the clock and the files are not part of the transaction. *)
Definition rollback (before after : world) : world :=
  mkWorld (clock after) (ticks after) (queue_file after) (video_urls before)
    (tasks before) (publish_records before) (daily_limit_cfg after)
    (optimal_times_cfg after).

(** [with get_session() as session: body]: [session.commit()] when the
    body returns; when it raises, [session.rollback()], and the exception
    is raised again. *)
Definition with_session {A : Type} (body : ME A) : ME A := fun w =>
  match body w with
  | (Returned a, w') => (Returned a, w')
  | (Failed e, w') => (Failed e, rollback w w')
  end.

(** The integers that SQLite, the configured database, stores and takes
    as parameters of a statement: the signed 64-bit ones.  The driver
    refuses any other with [OverflowError] when it binds it, so a primary
    key or a LIMIT passed to the repositories is meant to be one of
    these. *)
Definition sqlite_integer (n : Z) : Prop := - 2 ^ 63 <= n < 2 ^ 63.

(** [stmt.limit(n)] on SQLite, the configured database, for an [n] that
    it takes ([sqlite_integer]): the first [n] rows; a negative [n] is no
    bound. *)
Definition sql_limit {A : Type} (n : Z) (rows : list A) : list A :=
  if 0 <=? n then take (Z.to_nat n) rows else rows.

(** [if limit: stmt = stmt.limit(limit)] *)
Definition limited {A : Type} (limit : option Z) (rows : list A) : list A :=
  if truthy_int limit then sql_limit (default 0 limit) rows else rows.

(** ** storage/repositories/video_repo.py *)

Module VideoRepository.

Definition set_status (s : VideoStatus) (v : VideoURL.t) : VideoURL.t :=
  VideoURL.mk (VideoURL.id v) (VideoURL.url v) (VideoURL.video_id v)
    (VideoURL.title v) (VideoURL.channel v) (VideoURL.views v)
    (VideoURL.likes v) (VideoURL.duration v) (VideoURL.published_at v)
    s (VideoURL.discovered_at v) (VideoURL.updated_at v)
    (VideoURL.analysis_data v) (VideoURL.error_message v)
    (VideoURL.retry_count v).

Definition set_updated_at (now : Z) (v : VideoURL.t) : VideoURL.t :=
  VideoURL.mk (VideoURL.id v) (VideoURL.url v) (VideoURL.video_id v)
    (VideoURL.title v) (VideoURL.channel v) (VideoURL.views v)
    (VideoURL.likes v) (VideoURL.duration v) (VideoURL.published_at v)
    (VideoURL.status v) (VideoURL.discovered_at v) now
    (VideoURL.analysis_data v) (VideoURL.error_message v)
    (VideoURL.retry_count v).

Definition set_error_message (m : option string) (v : VideoURL.t) : VideoURL.t :=
  VideoURL.mk (VideoURL.id v) (VideoURL.url v) (VideoURL.video_id v)
    (VideoURL.title v) (VideoURL.channel v) (VideoURL.views v)
    (VideoURL.likes v) (VideoURL.duration v) (VideoURL.published_at v)
    (VideoURL.status v) (VideoURL.discovered_at v) (VideoURL.updated_at v)
    (VideoURL.analysis_data v) m (VideoURL.retry_count v).

Definition set_retry_count (n : Z) (v : VideoURL.t) : VideoURL.t :=
  VideoURL.mk (VideoURL.id v) (VideoURL.url v) (VideoURL.video_id v)
    (VideoURL.title v) (VideoURL.channel v) (VideoURL.views v)
    (VideoURL.likes v) (VideoURL.duration v) (VideoURL.published_at v)
    (VideoURL.status v) (VideoURL.discovered_at v) (VideoURL.updated_at v)
    (VideoURL.analysis_data v) (VideoURL.error_message v) n.

(** [session.get(VideoURL, video_url_id)], for a key that the database
    holds or can hold ([sqlite_integer]). *)
Definition session_get (video_url_id : Z) : M (option VideoURL.t) :=
  fun w => (Ok (video_urls w !! video_url_id), w).

(** The attribute writes on the row that [session.get] returned, as they
    reach the table at [session.flush()]. *)
Definition flush (video_url_id : Z) (v : VideoURL.t) : M unit :=
  fun w => (Ok tt, set_video_urls (<[video_url_id := v]> (video_urls w)) w).

Definition get_by_id (video_url_id : Z) : M (option VideoURL.t) :=
  session_get video_url_id.

Definition update_status (video_url_id : Z) (status : VideoStatus)
    (error_message : option string) : M (option VideoURL.t) :=
  video_url ← session_get video_url_id;
  match video_url with
  | Some v =>
      let v := set_status status v in
      now ← utcnow;
      let v := set_updated_at now v in
      let v := if truthy error_message
               then set_error_message error_message v else v in
      flush video_url_id v;;
      mret (Some v)
  | None => mret None
  end.

Definition increment_retry_count (video_url_id : Z) : M (option VideoURL.t) :=
  video_url ← session_get video_url_id;
  match video_url with
  | Some v =>
      let v := set_retry_count (VideoURL.retry_count v + 1) v in
      now ← utcnow;
      let v := set_updated_at now v in
      flush video_url_id v;;
      mret (Some v)
  | None => mret None
  end.

Definition set_analysis_data (d : option string) (v : VideoURL.t) : VideoURL.t :=
  VideoURL.mk (VideoURL.id v) (VideoURL.url v) (VideoURL.video_id v)
    (VideoURL.title v) (VideoURL.channel v) (VideoURL.views v)
    (VideoURL.likes v) (VideoURL.duration v) (VideoURL.published_at v)
    (VideoURL.status v) (VideoURL.discovered_at v) (VideoURL.updated_at v)
    d (VideoURL.error_message v) (VideoURL.retry_count v).

Definition update_analysis_data (video_url_id : Z) (analysis_data : string)
    : M (option VideoURL.t) :=
  video_url ← session_get video_url_id;
  match video_url with
  | Some v =>
      let v := set_analysis_data (Some analysis_data) v in
      now ← utcnow;
      let v := set_updated_at now v in
      flush video_url_id v;;
      mret (Some v)
  | None => mret None
  end.

(** [session.delete(video_url)] as it reaches the table at
    [session.flush()].  No other table refers to the row by a foreign
    key. *)
Definition flush_delete (video_url_id : Z) : M unit :=
  fun w => (Ok tt, set_video_urls (base.delete video_url_id (video_urls w)) w).

Definition delete (video_url_id : Z) : M bool :=
  video_url ← session_get video_url_id;
  match video_url with
  | Some _ => flush_delete video_url_id;; mret true
  | None => mret false
  end.

(** [select(VideoURL).where(VideoURL.video_id == video_id)], then
    [first() is not None]. *)
Definition exists_by_video_id (video_id : string) : M bool :=
  fun w =>
    (Ok (bool_decide
           (map_Exists (fun _ v => VideoURL.video_id v = video_id) (video_urls w))),
     w).

Section WithScan.

(** The rows of the table in the order in which the database returns
    them when the statement asks for none. *)
Variable scan : gmap Z VideoURL.t -> list VideoURL.t.

Definition get_by_status (status : VideoStatus) (limit : option Z)
    : M (list VideoURL.t) :=
  fun w =>
    let rows := filter (fun v => VideoURL.status v = status) (scan (video_urls w)) in
    (Ok (limited limit rows), w).

Definition get_pending_urls (limit : option Z) : M (list VideoURL.t) :=
  get_by_status VS_PENDING limit.

End WithScan.

Section WithSequence.

(** The primary key that the database assigns to a new row of the
    table. *)
Variable next_id : gmap Z VideoURL.t -> Z.

(** [session.add(video_url); session.flush()].  The INSERT takes
    [discovered_at] and [updated_at] from their default,
    [datetime.utcnow], [retry_count] from its default 0, and is refused
    with [IntegrityError] when a row has the same [url], which is
    declared unique. *)
Definition add_url (url video_id : string) (title channel : option string)
    (views likes duration published_at : option Z) : ME VideoURL.t :=
  discovered_at ← run utcnow;
  updated_at ← run utcnow;
  taken ← (fun w =>
             (Returned (bool_decide (map_Exists (fun _ v => VideoURL.url v = url)
                                       (video_urls w))), w));
  if taken : bool then fail IntegrityError
  else
    id ← (fun w => (Returned (next_id (video_urls w)), w));
    let video_url :=
      VideoURL.mk id url video_id title channel views likes duration published_at
        VS_PENDING discovered_at updated_at None None 0 in
    run (flush id video_url);;
    mret video_url.

End WithSequence.

End VideoRepository.

(** ** storage/repositories/task_repo.py *)

Module TaskRepository.

Definition set_status (s : TaskStatus) (t : Task.t) : Task.t :=
  Task.mk (Task.id t) (Task.video_url_id t) (Task.task_type t) s
    (Task.created_at t) (Task.started_at t) (Task.completed_at t)
    (Task.progress t) (Task.result t) (Task.error_message t)
    (Task.retry_count t).

Definition set_started_at (x : option Z) (t : Task.t) : Task.t :=
  Task.mk (Task.id t) (Task.video_url_id t) (Task.task_type t)
    (Task.status t) (Task.created_at t) x (Task.completed_at t)
    (Task.progress t) (Task.result t) (Task.error_message t)
    (Task.retry_count t).

Definition set_completed_at (x : option Z) (t : Task.t) : Task.t :=
  Task.mk (Task.id t) (Task.video_url_id t) (Task.task_type t)
    (Task.status t) (Task.created_at t) (Task.started_at t) x
    (Task.progress t) (Task.result t) (Task.error_message t)
    (Task.retry_count t).

Definition set_result (r : option string) (t : Task.t) : Task.t :=
  Task.mk (Task.id t) (Task.video_url_id t) (Task.task_type t)
    (Task.status t) (Task.created_at t) (Task.started_at t)
    (Task.completed_at t) (Task.progress t) r (Task.error_message t)
    (Task.retry_count t).

Definition set_error_message (m : option string) (t : Task.t) : Task.t :=
  Task.mk (Task.id t) (Task.video_url_id t) (Task.task_type t)
    (Task.status t) (Task.created_at t) (Task.started_at t)
    (Task.completed_at t) (Task.progress t) (Task.result t) m
    (Task.retry_count t).

Definition set_retry_count (n : Z) (t : Task.t) : Task.t :=
  Task.mk (Task.id t) (Task.video_url_id t) (Task.task_type t)
    (Task.status t) (Task.created_at t) (Task.started_at t)
    (Task.completed_at t) (Task.progress t) (Task.result t)
    (Task.error_message t) n.

(** [bool(result)] for [result : Optional[dict]], the dict being kept as
    its JSON text: [None] and the empty dict are false. *)
Definition truthy_dict (r : option string) : bool :=
  match r with
  | Some s => negb (String.eqb s "{}")
  | None => false
  end.

(** [session.get(Task, task_id)], for a key that the database holds or
    can hold ([sqlite_integer]). *)
Definition session_get (task_id : Z) : M (option Task.t) :=
  fun w => (Ok (tasks w !! task_id), w).

Definition flush (task_id : Z) (t : Task.t) : M unit :=
  fun w => (Ok tt, set_tasks (<[task_id := t]> (tasks w)) w).

Definition get_by_id (task_id : Z) : M (option Task.t) :=
  session_get task_id.

Definition is_terminal (s : TaskStatus) : bool :=
  bool_decide (s ∈ [COMPLETED; FAILED; CANCELLED]).

Definition update_task_status (task_id : Z) (status : TaskStatus)
    (error_message : option string) (result : option string)
    : M (option Task.t) :=
  task ← session_get task_id;
  match task with
  | Some t =>
      let t := set_status status t in
      t ← (if bool_decide (status = RUNNING)
              && negb (bool_decide (is_Some (Task.started_at t)))
           then now ← utcnow; mret (set_started_at (Some now) t)
           else mret t);
      t ← (if is_terminal status
           then now ← utcnow; mret (set_completed_at (Some now) t)
           else mret t);
      let t := if truthy error_message
               then set_error_message error_message t else t in
      let t := if truthy_dict result then set_result result t else t in
      flush task_id t;;
      mret (Some t)
  | None => mret None
  end.

Definition increment_retry_count (task_id : Z) : M (option Task.t) :=
  task ← session_get task_id;
  match task with
  | Some t =>
      let t := set_retry_count (Task.retry_count t + 1) t in
      flush task_id t;;
      mret (Some t)
  | None => mret None
  end.

Definition cancel_task (task_id : Z) : M (option Task.t) :=
  update_task_status task_id CANCELLED None None.

Definition set_progress (p : Q) (t : Task.t) : Task.t :=
  Task.mk (Task.id t) (Task.video_url_id t) (Task.task_type t)
    (Task.status t) (Task.created_at t) (Task.started_at t)
    (Task.completed_at t) p (Task.result t) (Task.error_message t)
    (Task.retry_count t).

(** [max(0.0, min(1.0, progress))]: [min] returns its second argument
    only when it is less than the first, [max] only when it is greater.
    The progress is a finite float, the rational that it denotes; it is
    compared, not computed with. *)
Definition clamp (progress : Q) : Q :=
  let m := if Qle_bool 1 progress then 1%Q else progress in
  if Qle_bool m 0 then 0%Q else m.

Definition update_progress (task_id : Z) (progress : Q) : M (option Task.t) :=
  task ← session_get task_id;
  match task with
  | Some t =>
      let t := set_progress (clamp progress) t in
      flush task_id t;;
      mret (Some t)
  | None => mret None
  end.

Definition flush_delete (task_id : Z) : M unit :=
  fun w => (Ok tt, set_tasks (base.delete task_id (tasks w)) w).

Definition delete (task_id : Z) : M bool :=
  task ← session_get task_id;
  match task with
  | Some _ => flush_delete task_id;; mret true
  | None => mret false
  end.

(** [ORDER BY created_at ASC] and [DESC] compare the rows by these. *)
Definition created_le (a b : Task.t) : Prop := Task.created_at a <= Task.created_at b.
Definition created_ge (a b : Task.t) : Prop := Task.created_at b <= Task.created_at a.

#[global] Instance created_le_dec : RelDecision created_le.
Proof. intros a b. unfold created_le. apply _. Defined.
#[global] Instance created_ge_dec : RelDecision created_ge.
Proof. intros a b. unfold created_ge. apply _. Defined.

Section WithDatabase.

(** The primary key that the database assigns to a new row of a
    table. *)
Variable next_id : gmap Z Task.t -> Z.

(** The rows of the table in the order in which the database takes
    them; [ORDER BY] sorts them and leaves rows of equal key in an order
    that the database chooses. *)
Variable scan : gmap Z Task.t -> list Task.t.

(** [session.add(task); session.flush()]: the INSERT fills the columns
    that were not given from their defaults, [created_at] from
    [datetime.utcnow]. *)
Definition create_task (task_type : string) (video_url_id : option Z)
    : M Task.t :=
  id ← (fun w => (Ok (next_id (tasks w)), w));
  created_at ← utcnow;
  let task :=
    Task.mk id video_url_id task_type PENDING created_at None None 0%Q None None 0 in
  flush id task;;
  mret task.

Definition get_by_status (status : TaskStatus) (task_type : option string)
    (limit : option Z) : M (list Task.t) :=
  fun w =>
    let rows := filter (fun t => Task.status t = status) (scan (tasks w)) in
    let rows := if truthy task_type
                then filter (fun t => Some (Task.task_type t) = task_type) rows
                else rows in
    let rows := merge_sort created_le rows in
    (Ok (limited limit rows), w).

Definition get_pending_tasks (task_type : option string) (limit : option Z)
    : M (list Task.t) :=
  get_by_status PENDING task_type limit.

Definition get_failed_tasks (task_type : option string) (limit : option Z)
    : M (list Task.t) :=
  get_by_status FAILED task_type limit.

Definition get_running_tasks (task_type : option string) : M (list Task.t) :=
  get_by_status RUNNING task_type None.

Definition get_tasks_by_video (video_url_id : Z) : M (list Task.t) :=
  fun w =>
    let rows := filter (fun t => Task.video_url_id t = Some video_url_id)
                  (scan (tasks w)) in
    (Ok (merge_sort created_ge rows), w).

End WithDatabase.

(** The property [Task.duration] of models.py: the seconds between start
    and completion, when both are set. *)
Definition duration (t : Task.t) : option Q :=
  match Task.started_at t, Task.completed_at t with
  | Some started, Some completed => Some ((completed - started) # 1000000)%Q
  | _, _ => None
  end.

End TaskRepository.

(** ** list.sort(key=...) and SQLAlchemy's and_ *)

(** [<] on the key tuples [(-priority, scheduled_time)] of
    [get_ready_uploads].  Tuples are compared at the first position where
    they differ: the integers if they differ; otherwise the second
    components, where [None] equals [None], two strings are compared
    lexicographically, and [None < str] (either way round) raises
    [TypeError]. *)
Definition tuple_lt (a b : Z * option string) : outcome bool :=
  if bool_decide (a.1 = b.1) then
    match a.2, b.2 with
    | None, None => Ok false
    | Some s, Some s' => Ok (String.ltb s s')
    | _, _ => Raise TypeError
    end
  else Ok (a.1 <? b.1).

(** [list.sort] is stable and uses only [<] on the keys.  The model takes
    the elements from left to right and puts each one into the already
    sorted prefix behind every element that is not greater; where no
    comparison raises this is the list every stable sort returns.  A
    comparison that raises aborts the sort. *)
Fixpoint insert_sorted {A : Type} (lt : A -> A -> outcome bool)
    (x : A) (sorted : list A) : outcome (list A) :=
  match sorted with
  | [] => Ok [x]
  | y :: ys =>
      match lt x y with
      | Ok true => Ok (x :: y :: ys)
      | Ok false =>
          match insert_sorted lt x ys with
          | Ok r => Ok (y :: r)
          | Raise e => Raise e
          end
      | Raise e => Raise e
      end
  end.

Definition sort_step {A K : Type} (key : A -> K) (lt : K -> K -> outcome bool)
    (acc : outcome (list A)) (x : A) : outcome (list A) :=
  match acc with
  | Ok s => insert_sorted (fun a b => lt (key a) (key b)) x s
  | Raise e => Raise e
  end.

Definition list_sort {A K : Type} (key : A -> K) (lt : K -> K -> outcome bool)
    (l : list A) : outcome (list A) :=
  fold_left (sort_step key lt) l (Ok []).

(** An argument of [and_(...)]: a column expression, which selects rows,
    or a plain Python object; SQLAlchemy refuses an enum member in the
    WHERE role with [ArgumentError]. *)
Inductive where_arg : Type :=
| Criterion (p : PublishRecord.t -> bool)
| EnumMember (v : Platform).

Fixpoint and_ (args : list where_arg) : outcome (PublishRecord.t -> bool) :=
  match args with
  | [] => Ok (fun _ => true)
  | Criterion p :: rest =>
      match and_ rest with
      | Ok q => Ok (fun r => p r && q r)
      | Raise e => Raise e
      end
  | EnumMember _ :: _ => Raise ArgumentError
  end.

(** ** publishing/scheduler.py *)

Module Scheduler.

Record limit_info : Type := mk_limit_info {
  limit : Z;
  used : Z;
  remaining : Z;
  limit_reached : bool
}.

Definition set_status_fields (status : string) (started completed : option string)
    (e : Entry.t) : Entry.t :=
  Entry.mk (Entry.id e) (Entry.video_file_path e) (Entry.metadata e)
    (Entry.platform e) (Entry.scheduled_time e) (Entry.priority e)
    status (Entry.added_at e) (Entry.attempts e) (Entry.last_error e)
    started completed.

Definition set_error (msg : option string) (attempts : Z) (e : Entry.t) : Entry.t :=
  Entry.mk (Entry.id e) (Entry.video_file_path e) (Entry.metadata e)
    (Entry.platform e) (Entry.scheduled_time e) (Entry.priority e)
    (Entry.status e) (Entry.added_at e) attempts msg
    (Entry.started_at e) (Entry.completed_at e).

Definition _load_queue : M (list Entry.t) :=
  fun w => (Ok (default [] (queue_file w)), w).

Definition _save_queue (queue : list Entry.t) : M unit :=
  fun w => (Ok tt, set_queue_file (Some queue) w).

Definition add_to_queue (video_file_path metadata platform : string)
    (scheduled_time : option Z) (priority : Z) : M string :=
  queue ← _load_queue;
  t_id ← utcnow;
  let entry_id := platform ++ "_" ++ Datetime.strftime_YmdHMS t_id in
  t_added ← utcnow;
  let entry :=
    Entry.mk entry_id video_file_path metadata platform
      (Datetime.isoformat <$> scheduled_time) priority "queued"
      (Datetime.isoformat t_added) 0 None None None in
  _save_queue (app queue [entry]);;
  mret entry_id.

Definition get_next_upload_time (platform : string) (base_time : option Z)
    : M Z :=
  base_time ← match base_time with
              | Some t => mret t
              | None => utcnow
              end;
  optimal_times ← (fun w => (Ok (default [9; 12; 18; 21] (optimal_times_cfg w)), w));
  let current_hour := Datetime.hour base_time in
  let next_hours := List.filter (fun h => current_hour <? h) optimal_times in
  match next_hours with
  | next_hour :: _ => lift (Datetime.replace_hour base_time next_hour)
  | [] =>
      match optimal_times with
      | next_hour :: _ =>
          let next_time := base_time + Datetime.timedelta_days 1 in
          lift (Datetime.replace_hour next_time next_hour)
      | [] => raise IndexError
      end
  end.

(** The loop of [schedule_batch_uploads] over [zip(video_files,
    metadata_list)]. *)
Fixpoint batch_loop (pairs : list (string * string)) (platform : string)
    (current_time interval_hours : Z) : M (list string) :=
  match pairs with
  | [] => mret []
  | (video_file, metadata) :: rest =>
      entry_id ← add_to_queue video_file metadata platform (Some current_time) 5;
      entry_ids ← batch_loop rest platform
                    (current_time + Datetime.timedelta_hours interval_hours)
                    interval_hours;
      mret (entry_id :: entry_ids)
  end.

Definition schedule_batch_uploads (video_files metadata_list : list string)
    (platform : string) (start_time : option Z) (interval_hours : Z)
    : M (list string) :=
  if negb (Nat.eqb (length video_files) (length metadata_list))
  then raise PublishingError
  else
    start_time ← match start_time with
                 | Some t => mret t
                 | None => get_next_upload_time platform None
                 end;
    batch_loop (combine video_files metadata_list) platform start_time
      interval_hours.

Definition remove_from_queue (entry_id : string) : M unit :=
  queue ← _load_queue;
  let queue := filter (fun e => Entry.id e ≠ entry_id) queue in
  _save_queue queue.

(** The first conjunct of the WHERE clause of [check_daily_limit]:
    [PublishRecord.platform == Platform.YOUTUBE if platform == "youtube"
     else Platform.TIKTOK].  The conditional expression binds weaker than
    [==], so its else-branch is the enum member itself. *)
Definition platform_clause (platform : string) : where_arg :=
  if String.eqb platform "youtube"
  then Criterion (fun r => bool_decide (PublishRecord.platform r = YOUTUBE))
  else EnumMember TIKTOK.

Definition published_at_ge (t : Z) (r : PublishRecord.t) : bool :=
  match PublishRecord.published_at r with
  | Some p => t <=? p
  | None => false
  end.

Definition published_at_lt (t : Z) (r : PublishRecord.t) : bool :=
  match PublishRecord.published_at r with
  | Some p => p <? t
  | None => false
  end.

Definition session_execute (criterion : PublishRecord.t -> bool)
    : M (list PublishRecord.t) :=
  fun w => (Ok (List.filter criterion (publish_records w)), w).

Definition check_daily_limit (platform : string) (date : option Z)
    : M limit_info :=
  date ← match date with
         | Some d => mret d
         | None => utcnow
         end;
  daily_limit ← (fun w => (Ok (default 3 (daily_limit_cfg w)), w));
  let start_of_day := Datetime.start_of_day date in
  let end_of_day := start_of_day + Datetime.timedelta_days 1 in
  stmt ← lift (and_ [ platform_clause platform;
                      Criterion (published_at_ge start_of_day);
                      Criterion (published_at_lt end_of_day);
                      Criterion (fun r => Bool.eqb (PublishRecord.is_published r) true) ]);
  result ← session_execute stmt;
  let today_uploads := Z.of_nat (length result) in
  let remaining := Z.max 0 (daily_limit - today_uploads) in
  mret (mk_limit_info daily_limit today_uploads remaining (remaining =? 0)).

(** The dict that [get_queue_statistics] builds.  Its integer values
    (under total, queued, uploading, completed, failed and under every
    other status that is met) are [counters]; the value under the key
    by_platform is [by_platform]. *)
Record statistics : Type := mk_statistics {
  counters : gmap string Z;
  by_platform : gmap string (gmap string Z)
}.

Definition zero_counts : gmap string Z :=
  {[ "queued" := 0; "uploading" := 0; "completed" := 0; "failed" := 0 ]}.

(** One turn of the loop of [get_queue_statistics].  For the status
    by_platform, [stats.get(status, 0)] is the inner dict, and adding 1 to
    a dict raises [TypeError]. *)
Definition stats_step (acc : outcome statistics) (entry : Entry.t)
    : outcome statistics :=
  match acc with
  | Raise e => Raise e
  | Ok stats =>
      let status := Entry.status entry in
      if String.eqb status "by_platform" then Raise TypeError
      else
        let counters :=
          <[status := default 0 (counters stats !! status) + 1]> (counters stats) in
        let platform := Entry.platform entry in
        let by_platform :=
          match by_platform stats !! platform with
          | Some _ => by_platform stats
          | None => <[platform := zero_counts]> (by_platform stats)
          end in
        let of_platform := default ∅ (by_platform !! platform) in
        let of_platform :=
          <[status := default 0 (of_platform !! status) + 1]> of_platform in
        Ok (mk_statistics counters (<[platform := of_platform]> by_platform))
  end.

Definition get_queue_statistics : M statistics :=
  queue ← _load_queue;
  let stats :=
    mk_statistics
      (<["total" := Z.of_nat (length queue)]> zero_counts) ∅ in
  lift (fold_left stats_step queue (Ok stats)).

(** The module-level [schedule_upload]: a new scheduler, then
    [add_to_queue] with the default priority. *)
Definition schedule_upload (video_file_path metadata platform : string)
    (scheduled_time : option Z) : M string :=
  add_to_queue video_file_path metadata platform scheduled_time 5.

Section WithParser.

(** [datetime.fromisoformat], followed by the comparison of its result
    with a naive datetime: [Ok t] for a string that denotes the naive
    datetime [t], [Raise] for a string that is refused ([ValueError])
    or that carries a UTC offset (the comparison raises
    [TypeError]). *)
Variable fromisoformat : string -> outcome Z.

(** The loop of [get_ready_uploads] that collects [ready]. *)
Fixpoint ready_loop (platform : option string) (now : Z)
    (queue : list Entry.t) : outcome (list Entry.t) :=
  match queue with
  | [] => Ok []
  | entry :: rest =>
      if negb (String.eqb (Entry.status entry) "queued")
      then ready_loop platform now rest
      else if truthy platform
              && negb (bool_decide (Some (Entry.platform entry) = platform))
      then ready_loop platform now rest
      else
        let scheduled_time := Entry.scheduled_time entry in
        let append :=
          match ready_loop platform now rest with
          | Ok ready => Ok (entry :: ready)
          | Raise e => Raise e
          end in
        if truthy scheduled_time then
          match fromisoformat (default "" scheduled_time) with
          | Ok scheduled_dt =>
              if now <? scheduled_dt
              then ready_loop platform now rest
              else append
          | Raise e => Raise e
          end
        else append
  end.

(** The sort key [(-x['priority'], x.get('scheduled_time', ''))]: the
    key is present in every entry, so [get] returns its value, [None]
    for an unscheduled one. *)
Definition sort_key (x : Entry.t) : Z * option string :=
  (- Entry.priority x, Entry.scheduled_time x).

Definition get_ready_uploads (limit : option Z) (platform : option string)
    : M (list Entry.t) :=
  queue ← _load_queue;
  now ← utcnow;
  ready ← lift (ready_loop platform now queue);
  ready ← lift (list_sort sort_key tuple_lt ready);
  let ready := if truthy_int limit
               then slice_to ready (default 0 limit) else ready in
  mret ready.

(** The loop of [update_entry_status]: the first entry with the id is
    changed, then [break]. *)
Fixpoint update_loop (entry_id status : string)
    (error_message : option string) (queue : list Entry.t)
    : M (list Entry.t) :=
  match queue with
  | [] => mret []
  | entry :: rest =>
      if String.eqb (Entry.id entry) entry_id then
        entry ← (if String.eqb status "uploading" then
                   now ← utcnow;
                   mret (set_status_fields status
                           (Some (Datetime.isoformat now))
                           (Entry.completed_at entry) entry)
                 else if bool_decide (status ∈ ["completed"; "failed"]) then
                   now ← utcnow;
                   mret (set_status_fields status (Entry.started_at entry)
                           (Some (Datetime.isoformat now)) entry)
                 else
                   mret (set_status_fields status (Entry.started_at entry)
                           (Entry.completed_at entry) entry));
        let entry := if truthy error_message
                     then set_error error_message (Entry.attempts entry + 1) entry
                     else entry in
        mret (entry :: rest)
      else
        rest ← update_loop entry_id status error_message rest;
        mret (entry :: rest)
  end.

Definition update_entry_status (entry_id status : string)
    (error_message : option string) : M unit :=
  queue ← _load_queue;
  queue ← update_loop entry_id status error_message queue;
  _save_queue queue.

(** The list comprehension of [cleanup_completed], for a cutoff that
    [datetime] represents.  For an entry of
    status completed, the default argument of [get],
    [datetime.utcnow().isoformat()], is evaluated before [get] is
    called, whether or not the key is present. *)
Fixpoint cleanup_filter (cutoff : Z) (queue : list Entry.t)
    : M (list Entry.t) :=
  match queue with
  | [] => mret []
  | e :: rest =>
      keep ← (if negb (String.eqb (Entry.status e) "completed")
              then mret true
              else
                now ← utcnow;
                let s := default (Datetime.isoformat now) (Entry.completed_at e) in
                dt ← lift (fromisoformat s);
                mret (cutoff <? dt));
      rest ← cleanup_filter cutoff rest;
      mret (if keep : bool then e :: rest else rest)
  end.

Definition cleanup_completed (days : Z) : M unit :=
  queue ← _load_queue;
  now ← utcnow;
  let cutoff := now - Datetime.timedelta_days days in
  let original_count := Z.of_nat (length queue) in
  queue ← cleanup_filter cutoff queue;
  let removed := original_count - Z.of_nat (length queue) in
  if 0 <? removed then _save_queue queue else mret tt.

End WithParser.

End Scheduler.

(** ** discovery/youtube_monitor.py *)

Module YouTubeMonitor.

(** An item of the videos.list response, with the fields that
    [filter_videos] reads.  [categoryId], [viewCount] and [likeCount] are
    read with [get] and may be absent; the two counts are the integers
    that their decimal strings denote. *)
Record video : Type := mk_video {
  id : string;
  categoryId : option string;
  title : string;
  channelTitle : string;
  publishedAt : string;
  duration : string;                (* contentDetails.duration, ISO 8601 *)
  viewCount : option Z;
  likeCount : option Z
}.

Record video_data : Type := mk_video_data {
  vd_video_id : string;
  vd_title : string;
  vd_channel : string;
  vd_views : Z;
  vd_likes : Z;
  vd_vph : Z;
  vd_published_at : Z;
  vd_duration : Z;
  vd_url : string
}.

(** [int(x)] of a finite float. *)
Definition int_of (x : Q) : Z := Float.truncate x.

Section WithIsodate.

(** [isodate.parse_duration(s).total_seconds()], the float of the
    seconds; [Raise] when either step raises. *)
Variable isodate_total_seconds : string -> outcome Q.

(** [isodate.parse_datetime], an instant as microseconds since the
    epoch; [Raise] for a string that is refused, and for one without a
    UTC offset, which the subtraction from the time of the call
    refuses ([TypeError]). *)
Variable isodate_parse_datetime : string -> outcome Z.

Definition parse_duration (duration_iso : string) : Q :=
  match isodate_total_seconds duration_iso with
  | Ok seconds => seconds
  | Raise _ => 0%Q
  end.

Definition is_short (v : video) (max_duration : Z) : bool :=
  let seconds := parse_duration (duration v) in
  Qltb 0 seconds && Qle_bool seconds (inject_Z max_duration).

(** [time_diff = now - published_at] and
    [hours_since_published = time_diff.total_seconds() / 3600] *)
Definition hours_since_published (now published_at : Z) : outcome Float.t :=
  time_diff ← Datetime.sub now published_at;
  seconds ← Datetime.total_seconds time_diff;
  Float.truediv_int seconds 3600.

(** [view_count / hours_since_published if hours_since_published > 0
     else 0] *)
Definition views_per_hour (view_count : Z) (hours_since_published : Float.t)
    : outcome Float.t :=
  if Float.gt_int hours_since_published 0
  then Float.rtruediv_int view_count hours_since_published
  else Ok (Float.Finite 0).

(** The loop of [filter_videos]; the [stats] counters only feed the
    log and are left out. *)
Fixpoint filter_loop (now max_age_hours min_vph : Z) (videos : list video)
    : outcome (list video_data) :=
  match videos with
  | [] => Ok []
  | v :: rest =>
      if bool_decide (categoryId v = Some "10")
      then filter_loop now max_age_hours min_vph rest
      else if negb (is_short v 60)
      then filter_loop now max_age_hours min_vph rest
      else
        published_at ← isodate_parse_datetime (publishedAt v);
        hours ← hours_since_published now published_at;
        if Float.ge_int hours max_age_hours || Float.le_int hours 0
        then filter_loop now max_age_hours min_vph rest
        else
          let view_count := default 0 (viewCount v) in
          vph ← views_per_hour view_count hours;
          if Float.lt_int vph min_vph
          then filter_loop now max_age_hours min_vph rest
          else
            vph_int ← Float.to_int vph;
            let data :=
              mk_video_data (id v) (title v) (channelTitle v)
                view_count (default 0 (likeCount v)) vph_int
                published_at (int_of (parse_duration (duration v)))
                ("https://www.youtube.com/shorts/" ++ id v) in
            filtered ← filter_loop now max_age_hours min_vph rest;
            Ok (data :: filtered)
  end.

(** [datetime.datetime.now(datetime.timezone.utc)] is a reading of the
    same clock. *)
Definition filter_videos (videos : list video) (max_age_hours min_vph : Z)
    : M (list video_data) :=
  now ← utcnow;
  lift (filter_loop now max_age_hours min_vph videos).

End WithIsodate.

Section Discovery.

Variable isodate_total_seconds : string -> outcome Q.
Variable isodate_parse_datetime : string -> outcome Z.

(** The videos that [get_most_popular_videos] collects from the answers
    of the API for a region. *)
Variable get_most_popular_videos : string -> list video.

(** The primary key that the database assigns to a new row of
    [video_urls]. *)
Variable next_id : gmap Z VideoURL.t -> Z.

(** The comparison of [viral_videos.sort(key=lambda x: x['vph'],
    reverse=True)]: descending, records of equal vph in their order. *)
Definition vph_gt (a b : Z) : outcome bool := Ok (b <? a).

(** The loop of [discover_and_save], which runs inside the session. *)
Fixpoint save_loop (viral_videos : list video_data) : ME Z :=
  match viral_videos with
  | [] => mret 0
  | video_data :: rest =>
      known ← run (VideoRepository.exists_by_video_id (vd_video_id video_data));
      added ← (if known : bool then mret 0
               else
                 VideoRepository.add_url next_id (vd_url video_data)
                   (vd_video_id video_data) (Some (vd_title video_data))
                   (Some (vd_channel video_data)) (Some (vd_views video_data))
                   (Some (vd_likes video_data)) (Some (vd_duration video_data))
                   (Some (vd_published_at video_data));;
                 mret 1);
      new_count ← save_loop rest;
      mret (added + new_count)
  end.

Definition discover_and_save (region_code : string) (max_age_hours min_vph : Z)
    : ME Z :=
  let raw_videos := get_most_popular_videos region_code in
  viral_videos ← run (filter_videos isodate_total_seconds isodate_parse_datetime
                        raw_videos max_age_hours min_vph);
  viral_videos ← run (lift (list_sort vd_vph vph_gt viral_videos));
  with_session (save_loop viral_videos).

End Discovery.

End YouTubeMonitor.

(** ** analysis/scene_analyzer.py *)

Module SceneAnalyzer.

Section WithGemini.

(** [self.analyze_video_scenes(url, title, duration)]: the analysis, a
    dict kept as its JSON text, or the exception that the call raises. *)
Variable analyze_video_scenes : string -> option string -> option Z -> completion string.

(** [d[key] = value] on a dict that is kept as its JSON text. *)
Variable set_item : string -> string -> string -> string.

(** [str(e)] *)
Variable str : error -> string.

Definition analyze_video_by_id (video_url_id : Z) : ME string :=
  with_session
    (video_url ← run (VideoRepository.get_by_id video_url_id);
     match video_url with
     | None => fail SceneAnalysisError
     | Some v =>
         run (VideoRepository.update_status video_url_id VS_ANALYZING None);;
         try_except
           (analysis_result ← (fun w =>
                                 (analyze_video_scenes (VideoURL.url v)
                                    (VideoURL.title v) (VideoURL.duration v), w));
            now ← run utcnow;
            let analysis_result :=
              set_item analysis_result "analyzed_at" (Datetime.isoformat now) in
            let analysis_result :=
              set_item analysis_result "video_id" (VideoURL.video_id v) in
            run (VideoRepository.update_analysis_data video_url_id analysis_result);;
            run (VideoRepository.update_status video_url_id VS_ANALYZED None);;
            mret analysis_result)
           (fun e =>
              run (VideoRepository.update_status video_url_id VS_FAILED
                     (Some (str e)));;
              fail e)
     end).

End WithGemini.

End SceneAnalyzer.

(** ** publishing/uploaders/youtube.py *)

Definition set_publish_records (l : list PublishRecord.t) (w : world) : world :=
  mkWorld (clock w) (ticks w) (queue_file w) (video_urls w) (tasks w) l
    (daily_limit_cfg w) (optimal_times_cfg w).

(** [d[key]] on a dict whose values are strings or [None]. *)
Definition getitem (d : gmap string (option string)) (key : string)
    : ME (option string) :=
  match d !! key with
  | Some value => mret value
  | None => fail (External "KeyError")
  end.

Module YouTubeUploader.

Section WithSequence.

(** The primary key that the database assigns to a new row of
    [publish_records]. *)
Variable next_id : list PublishRecord.t -> Z.

Definition assigned_id : ME Z :=
  fun w => (Returned (next_id (publish_records w)), w).

(** [session.add(record)] as it reaches the table at
    [session.flush()]. *)
Definition flush (record : PublishRecord.t) : ME unit :=
  fun w => (Returned tt, set_publish_records (app (publish_records w) [record]) w).

(** The arguments of [PublishRecord(...)] are evaluated from left to
    right, [datetime.utcnow()] last; the INSERT at [session.flush()]
    takes [created_at] and [updated_at] from their default and refuses a
    title that is [None], the column being declared not null. *)
Definition record_upload_to_database (generated_video_id : Z)
    (upload_result metadata : gmap string (option string)) : ME Z :=
  with_session
    (platform_video_id ← getitem upload_result "video_id";
     platform_url ← getitem upload_result "url";
     title ← getitem metadata "title";
     published_at ← run utcnow;
     created_at ← run utcnow;
     updated_at ← run utcnow;
     match title with
     | None => fail IntegrityError
     | Some _ =>
         id ← assigned_id;
         flush (PublishRecord.mk id generated_video_id YOUTUBE true
                  (Some published_at));;
         mret id
     end).

End WithSequence.

End YouTubeUploader.

(** * Vocabulary of the properties *)

(** What [_load_queue] returns in a world. *)
Definition queue_of (w : world) : list Entry.t := default [] (queue_file w).

(** The task that [update_task_status] stores and returns for a stored
    task [t], read off the code branch by branch. *)
Definition task_after (now : Z) (status : TaskStatus)
    (error_message result : option string) (t : Task.t) : Task.t :=
  let t1 := TaskRepository.set_status status t in
  let t2 := if bool_decide (status = RUNNING)
               && negb (bool_decide (is_Some (Task.started_at t)))
            then TaskRepository.set_started_at (Some now) t1 else t1 in
  let t3 := if TaskRepository.is_terminal status
            then TaskRepository.set_completed_at (Some now) t2 else t2 in
  let t4 := if truthy error_message
            then TaskRepository.set_error_message error_message t3 else t3 in
  if TaskRepository.truthy_dict result
  then TaskRepository.set_result result t4 else t4.

(** For a sort by [key] with the comparison [lt]: [x] may stand before
    [y], because [y] is not less than [x]. *)
Definition in_order {A K : Type} (key : A -> K) (lt : K -> K -> outcome bool)
    (x y : A) : Prop :=
  lt (key y) (key x) = Ok false.

(** The elements of [l] whose key is [k], in their order. *)
Definition with_key {A K : Type} `{EqDecision K} (key : A -> K) (k : K)
    (l : list A) : list A :=
  filter (fun e => key e = k) l.

(** [x] ranks before [y] in the result of [get_ready_uploads], or ties
    with it: its priority is higher; or the priorities are equal and both
    are unscheduled, or both are scheduled and the scheduled time of [y],
    as a string, is not less than that of [x]. *)
Definition ranks_before_or_ties (x y : Entry.t) : Prop :=
  Entry.priority y < Entry.priority x
  \/ (Entry.priority x = Entry.priority y
      /\ ((Entry.scheduled_time x = None /\ Entry.scheduled_time y = None)
          \/ exists s s' : string,
               Entry.scheduled_time x = Some s /\ Entry.scheduled_time y = Some s'
               /\ String.ltb s' s = false)).

(** [e] passes the platform filter: none is given ([None], or the empty
    string, which the code takes for none), or the platform is the one
    asked for. *)
Definition platform_matches (platform : option string) (e : Entry.t) : Prop :=
  forall p : string, platform = Some p -> p <> "" -> Entry.platform e = p.

(** [r] is a publication on [platform] that is flagged as published and
    whose time lies in the day that starts at [start]. *)
Definition published_in_day (platform : Platform) (start : Z)
    (r : PublishRecord.t) : bool :=
  bool_decide (PublishRecord.platform r = platform)
  && PublishRecord.is_published r
  && match PublishRecord.published_at r with
     | Some p => (start <=? p) && (p <? start + 24 * Datetime.us_per_hour)
     | None => false
     end.

(** The entry that [update_entry_status] writes in the place of [e], with
    [now] the reading of the clock that the call takes. *)
Definition entry_after (now : Z) (status : string)
    (error_message : option string) (e : Entry.t) : Entry.t :=
  Entry.mk (Entry.id e) (Entry.video_file_path e) (Entry.metadata e)
    (Entry.platform e) (Entry.scheduled_time e) (Entry.priority e) status
    (Entry.added_at e)
    (if truthy error_message then Entry.attempts e + 1 else Entry.attempts e)
    (if truthy error_message then error_message else Entry.last_error e)
    (if String.eqb status "uploading"
     then Some (Datetime.isoformat now) else Entry.started_at e)
    (if bool_decide (status ∈ ["completed"; "failed"])
     then Some (Datetime.isoformat now) else Entry.completed_at e).

(** The number of jobs of [queue] with the status [s]; with the platform
    [p] and the status [s]. *)
Definition count_status (s : string) (queue : list Entry.t) : Z :=
  Z.of_nat (length (filter (fun e => Entry.status e = s) queue)).

Definition count_platform_status (p s : string) (queue : list Entry.t) : Z :=
  Z.of_nat (length (filter (fun e => Entry.platform e = p /\ Entry.status e = s) queue)).

(** [stats[s]] and [stats['by_platform'][p][s]], 0 where a key is
    missing. *)
Definition counter (stats : Scheduler.statistics) (s : string) : Z :=
  default 0 (Scheduler.counters stats !! s).

Definition platform_counter (stats : Scheduler.statistics) (p s : string) : Z :=
  default 0 (Scheduler.by_platform stats !! p ≫= (.!! s)).

(** The job that the [i]-th turn of [schedule_batch_uploads] enqueues,
    but for its id and the time it was added. *)
Definition batch_job (platform : string) (start interval_hours : Z) (i : nat)
    (video_file metadata : string) (e : Entry.t) : Prop :=
  Entry.video_file_path e = video_file
  /\ Entry.metadata e = metadata
  /\ Entry.platform e = platform
  /\ Entry.scheduled_time e
     = Some (Datetime.isoformat
               (start + Z.of_nat i * Datetime.timedelta_hours interval_hours))
  /\ Entry.priority e = 5
  /\ Entry.status e = "queued"
  /\ Entry.attempts e = 0
  /\ Entry.last_error e = None.

(** The URL under which [discover_and_save] and [normalize_url] store
    a video. *)
Definition shorts_url (video_id : string) : string :=
  "https://www.youtube.com/shorts/" ++ video_id.

(** A row of [m] has the YouTube id [video_id]. *)
Definition stored_video_id (m : gmap Z VideoURL.t) (video_id : string) : Prop :=
  exists (i : Z) (v : VideoURL.t), m !! i = Some v /\ VideoURL.video_id v = video_id.

(** Every row holds the Shorts URL of its YouTube id. *)
Definition canonical_urls (m : gmap Z VideoURL.t) : Prop :=
  forall (i : Z) (v : VideoURL.t),
    m !! i = Some v -> VideoURL.url v = shorts_url (VideoURL.video_id v).

(** No two rows have the same YouTube id. *)
Definition distinct_video_ids (m : gmap Z VideoURL.t) : Prop :=
  forall (i j : Z) (v v' : VideoURL.t),
    m !! i = Some v -> m !! j = Some v' ->
    VideoURL.video_id v = VideoURL.video_id v' -> i = j.

Section QueueVocabulary.

Variable fromisoformat : string -> outcome Z.

(** The scheduled time of [e] has come at [now]: [e] has none ([null],
    or the empty string, which the code takes for none), or it has one
    that is not later than [now]. *)
Definition due (now : Z) (e : Entry.t) : Prop :=
  Entry.scheduled_time e = None
  \/ Entry.scheduled_time e = Some ""
  \/ exists (s : string) (t : Z),
       Entry.scheduled_time e = Some s /\ fromisoformat s = Ok t /\ t <= now.

(** [e] is a completed job whose recorded completion time is not later
    than [cutoff]. *)
Definition expired (cutoff : Z) (e : Entry.t) : Prop :=
  Entry.status e = "completed"
  /\ exists (s : string) (t : Z),
       Entry.completed_at e = Some s /\ fromisoformat s = Ok t /\ t <= cutoff.

Definition expiredb (cutoff : Z) (e : Entry.t) : bool :=
  String.eqb (Entry.status e) "completed"
  && match Entry.completed_at e with
     | Some s =>
         match fromisoformat s with
         | Ok t => t <=? cutoff
         | Raise _ => false
         end
     | None => false
     end.

(** The completion times written in the queue can be read back. *)
Definition completion_times_readable (queue : list Entry.t) : Prop :=
  forall (e : Entry.t) (s : string),
    e ∈ queue -> Entry.status e = "completed" -> Entry.completed_at e = Some s ->
    exists t : Z, fromisoformat s = Ok t.

(** [fromisoformat] reads back what [isoformat] writes, for the next
    [n] readings of the clock. *)
Definition clock_readings_roundtrip (n : nat) (w : world) : Prop :=
  forall k : nat, (ticks w <= k < ticks w + n)%nat ->
    fromisoformat (Datetime.isoformat (clock w k)) = Ok (clock w k).

End QueueVocabulary.

(** A float is at least, respectively at most, [k]. *)
Definition at_least (k : Q) (x : Float.t) : Prop :=
  match x with
  | Float.Finite q => (k <= q)%Q
  | Float.Infinity negative => negative = false
  | Float.NaN => False
  end.

Definition at_most (k : Q) (x : Float.t) : Prop :=
  match x with
  | Float.Finite q => (q <= k)%Q
  | Float.Infinity negative => negative = true
  | Float.NaN => False
  end.

Section FilterVocabulary.

Variable isodate_total_seconds : string -> outcome Q.
Variable isodate_parse_datetime : string -> outcome Z.

(** The acceptance rule, with the duration bound as the code has it:
    not music; duration above 0 and at most 60 seconds; age in hours
    above 0 and below [max_age_hours]; views per hour at least [min_vph].
    The age in hours and the views per hour are the floats that the code
    computes. *)
Definition accepted (now max_age_hours min_vph : Z) (v : YouTubeMonitor.video)
    : Prop :=
  let seconds :=
    YouTubeMonitor.parse_duration isodate_total_seconds (YouTubeMonitor.duration v) in
  YouTubeMonitor.categoryId v <> Some "10"
  /\ (0 < seconds)%Q
  /\ (seconds <= inject_Z 60)%Q
  /\ exists (published : Z) (hours vph : Q),
       isodate_parse_datetime (YouTubeMonitor.publishedAt v) = Ok published
       /\ YouTubeMonitor.hours_since_published now published = Ok (Float.Finite hours)
       /\ (0 < hours)%Q
       /\ (hours < inject_Z max_age_hours)%Q
       /\ YouTubeMonitor.views_per_hour (default 0%Z (YouTubeMonitor.viewCount v))
            (Float.Finite hours) = Ok (Float.Finite vph)
       /\ (inject_Z min_vph <= vph)%Q.

(** The four tests of the loop, for an item on which no step raises. *)
Definition acceptedb (now max_age_hours min_vph : Z) (v : YouTubeMonitor.video)
    : bool :=
  negb (bool_decide (YouTubeMonitor.categoryId v = Some "10"))
  && YouTubeMonitor.is_short isodate_total_seconds v 60
  && match isodate_parse_datetime (YouTubeMonitor.publishedAt v) with
     | Ok published =>
         match YouTubeMonitor.hours_since_published now published with
         | Ok hours =>
             negb (Float.ge_int hours max_age_hours || Float.le_int hours 0)
             && match YouTubeMonitor.views_per_hour
                        (default 0 (YouTubeMonitor.viewCount v)) hours with
                | Ok vph =>
                    negb (Float.lt_int vph min_vph)
                    && match Float.to_int vph with
                       | Ok _ => true
                       | Raise _ => false
                       end
                | Raise _ => false
                end
         | Raise _ => false
         end
     | Raise _ => false
     end.

(** The record that [filter_videos] builds for a kept video. *)
Definition video_data_of (now : Z) (v : YouTubeMonitor.video)
    : YouTubeMonitor.video_data :=
  let published :=
    match isodate_parse_datetime (YouTubeMonitor.publishedAt v) with
    | Ok t => t
    | Raise _ => 0
    end in
  let views := default 0 (YouTubeMonitor.viewCount v) in
  let vph_int :=
    match (hours ← YouTubeMonitor.hours_since_published now published;
           vph ← YouTubeMonitor.views_per_hour views hours;
           Float.to_int vph) with
    | Ok n => n
    | Raise _ => 0
    end in
  YouTubeMonitor.mk_video_data (YouTubeMonitor.id v) (YouTubeMonitor.title v)
    (YouTubeMonitor.channelTitle v) views
    (default 0 (YouTubeMonitor.likeCount v)) vph_int published
    (YouTubeMonitor.int_of
       (YouTubeMonitor.parse_duration isodate_total_seconds (YouTubeMonitor.duration v)))
    ("https://www.youtube.com/shorts/" ++ YouTubeMonitor.id v).

(** The loop reads the publication time and the view count of [v]: [v]
    is not music and is a Short. *)
Definition examined (v : YouTubeMonitor.video) : Prop :=
  YouTubeMonitor.categoryId v <> Some "10"
  /\ YouTubeMonitor.is_short isodate_total_seconds v 60 = true.

(** The publication time of [v] can be read, and is an instant that
    [datetime] represents; the view count is one that the API can give,
    an unsigned 64-bit integer. *)
Definition readable (v : YouTubeMonitor.video) : Prop :=
  (exists published : Z,
     isodate_parse_datetime (YouTubeMonitor.publishedAt v) = Ok published
     /\ Datetime.representable published)
  /\ 0 <= default 0 (YouTubeMonitor.viewCount v) < 2 ^ 64.

End FilterVocabulary.

(** ** Concrete worlds for the examples *)

(** A clock that advances by one microsecond per reading, from [t0]. *)
Definition ticking_clock (t0 : Z) : nat -> Z := fun k => Z.of_nat k + t0.

(** A clock whose readings all fall on the same instant (a timer of
    coarse resolution read in quick succession). *)
Definition frozen_clock (t0 : Z) : nat -> Z := fun _ => t0.

(** No queue file, empty tables, no configured daily limit. *)
Definition empty_world (c : nat -> Z) : world :=
  mkWorld c 0 None ∅ ∅ [] None None.

(** 2024-01-01T12:00:00 *)
Definition noon : Z := 1704110400000000.

Definition sample_video : VideoURL.t :=
  VideoURL.mk 1 "https://www.youtube.com/shorts/abc" "abc" None None None None
    None None VS_ANALYZING noon noon None None 0.

Definition sample_task : Task.t :=
  Task.mk 1 (Some 1) "analysis" PENDING noon None None 0%Q None None 0.

Definition sample_db : world :=
  mkWorld (ticking_clock (noon + 5000000)) 0 None
    {[ 1 := sample_video ]} {[ 1 := sample_task ]} [] None None.

(** A clock that advances by [step] microseconds per reading. *)
Definition stepping_clock (t0 step : Z) : nat -> Z :=
  fun k => Z.of_nat k * step + t0.

Definition entry_a : Entry.t :=
  Entry.mk "youtube_20240101120000" "a.mp4" "{}" "youtube" None 5 "queued"
    "2024-01-01T12:00:01" 0 None None None.

Definition entry_b : Entry.t :=
  Entry.mk "youtube_20240101120002" "b.mp4" "{}" "youtube"
    (Some "2024-01-01T11:00:00") 7 "queued" "2024-01-01T12:00:03" 0 None None None.

Definition entry_c : Entry.t :=
  Entry.mk "youtube_20240101120004" "c.mp4" "{}" "youtube"
    (Some "2024-01-02T12:00:00") 9 "queued" "2024-01-01T12:00:05" 0 None None None.

Definition entry_d : Entry.t :=
  Entry.mk "tiktok_20240101120006" "d.mp4" "{}" "tiktok" None 5 "queued"
    "2024-01-01T12:00:07" 0 None None None.

(** Scheduled in the past, with the priority of [entry_a]. *)
Definition entry_p : Entry.t :=
  Entry.mk "youtube_20240101120002" "b.mp4" "{}" "youtube"
    (Some "2024-01-01T11:00:00") 5 "queued" "2024-01-01T12:00:03" 0 None None None.

Definition done_old : Entry.t :=
  Entry.mk "youtube_20231201120000" "e.mp4" "{}" "youtube" None 5 "completed"
    "2023-12-01T12:00:00" 0 None (Some "2023-12-01T12:10:00")
    (Some "2023-12-01T12:30:00").

Definition done_recent : Entry.t :=
  Entry.mk "youtube_20231231090000" "f.mp4" "{}" "youtube" None 5 "completed"
    "2023-12-31T09:00:00" 0 None (Some "2023-12-31T09:10:00")
    (Some "2023-12-31T09:30:00").

(** Completed exactly seven days before [noon]. *)
Definition done_at_cutoff : Entry.t :=
  Entry.mk "youtube_20231225110000" "g.mp4" "{}" "youtube" None 5 "completed"
    "2023-12-25T11:00:00" 0 None (Some "2023-12-25T11:30:00")
    (Some "2023-12-25T12:00:00").

(** Status completed, no [completed_at] key. *)
Definition done_untimed : Entry.t :=
  Entry.mk "youtube_20230101000000" "h.mp4" "{}" "youtube" None 5 "completed"
    "2023-01-01T00:00:00" 0 None None None.

Definition failed_old : Entry.t :=
  Entry.mk "youtube_20230102000000" "i.mp4" "{}" "youtube" None 5 "failed"
    "2023-01-02T00:00:00" 1 (Some "quota") (Some "2023-01-02T00:10:00")
    (Some "2023-01-02T00:20:00").

Definition world_with_queue (c : nat -> Z) (n : nat) (q : list Entry.t) : world :=
  mkWorld c n (Some q) ∅ ∅ [] None None.

(** Four enqueued jobs and an old completed one, eight readings after
    [noon] on a clock that steps by a second. *)
Definition queue_world : world :=
  world_with_queue (stepping_clock noon 1000000) 8
    [entry_a; entry_b; entry_c; entry_d; done_old].

(** The worlds after one and after two calls of [add_to_queue] with the
    same priority, the second job scheduled in the past. *)
Definition mixed_world_1 : world :=
  world_with_queue (stepping_clock noon 1000000) 2 [entry_a].

Definition mixed_world : world :=
  world_with_queue (stepping_clock noon 1000000) 4 [entry_a; entry_p].

(** A queue in which two jobs, [entry_b] and [entry_p], share an id. *)
Definition duplicate_id_world : world :=
  world_with_queue (stepping_clock noon 1000000) 8
    [entry_a; entry_b; entry_p; entry_d].

(** [entry_a] after [update_entry_status] with the status by_platform,
    which the scheduler accepts as it accepts every string. *)
Definition entry_odd : Entry.t :=
  Entry.mk "youtube_20240101120000" "a.mp4" "{}" "youtube" None 5 "by_platform"
    "2024-01-01T12:00:01" 0 None None None.

Definition odd_status_world : world :=
  world_with_queue (stepping_clock noon 1000000) 8 [entry_b; entry_odd; entry_d].

(** A configuration whose list of optimal hours is empty. *)
Definition no_optimal_times_world : world :=
  mkWorld (stepping_clock noon 1000000) 0 (Some [entry_a]) ∅ ∅ [] None (Some []).

(** A queued job whose scheduled time is not an ISO date. *)
Definition entry_bad_time : Entry.t :=
  Entry.mk "youtube_20240101120008" "x.mp4" "{}" "youtube" (Some "tomorrow") 5
    "queued" "2024-01-01T12:00:09" 0 None None None.

Definition bad_time_world : world :=
  world_with_queue (stepping_clock noon 1000000) 10 [entry_b; entry_bad_time; entry_d].

(** The key that SQLite gives to a new row: one more than the largest
    key of the table. *)
Definition sqlite_rowid {A : Type} (m : gmap Z A) : Z :=
  1 + foldr Z.max 0 (map_to_list m).*1.

(** Three tasks of the video 1: an old pending one, a newer pending one
    and a running one. *)
Definition task_old : Task.t :=
  Task.mk 1 (Some 1) "analysis" PENDING (noon - 7200000000) None None 0%Q None None 0.
Definition task_new : Task.t :=
  Task.mk 2 (Some 1) "generation" PENDING (noon - 3600000000) None None 0%Q None None 0.
Definition task_running : Task.t :=
  Task.mk 3 (Some 1) "analysis" RUNNING (noon - 5400000000) (Some (noon - 60000000))
    None (1 # 2)%Q None None 1.

Definition tasks_world : world :=
  mkWorld (stepping_clock noon 1000000) 0 None {[ 1 := sample_video ]}
    {[ 1 := task_old; 2 := task_new; 3 := task_running ]} [] None None.

(** A database that numbers the publish records from 1. *)
Definition next_record_id (l : list PublishRecord.t) : Z := 1 + Z.of_nat (length l).

(** [sample_db] with its video pending. *)
Definition pending_db : world :=
  set_video_urls {[ 1 := VideoRepository.set_status VS_PENDING sample_video ]} sample_db.

Definition cleanup_world : world :=
  world_with_queue (stepping_clock noon 1000000) 0
    [done_old; done_recent; done_untimed; failed_old; entry_a].

Definition publish_record (i : Z) (pl : Platform) (published : bool)
    (at_ : option Z) : PublishRecord.t :=
  PublishRecord.mk i i pl published at_.

(** The day of [noon] starts at 2024-01-01T00:00:00. *)
Definition midnight : Z := noon - 12 * Datetime.us_per_hour.

(** Three YouTube publications on the day of [noon]; one the day before,
    one at the first instant of the day after, one not published, one
    without a time, and two TikTok publications on the day. *)
Definition records_world : world :=
  mkWorld (stepping_clock noon 1000000) 0 None ∅ ∅
    [ publish_record 1 YOUTUBE true (Some midnight);
      publish_record 2 YOUTUBE true (Some (noon - 1));
      publish_record 3 YOUTUBE true (Some (midnight + Datetime.us_per_day - 1));
      publish_record 4 YOUTUBE true (Some (midnight - 1));
      publish_record 5 YOUTUBE true (Some (midnight + Datetime.us_per_day));
      publish_record 6 YOUTUBE false (Some noon);
      publish_record 7 YOUTUBE true None;
      publish_record 8 TIKTOK true (Some noon);
      publish_record 9 TIKTOK true (Some (noon + 1)) ]
    (Some 3) None.

(** The same with the second publication missing. *)
Definition records_world_two : world :=
  mkWorld (stepping_clock noon 1000000) 0 None ∅ ∅
    [ publish_record 1 YOUTUBE true (Some midnight);
      publish_record 3 YOUTUBE true (Some (midnight + Datetime.us_per_day - 1));
      publish_record 8 TIKTOK true (Some noon) ]
    None None.

Definition raw_video (i category duration_iso published : string) (views : Z)
    : YouTubeMonitor.video :=
  YouTubeMonitor.mk_video i (Some category) ("title " ++ i) "channel" published
    duration_iso (Some views) (Some 10).

(** Published two hours before [noon], 20000 views, 45 seconds. *)
Definition video_45s : YouTubeMonitor.video :=
  raw_video "v45" "24" "PT45S" "2024-01-01T10:00:00Z" 20000.

(** The same with a duration of exactly 60 seconds. *)
Definition video_60s : YouTubeMonitor.video :=
  raw_video "v60" "24" "PT1M" "2024-01-01T10:00:00Z" 20000.

Definition video_90s : YouTubeMonitor.video :=
  raw_video "v90" "24" "PT1M30S" "2024-01-01T10:00:00Z" 20000.

(** Published fifty hours before [noon]. *)
Definition video_old : YouTubeMonitor.video :=
  raw_video "vold" "24" "PT45S" "2023-12-30T10:00:00Z" 90000000.

Definition video_music : YouTubeMonitor.video :=
  raw_video "vmus" "10" "PT45S" "2024-01-01T10:00:00Z" 20000.

Definition video_slow : YouTubeMonitor.video :=
  raw_video "vslow" "24" "PT45S" "2024-01-01T10:00:00Z" 19999.

(** A Short whose publication time is no ISO date, and a video whose
    duration is no ISO duration. *)
Definition video_bad_date : YouTubeMonitor.video :=
  raw_video "vbad" "24" "PT45S" "yesterday" 20000.

Definition video_bad_duration : YouTubeMonitor.video :=
  raw_video "vdur" "24" "45 seconds" "yesterday" 20000.

(** A music video whose publication time is no ISO date. *)
Definition video_music_bad_date : YouTubeMonitor.video :=
  raw_video "vmus2" "10" "PT45S" "yesterday" 20000.

(** Published 7201.08 seconds before [noon], 20003 views: 10000 views
    per hour as a fraction, 9999.999999999998 as the float that the code
    computes. *)
Definition video_rounded : YouTubeMonitor.video :=
  raw_video "vround" "24" "PT45S" "2024-01-01T09:59:58.920000Z" 20003.

(** An answer of the API, and a table in which the Shorts URL of
    [video_60s] is stored under another YouTube id. *)
Definition popular_now (region_code : string) : list YouTubeMonitor.video :=
  [video_45s; video_90s; video_60s].

Definition clashing_video : VideoURL.t :=
  VideoURL.mk 1 "https://www.youtube.com/shorts/v60" "other" None None None None
    None None VS_PENDING noon noon None None 0.

Definition clash_world : world :=
  mkWorld (ticking_clock (noon + 5000000)) 0 None {[ 1 := clashing_video ]} ∅ []
    None None.

(** * Properties *)

(** ** Sanity checks of the datetime model *)

Example isoformat_noon :
  Datetime.isoformat 1704110400000000 = "2024-01-01T12:00:00".
Proof. vm_compute. reflexivity. Qed.

Example isoformat_leap_day :
  Datetime.isoformat 1709251199999999 = "2024-02-29T23:59:59.999999".
Proof. vm_compute. reflexivity. Qed.

Example strftime_leap_day :
  Datetime.strftime_YmdHMS 951782400000000 = "20000229000000".
Proof. vm_compute. reflexivity. Qed.

Example fromisoformat_naive_reads_isoformat :
  Datetime.fromisoformat_naive "2024-02-29T23:59:59.999999" = Ok 1709251199999999.
Proof. vm_compute. reflexivity. Qed.

Example fromisoformat_naive_refuses_bad_date :
  Datetime.fromisoformat_naive "2024-02-30T23:59:59" = Raise ValueError.
Proof. vm_compute. reflexivity. Qed.

(** ** The monad *)

Ltac unfold_M :=
  unfold mbind, mret, M_bind, M_ret, lift, raise, utcnow in *.

(** ** remove_from_queue *)

Lemma filter_all {A : Type} (P : A -> Prop) `{!forall x, Decision (P x)}
    (l : list A) :
  (forall x, x ∈ l -> P x) -> filter P l = l.
Proof.
  induction l as [|a l IH]; intros Hall; [reflexivity|].
  rewrite filter_cons_True by (apply Hall; left).
  f_equal. apply IH. intros x Hx. apply Hall. right. exact Hx.
Qed.

Lemma count_occ_filter_id (entry_id : string) (q : list Entry.t) (e : Entry.t) :
  Entry.id e ≠ entry_id ->
  count_occ (decide_rel (=)) (filter (fun x => Entry.id x ≠ entry_id) q) e
  = count_occ (decide_rel (=)) q e.
Proof.
  intros He. induction q as [|a l IH]; [reflexivity|].
  destruct (decide (Entry.id a ≠ entry_id)) as [Ha|Ha].
  - rewrite filter_cons_True by exact Ha. simpl.
    destruct (decide_rel eq a e); rewrite IH; reflexivity.
  - rewrite filter_cons_False by exact Ha. simpl.
    destruct (decide_rel eq a e) as [->|]; [contradiction|exact IH].
Qed.

(** C10.  [remove_from_queue] never raises and leaves in the queue exactly
    the entries whose id differs from the given one, in their order: every
    entry with that id is gone (not only the first), every other entry is
    still there, unchanged and as often as before, and when no entry
    carries the id the queue is what it was. *)
Theorem remove_from_queue_keeps_exactly_other_ids (w : world) (entry_id : string) :
  exists w' : world,
    Scheduler.remove_from_queue entry_id w = (Ok tt, w')
    /\ queue_of w' = filter (fun e => Entry.id e ≠ entry_id) (queue_of w)
    /\ (forall e, e ∈ queue_of w' <-> e ∈ queue_of w /\ Entry.id e ≠ entry_id)
    /\ queue_of w' `sublist_of` queue_of w
    /\ (forall e, Entry.id e ≠ entry_id ->
          count_occ (decide_rel (=)) (queue_of w') e
          = count_occ (decide_rel (=)) (queue_of w) e)
    /\ ((forall e, e ∈ queue_of w -> Entry.id e ≠ entry_id) ->
          queue_of w' = queue_of w)
    /\ video_urls w' = video_urls w /\ tasks w' = tasks w
    /\ publish_records w' = publish_records w /\ ticks w' = ticks w.
Proof.
  exists (set_queue_file
            (Some (filter (fun e => Entry.id e ≠ entry_id) (queue_of w))) w).
  assert (Hq : queue_of
                 (set_queue_file
                    (Some (filter (fun e => Entry.id e ≠ entry_id) (queue_of w))) w)
               = filter (fun e => Entry.id e ≠ entry_id) (queue_of w))
    by reflexivity.
  rewrite Hq.
  split; [reflexivity|].
  split; [reflexivity|].
  split.
  { intros e. rewrite list_elem_of_filter. tauto. }
  split; [apply sublist_filter|].
  split.
  { intros e He. apply count_occ_filter_id. exact He. }
  split; [apply filter_all|].
  repeat split.
Qed.

(** ** Status transitions of items and tasks *)

Lemma video_update_status_absent (w : world) (i : Z) (st : VideoStatus)
    (msg : option string) :
  video_urls w !! i = None ->
  VideoRepository.update_status i st msg w = (Ok None, w).
Proof.
  intros Hnone. unfold VideoRepository.update_status, VideoRepository.session_get.
  unfold_M. rewrite Hnone. reflexivity.
Qed.

Lemma task_update_status_absent (w : world) (i : Z) (st : TaskStatus)
    (msg res : option string) :
  tasks w !! i = None ->
  TaskRepository.update_task_status i st msg res w = (Ok None, w).
Proof.
  intros Hnone.
  unfold TaskRepository.update_task_status, TaskRepository.session_get.
  unfold_M. rewrite Hnone. reflexivity.
Qed.

(** C3, as the code has it.  A status transition on an id that the
    database can hold (a signed 64-bit integer) and that is not in the
    store raises nothing: [update_status], respectively
    [update_task_status], returns [None] and leaves the world as it was.
    The caller learns of the missing row from the [None] result only. *)
Theorem status_update_of_absent_id_returns_None (w : world)
    (error_message : option string) :
  (forall (video_url_id : Z) (vstatus : VideoStatus),
     sqlite_integer video_url_id ->
     video_urls w !! video_url_id = None ->
     VideoRepository.update_status video_url_id vstatus error_message w
     = (Ok None, w))
  /\ (forall (task_id : Z) (tstatus : TaskStatus) (result : option string),
        sqlite_integer task_id ->
        tasks w !! task_id = None ->
        TaskRepository.update_task_status task_id tstatus error_message result w
        = (Ok None, w)).
Proof.
  split.
  - intros video_url_id vstatus _ Hv. apply video_update_status_absent. exact Hv.
  - intros task_id tstatus result _ Ht. apply task_update_status_absent. exact Ht.
Qed.

Lemma status_update_of_absent_id_witness :
  sqlite_integer 7
  /\ VideoRepository.update_status 7 VS_FAILED (Some "boom") sample_db
     = (Ok None, sample_db)
  /\ TaskRepository.update_task_status 7 FAILED (Some "boom") None sample_db
     = (Ok None, sample_db).
Proof.
  assert (Hid : sqlite_integer 7) by (unfold sqlite_integer; lia).
  split; [exact Hid|].
  destruct (status_update_of_absent_id_returns_None sample_db (Some "boom"))
    as [Hitem Htask].
  split.
  - apply (Hitem 7 VS_FAILED Hid). reflexivity.
  - apply (Htask 7 FAILED None Hid). reflexivity.
Defined.

(** C3 as the specification words it fails: in a store without row 7 the
    two transitions return normally, with [None]; neither raises. *)
Lemma status_update_of_absent_id_does_not_raise :
  VideoRepository.update_status 7 VS_FAILED (Some "boom") sample_db
    = (Ok None, sample_db)
  /\ TaskRepository.update_task_status 7 FAILED (Some "boom") None sample_db
     = (Ok None, sample_db)
  /\ (forall (e : exn) (w' : world),
        VideoRepository.update_status 7 VS_FAILED (Some "boom") sample_db
          <> (Raise e, w'))
  /\ (forall (e : exn) (w' : world),
        TaskRepository.update_task_status 7 FAILED (Some "boom") None sample_db
          <> (Raise e, w')).
Proof.
  rewrite video_update_status_absent, task_update_status_absent by reflexivity.
  repeat split; intros e w'; discriminate.
Qed.

Lemma truthy_nonempty (msg : string) : msg <> "" -> truthy (Some msg) = true.
Proof.
  intros Hne. simpl. destruct (String.eqb_spec msg ""); [contradiction|reflexivity].
Qed.

Lemma video_update_status_stored (w : world) (i : Z) (v : VideoURL.t)
    (st : VideoStatus) (msg : option string) :
  video_urls w !! i = Some v ->
  let v' :=
    (if truthy msg then VideoRepository.set_error_message msg else fun x => x)
      (VideoRepository.set_updated_at (clock w (ticks w))
         (VideoRepository.set_status st v)) in
  VideoRepository.update_status i st msg w
  = (Ok (Some v'),
     set_video_urls (<[i := v']> (video_urls w)) (set_ticks (S (ticks w)) w)).
Proof.
  intros Hsome. unfold VideoRepository.update_status, VideoRepository.session_get,
    VideoRepository.flush.
  unfold_M. rewrite Hsome. simpl. destruct (truthy msg); reflexivity.
Qed.

Lemma video_increment_retry_stored (w : world) (i : Z) (v : VideoURL.t) :
  video_urls w !! i = Some v ->
  exists (v' : VideoURL.t) (w' : world),
    VideoRepository.increment_retry_count i w = (Ok (Some v'), w')
    /\ video_urls w' !! i = Some v'
    /\ VideoURL.retry_count v' = VideoURL.retry_count v + 1.
Proof.
  intros Hsome. unfold VideoRepository.increment_retry_count,
    VideoRepository.session_get, VideoRepository.flush.
  unfold_M. rewrite Hsome. simpl. eexists _, _. split; [reflexivity|].
  simpl. rewrite lookup_insert_eq. split; reflexivity.
Qed.

Lemma task_increment_retry_stored (w : world) (i : Z) (t : Task.t) :
  tasks w !! i = Some t ->
  exists (t' : Task.t) (w' : world),
    TaskRepository.increment_retry_count i w = (Ok (Some t'), w')
    /\ tasks w' !! i = Some t'
    /\ Task.retry_count t' = Task.retry_count t + 1.
Proof.
  intros Hsome. unfold TaskRepository.increment_retry_count,
    TaskRepository.session_get, TaskRepository.flush.
  unfold_M. rewrite Hsome. simpl. eexists _, _. split; [reflexivity|].
  simpl. rewrite lookup_insert_eq. split; reflexivity.
Qed.

Lemma task_update_status_stored (w : world) (i : Z) (t : Task.t)
    (st : TaskStatus) (msg res : option string) :
  tasks w !! i = Some t ->
  exists w' : world,
    TaskRepository.update_task_status i st msg res w
    = (Ok (Some (task_after (clock w (ticks w)) st msg res t)), w')
    /\ tasks w' = <[i := task_after (clock w (ticks w)) st msg res t]> (tasks w)
    /\ clock w' = clock w /\ (ticks w <= ticks w')%nat.
Proof.
  intros Hsome. unfold TaskRepository.update_task_status,
    TaskRepository.session_get, TaskRepository.flush, task_after.
  unfold_M. rewrite Hsome.
  destruct st; simpl; destruct (Task.started_at t) as [s|]; simpl;
    eexists; (split; [reflexivity|]); simpl; repeat split; lia.
Qed.

Lemma task_after_error_message (now : Z) (st : TaskStatus) (msg : string)
    (res : option string) (t : Task.t) :
  msg <> "" ->
  Task.error_message (task_after now st (Some msg) res t) = Some msg
  /\ Task.retry_count (task_after now st (Some msg) res t) = Task.retry_count t.
Proof.
  intros Hne. unfold task_after. rewrite (truthy_nonempty msg Hne).
  destruct (TaskRepository.truthy_dict res), (TaskRepository.is_terminal st),
    (bool_decide (st = RUNNING) && negb (bool_decide (is_Some (Task.started_at t))));
    split; reflexivity.
Qed.

(** C2, as the code has it, for the items and for the tasks apart.  In
    every store, a status update with a non-empty error message on a
    stored item stores the message on the item and leaves its retry
    counter as it was; the counter grows by exactly one in
    [increment_retry_count], a call of its own.  The same holds of a
    stored task, whether or not the store holds any item, and of an item
    in a store without tasks. *)
Theorem status_update_stores_error_and_keeps_retry_count (w : world) (msg : string) :
  msg <> "" ->
  (forall (video_url_id : Z) (v : VideoURL.t) (vstatus : VideoStatus),
     video_urls w !! video_url_id = Some v ->
     (exists (v' : VideoURL.t) (w' : world),
        VideoRepository.update_status video_url_id vstatus (Some msg) w
          = (Ok (Some v'), w')
        /\ video_urls w' !! video_url_id = Some v'
        /\ VideoURL.error_message v' = Some msg
        /\ VideoURL.retry_count v' = VideoURL.retry_count v)
     /\ (exists (v' : VideoURL.t) (w' : world),
           VideoRepository.increment_retry_count video_url_id w = (Ok (Some v'), w')
           /\ video_urls w' !! video_url_id = Some v'
           /\ VideoURL.retry_count v' = VideoURL.retry_count v + 1))
  /\ (forall (task_id : Z) (t : Task.t) (tstatus : TaskStatus)
             (result : option string),
        tasks w !! task_id = Some t ->
        (exists (t' : Task.t) (w' : world),
           TaskRepository.update_task_status task_id tstatus (Some msg) result w
             = (Ok (Some t'), w')
           /\ tasks w' !! task_id = Some t'
           /\ Task.error_message t' = Some msg
           /\ Task.retry_count t' = Task.retry_count t)
        /\ (exists (t' : Task.t) (w' : world),
              TaskRepository.increment_retry_count task_id w = (Ok (Some t'), w')
              /\ tasks w' !! task_id = Some t'
              /\ Task.retry_count t' = Task.retry_count t + 1)).
Proof.
  intros Hne. split.
  - intros video_url_id v vstatus Hv. split.
    + eexists _, _. split; [apply video_update_status_stored; exact Hv|].
      cbv zeta. rewrite (truthy_nonempty msg Hne). simpl.
      rewrite lookup_insert_eq. split; [reflexivity|]. split; reflexivity.
    + apply video_increment_retry_stored. exact Hv.
  - intros task_id t tstatus result Ht. split.
    + destruct (task_update_status_stored w task_id t tstatus (Some msg) result Ht)
        as (w' & Hrun & Htasks & _).
      destruct (task_after_error_message (clock w (ticks w)) tstatus msg result t Hne)
        as [Hmsg Hretry].
      eexists _, w'. split; [exact Hrun|].
      rewrite Htasks, lookup_insert_eq. split; [reflexivity|].
      split; assumption.
    + apply task_increment_retry_stored. exact Ht.
Qed.

(** An item in a store that holds no task, and a task. *)
Lemma status_update_stores_error_witness :
  tasks clash_world = ∅
  /\ (exists (v' : VideoURL.t) (w' : world),
        VideoRepository.update_status 1 VS_FAILED (Some "boom") clash_world
          = (Ok (Some v'), w')
        /\ video_urls w' !! 1 = Some v'
        /\ VideoURL.error_message v' = Some "boom"
        /\ VideoURL.retry_count v' = 0)
  /\ (exists (t' : Task.t) (w' : world),
        TaskRepository.update_task_status 1 FAILED (Some "boom") None sample_db
          = (Ok (Some t'), w')
        /\ tasks w' !! 1 = Some t'
        /\ Task.error_message t' = Some "boom"
        /\ Task.retry_count t' = 0).
Proof.
  split; [reflexivity|]. split.
  - destruct (status_update_stores_error_and_keeps_retry_count clash_world "boom")
      as [Hitem _]; [discriminate|].
    destruct (Hitem 1 clashing_video VS_FAILED eq_refl) as [Hv _]. exact Hv.
  - destruct (status_update_stores_error_and_keeps_retry_count sample_db "boom")
      as [_ Htask]; [discriminate|].
    destruct (Htask 1 sample_task FAILED None eq_refl) as [Ht _]. exact Ht.
Defined.

(** C2 as the specification words it fails: item 1 and task 1 have retry
    counter 0; after a transition to failed with the message "boom" the
    counter is still 0, not 1. *)
Lemma status_update_does_not_count_retry :
  (exists (v' : VideoURL.t) (w' : world),
     VideoRepository.update_status 1 VS_FAILED (Some "boom") sample_db
       = (Ok (Some v'), w')
     /\ video_urls w' !! 1 = Some v'
     /\ VideoURL.retry_count sample_video = 0
     /\ VideoURL.retry_count v' <> VideoURL.retry_count sample_video + 1)
  /\ (exists (t' : Task.t) (w' : world),
        TaskRepository.update_task_status 1 FAILED (Some "boom") None sample_db
          = (Ok (Some t'), w')
        /\ tasks w' !! 1 = Some t'
        /\ Task.retry_count sample_task = 0
        /\ Task.retry_count t' <> Task.retry_count sample_task + 1).
Proof.
  split.
  - eexists _, _.
    split; [apply (video_update_status_stored sample_db 1 sample_video); reflexivity|].
    split; [reflexivity|]. split; [reflexivity|]. discriminate.
  - destruct (task_update_status_stored sample_db 1 sample_task FAILED
                (Some "boom") None) as (w' & Hrun & Htasks & _); [reflexivity|].
    eexists _, w'. split; [exact Hrun|].
    split; [rewrite Htasks; apply lookup_insert_eq|].
    split; [reflexivity|]. discriminate.
Qed.

Lemma task_after_running_started_at (now : Z) (msg res : option string) (t : Task.t) :
  Task.started_at (task_after now RUNNING msg res t)
  = Some (default now (Task.started_at t)).
Proof.
  unfold task_after.
  destruct (Task.started_at t) as [s|] eqn:Hs; simpl;
    destruct (truthy msg), (TaskRepository.truthy_dict res); simpl;
    rewrite ?Hs; reflexivity.
Qed.

Lemma task_after_terminal_completed_at (now : Z) (st : TaskStatus)
    (msg res : option string) (t : Task.t) :
  st ∈ [COMPLETED; FAILED; CANCELLED] ->
  Task.completed_at (task_after now st msg res t) = Some now.
Proof.
  intros Hst. unfold task_after.
  assert (Hterm : TaskRepository.is_terminal st = true)
    by (apply bool_decide_eq_true; exact Hst).
  rewrite Hterm.
  destruct (truthy msg), (TaskRepository.truthy_dict res),
    (bool_decide (st = RUNNING) && negb (bool_decide (is_Some (Task.started_at t))));
    reflexivity.
Qed.

(** C9.  For a stored task, a transition into RUNNING sets the start
    time to the current time only when the task has none (a task that has
    one keeps it), so a second transition into RUNNING leaves the start
    time of the first in place; and every transition into COMPLETED,
    FAILED or CANCELLED sets the completion time to the current time. *)
Theorem task_start_time_set_once_and_completion_time_set (w : world)
    (task_id : Z) (t : Task.t) (msg res msg2 res2 : option string) :
  tasks w !! task_id = Some t ->
  (exists (t1 : Task.t) (w1 : world),
     TaskRepository.update_task_status task_id RUNNING msg res w
       = (Ok (Some t1), w1)
     /\ tasks w1 !! task_id = Some t1
     /\ Task.status t1 = RUNNING
     /\ (Task.started_at t = None -> Task.started_at t1 = Some (clock w (ticks w)))
     /\ (forall s : Z, Task.started_at t = Some s -> Task.started_at t1 = Some s)
     /\ exists (t2 : Task.t) (w2 : world),
          TaskRepository.update_task_status task_id RUNNING msg2 res2 w1
            = (Ok (Some t2), w2)
          /\ tasks w2 !! task_id = Some t2
          /\ Task.started_at t2 = Task.started_at t1)
  /\ (forall status : TaskStatus,
        status ∈ [COMPLETED; FAILED; CANCELLED] ->
        exists (t1 : Task.t) (w1 : world),
          TaskRepository.update_task_status task_id status msg res w
            = (Ok (Some t1), w1)
          /\ tasks w1 !! task_id = Some t1
          /\ Task.status t1 = status
          /\ Task.completed_at t1 = Some (clock w (ticks w))).
Proof.
  intros Ht. split.
  - destruct (task_update_status_stored w task_id t RUNNING msg res Ht)
      as (w1 & Hrun1 & Htasks1 & _).
    set (t1 := task_after (clock w (ticks w)) RUNNING msg res t) in *.
    assert (Hlook1 : tasks w1 !! task_id = Some t1)
      by (rewrite Htasks1; apply lookup_insert_eq).
    assert (Hstart1 : Task.started_at t1
                      = Some (default (clock w (ticks w)) (Task.started_at t)))
      by apply task_after_running_started_at.
    exists t1, w1. split; [exact Hrun1|]. split; [exact Hlook1|].
    split.
    { unfold t1, task_after. simpl.
      destruct (negb (bool_decide (is_Some (Task.started_at t)))),
        (truthy msg), (TaskRepository.truthy_dict res); reflexivity. }
    split; [intros Hnone; rewrite Hstart1, Hnone; reflexivity|].
    split; [intros s Hs; rewrite Hstart1, Hs; reflexivity|].
    destruct (task_update_status_stored w1 task_id t1 RUNNING msg2 res2 Hlook1)
      as (w2 & Hrun2 & Htasks2 & _).
    eexists _, w2. split; [exact Hrun2|].
    split; [rewrite Htasks2; apply lookup_insert_eq|].
    rewrite task_after_running_started_at, Hstart1. reflexivity.
  - intros status Hst.
    destruct (task_update_status_stored w task_id t status msg res Ht)
      as (w1 & Hrun1 & Htasks1 & _).
    eexists _, w1. split; [exact Hrun1|].
    split; [rewrite Htasks1; apply lookup_insert_eq|].
    split; [|apply task_after_terminal_completed_at; exact Hst].
    unfold task_after.
    destruct (truthy msg), (TaskRepository.truthy_dict res),
      (TaskRepository.is_terminal status),
      (bool_decide (status = RUNNING)
       && negb (bool_decide (is_Some (Task.started_at t)))); reflexivity.
Qed.

Lemma task_start_time_set_once_witness :
  exists (t1 : Task.t) (w1 : world),
    TaskRepository.update_task_status 1 RUNNING None None sample_db
      = (Ok (Some t1), w1)
    /\ Task.started_at t1 = Some (noon + 5000000)
    /\ exists (t2 : Task.t) (w2 : world),
         TaskRepository.update_task_status 1 RUNNING None None w1
           = (Ok (Some t2), w2)
         /\ Task.started_at t2 = Some (noon + 5000000).
Proof.
  destruct (task_start_time_set_once_and_completion_time_set sample_db 1
              sample_task None None None None)
    as [(t1 & w1 & Hrun1 & _ & _ & Hunset & _ & (t2 & w2 & Hrun2 & _ & Hkeep)) _];
    [reflexivity|].
  exists t1, w1. split; [exact Hrun1|].
  assert (Hstart : Task.started_at t1 = Some (noon + 5000000))
    by (apply Hunset; reflexivity).
  split; [exact Hstart|].
  exists t2, w2. split; [exact Hrun2|].
  rewrite Hkeep. exact Hstart.
Defined.

(** ** list.sort *)

Section ListSort.

Context {A K : Type}.
Variable key : A -> K.
Variable lt : K -> K -> outcome bool.

Lemma insert_sorted_perm (x : A) (s r : list A) :
  insert_sorted (fun a b => lt (key a) (key b)) x s = Ok r -> r ≡ₚ x :: s.
Proof.
  revert r. induction s as [|y ys IH]; intros r Hins; simpl in Hins.
  - injection Hins as <-. reflexivity.
  - destruct (lt (key x) (key y)) as [[|]|e]; [| |discriminate].
    + injection Hins as <-. reflexivity.
    + destruct (insert_sorted _ x ys) as [r'|e]; [|discriminate].
      injection Hins as <-. rewrite (IH r' eq_refl). apply Permutation_swap.
Qed.

Lemma sort_fold_raise (l : list A) (e : exn) :
  fold_left (sort_step key lt) l (Raise e) = Raise e.
Proof. induction l as [|x l IH]; [reflexivity|exact IH]. Qed.

Lemma sort_fold_perm (l s r : list A) :
  fold_left (sort_step key lt) l (Ok s) = Ok r -> r ≡ₚ l ++ s.
Proof.
  revert s r. induction l as [|x l IH]; intros s r Hfold; simpl in Hfold.
  - injection Hfold as <-. reflexivity.
  - destruct (insert_sorted (fun a b => lt (key a) (key b)) x s) as [s'|e] eqn:Hins.
    + rewrite (IH s' r Hfold), (insert_sorted_perm x s s' Hins).
      simpl. symmetry. apply Permutation_middle.
    + rewrite sort_fold_raise in Hfold. discriminate.
Qed.

Lemma list_sort_perm (l r : list A) :
  list_sort key lt l = Ok r -> r ≡ₚ l.
Proof.
  intros Hsort. apply sort_fold_perm in Hsort.
  rewrite app_nil_r in Hsort. exact Hsort.
Qed.

End ListSort.

Section SortCorrect.

Local Open Scope list_scope.

Context {A K : Type} `{EqDecision K}.
Variable key : A -> K.
Variable lt : K -> K -> outcome bool.

Hypothesis lt_irrefl : forall k : K, lt k k = Ok false.
Hypothesis lt_chain :
  forall a b c : K, lt a b = Ok true -> lt c b = Ok false -> lt c a = Ok false.

Lemma insert_sorted_shape (x : A) (s r : list A) :
  insert_sorted (fun a b => lt (key a) (key b)) x s = Ok r ->
  exists s1 s2 : list A,
    s = s1 ++ s2 /\ r = s1 ++ x :: s2
    /\ Forall (fun y => in_order key lt y x) s1
    /\ match s2 with
       | [] => True
       | y0 :: _ => lt (key x) (key y0) = Ok true
       end.
Proof.
  revert r. induction s as [|y ys IH]; intros r Hins; simpl in Hins.
  - injection Hins as <-. exists [], []. repeat split. constructor.
  - destruct (lt (key x) (key y)) as [[|]|e] eqn:Hxy; [| |discriminate].
    + injection Hins as <-. exists [], (y :: ys). repeat split; [constructor|exact Hxy].
    + destruct (insert_sorted _ x ys) as [r'|e]; [|discriminate].
      injection Hins as <-.
      destruct (IH r' eq_refl) as (s1 & s2 & -> & -> & Hs1 & Hs2).
      exists (y :: s1), s2. repeat split; [|exact Hs2].
      constructor; [exact Hxy|exact Hs1].
Qed.

Lemma insert_sorted_correct (x : A) (s r : list A) :
  StronglySorted (in_order key lt) s ->
  insert_sorted (fun a b => lt (key a) (key b)) x s = Ok r ->
  StronglySorted (in_order key lt) r
  /\ forall k : K, with_key key k r = with_key key k (s ++ [x]).
Proof.
  intros Hsorted Hins.
  destruct (insert_sorted_shape x s r Hins) as (s1 & s2 & -> & -> & Hs1 & Hs2).
  apply StronglySorted_app in Hsorted as (Hcross & Hss1 & Hss2).
  assert (Hafter : forall y, y ∈ s2 -> in_order key lt x y /\ key y <> key x).
  { destruct s2 as [|y0 s2']; [intros y Hy; inversion Hy|].
    apply StronglySorted_cons in Hss2 as [Hy0 _].
    intros y Hy. apply elem_of_cons in Hy as [->|Hy].
    - split.
      + exact (lt_chain _ _ _ Hs2 (lt_irrefl _)).
      + intros Heq. rewrite <- Heq, lt_irrefl in Hs2. discriminate.
    - rewrite Forall_forall in Hy0. specialize (Hy0 y Hy). unfold in_order in Hy0.
      split.
      + exact (lt_chain _ _ _ Hs2 Hy0).
      + intros Heq. rewrite Heq in Hy0. congruence. }
  split.
  - apply StronglySorted_app_2; [|exact Hss1|].
    + intros y1 y2 Hy1 Hy2. apply elem_of_cons in Hy2 as [->|Hy2].
      * rewrite Forall_forall in Hs1. apply Hs1. exact Hy1.
      * apply Hcross; assumption.
    + apply StronglySorted_cons. split; [|exact Hss2].
      apply Forall_forall. intros y Hy. apply Hafter. exact Hy.
  - intros k. unfold with_key. rewrite !filter_app.
    destruct (decide (key x = k)) as [Hk|Hk].
    + assert (Hnone : filter (fun e => key e = k) s2 = []).
      { clear -Hafter Hk. induction s2 as [|y s2 IH]; [reflexivity|].
        rewrite filter_cons_False.
        - apply IH. intros z Hz. apply Hafter. right. exact Hz.
        - destruct (Hafter y) as [_ Hne]; [left|]. congruence. }
      rewrite !filter_cons_True by exact Hk.
      rewrite filter_nil, Hnone, app_nil_r. reflexivity.
    + rewrite !filter_cons_False by exact Hk.
      rewrite filter_nil, app_nil_r. reflexivity.
Qed.

Lemma sort_fold_correct (l s r : list A) :
  StronglySorted (in_order key lt) s ->
  fold_left (sort_step key lt) l (Ok s) = Ok r ->
  StronglySorted (in_order key lt) r
  /\ forall k : K, with_key key k r = with_key key k (s ++ l).
Proof.
  revert s. induction l as [|x l IH]; intros s Hsorted Hfold; simpl in Hfold.
  - injection Hfold as <-. rewrite app_nil_r. split; [exact Hsorted|reflexivity].
  - destruct (insert_sorted (fun a b => lt (key a) (key b)) x s) as [s'|e] eqn:Hins.
    + destruct (insert_sorted_correct x s s' Hsorted Hins) as [Hsorted' Hkeys].
      destruct (IH s' Hsorted' Hfold) as [Hr Hkr].
      split; [exact Hr|]. intros k. rewrite Hkr. unfold with_key in *.
      change (x :: l) with ([x] ++ l).
      rewrite filter_app, Hkeys, !filter_app, <- app_assoc. reflexivity.
    + exfalso. clear -Hfold. induction l as [|y l IHl]; [discriminate|exact (IHl Hfold)].
Qed.

(** When [list_sort] returns, its result is in order, and the elements of
    equal key are in the order of the input. *)
Lemma list_sort_correct (l r : list A) :
  list_sort key lt l = Ok r ->
  StronglySorted (in_order key lt) r
  /\ forall k : K, with_key key k r = with_key key k l.
Proof.
  intros Hsort. apply (sort_fold_correct l [] r); [constructor|exact Hsort].
Qed.
(** When [list_sort] returns, any two elements of the input have keys
    that [lt] can compare. *)
Lemma list_sort_comparable (l r : list A) (x y : A) :
  (forall (a b : K) (c : bool), lt a b = Ok c -> exists c' : bool, lt b a = Ok c') ->
  list_sort key lt l = Ok r ->
  x ∈ l -> y ∈ l ->
  exists c : bool, lt (key x) (key y) = Ok c.
Proof.
  intros Hsym Hsort Hx Hy.
  destruct (list_sort_correct l r Hsort) as [Hsorted _].
  pose proof (list_sort_perm key lt l r Hsort) as Hperm.
  rewrite <- Hperm in Hx, Hy.
  apply list_elem_of_split in Hx as (r1 & r2 & ->).
  apply StronglySorted_app in Hsorted as (Hcross & _ & Hr2).
  apply StronglySorted_cons in Hr2 as [Hafter _].
  apply elem_of_app in Hy as [Hy|Hy].
  - exists false. apply (Hcross y x Hy). left.
  - apply elem_of_cons in Hy as [->|Hy].
    + exists false. apply lt_irrefl.
    + rewrite Forall_forall in Hafter. apply (Hsym _ _ false). apply Hafter. exact Hy.
Qed.

End SortCorrect.

Lemma ascii_compare_refl (x : ascii) : Ascii.compare x x = Eq.
Proof. unfold Ascii.compare. apply N.compare_refl. Qed.

Lemma ascii_compare_lt_trans (x y z : ascii) :
  Ascii.compare x y = Lt -> Ascii.compare y z = Lt -> Ascii.compare x z = Lt.
Proof.
  unfold Ascii.compare. rewrite !N.compare_lt_iff. apply N.lt_trans.
Qed.

Lemma string_compare_lt_trans (a b c : string) :
  String.compare a b = Lt -> String.compare b c = Lt -> String.compare a c = Lt.
Proof.
  revert b c. induction a as [|x a IH]; intros [|y b] [|z c]; simpl;
    try discriminate; try reflexivity.
  destruct (Ascii.compare x y) eqn:Hxy, (Ascii.compare y z) eqn:Hyz;
    try discriminate; intros Hab Hbc.
  - apply Ascii.compare_eq_iff in Hxy, Hyz. subst.
    rewrite ascii_compare_refl. eapply IH; eassumption.
  - apply Ascii.compare_eq_iff in Hxy. subst. rewrite Hyz. reflexivity.
  - apply Ascii.compare_eq_iff in Hyz. subst. rewrite Hxy. reflexivity.
  - rewrite (ascii_compare_lt_trans x y z Hxy Hyz). reflexivity.
Qed.

Lemma string_ltb_trans (a b c : string) :
  String.ltb a b = true -> String.ltb b c = true -> String.ltb a c = true.
Proof.
  unfold String.ltb. intros Hab Hbc.
  destruct (String.compare a b) eqn:Hcab; try discriminate.
  destruct (String.compare b c) eqn:Hcbc; try discriminate.
  rewrite (string_compare_lt_trans a b c Hcab Hcbc). reflexivity.
Qed.

Lemma string_ltb_irrefl (a : string) : String.ltb a a = false.
Proof.
  unfold String.ltb. induction a as [|x a IH]; [reflexivity|].
  simpl. rewrite ascii_compare_refl. exact IH.
Qed.

Lemma tuple_lt_irrefl (k : Z * option string) : tuple_lt k k = Ok false.
Proof.
  destruct k as [p [s|]]; unfold tuple_lt; simpl;
    rewrite bool_decide_eq_true_2 by reflexivity;
    [rewrite string_ltb_irrefl|]; reflexivity.
Qed.

Lemma tuple_lt_chain (a b c : Z * option string) :
  tuple_lt a b = Ok true -> tuple_lt c b = Ok false -> tuple_lt c a = Ok false.
Proof.
  destruct a as [pa sa], b as [pb sb], c as [pc sc]. unfold tuple_lt. simpl.
  destruct (decide (pa = pb)) as [Hab|Hab], (decide (pc = pb)) as [Hcb|Hcb],
    (decide (pc = pa)) as [Hca|Hca]; try lia;
    rewrite ?(bool_decide_eq_true_2 _ Hab), ?(bool_decide_eq_false_2 _ Hab),
      ?(bool_decide_eq_true_2 _ Hcb), ?(bool_decide_eq_false_2 _ Hcb),
      ?(bool_decide_eq_true_2 _ Hca), ?(bool_decide_eq_false_2 _ Hca);
    intros Hlt Hnlt.
  - destruct sa as [sa|], sb as [sb|], sc as [sc|]; try discriminate; try reflexivity.
    injection Hlt as Hlt. injection Hnlt as Hnlt. f_equal.
    destruct (String.ltb sc sa) eqn:Hca'; [|reflexivity].
    rewrite (string_ltb_trans sc sa sb Hca' Hlt) in Hnlt. discriminate.
  - injection Hnlt as Hnlt. f_equal. apply Z.ltb_ge. apply Z.ltb_ge in Hnlt. lia.
  - injection Hlt as Hlt. apply Z.ltb_lt in Hlt. f_equal. apply Z.ltb_ge. lia.
  - injection Hlt as Hlt. injection Hnlt as Hnlt. apply Z.ltb_lt in Hlt.
    apply Z.ltb_ge in Hnlt. lia.
  - injection Hlt as Hlt. injection Hnlt as Hnlt. apply Z.ltb_lt in Hlt.
    apply Z.ltb_ge in Hnlt. f_equal. apply Z.ltb_ge. lia.
Qed.

Lemma tuple_lt_comparable_sym (a b : Z * option string) (c : bool) :
  tuple_lt a b = Ok c -> exists c' : bool, tuple_lt b a = Ok c'.
Proof.
  destruct a as [pa sa], b as [pb sb]. unfold tuple_lt. simpl.
  destruct (decide (pa = pb)) as [Hab|Hab].
  - rewrite (bool_decide_eq_true_2 _ Hab),
      (bool_decide_eq_true_2 (pb = pa)) by (symmetry; exact Hab).
    destruct sa as [sa|], sb as [sb|]; try discriminate; eauto.
  - rewrite (bool_decide_eq_false_2 _ Hab),
      (bool_decide_eq_false_2 (pb = pa)) by (intros Hba; apply Hab; symmetry; exact Hba).
    eauto.
Qed.

Lemma in_order_ranks (x y : Entry.t) :
  in_order Scheduler.sort_key tuple_lt x y <-> ranks_before_or_ties x y.
Proof.
  unfold in_order, ranks_before_or_ties, tuple_lt, Scheduler.sort_key. simpl.
  destruct (decide (- Entry.priority y = - Entry.priority x)) as [Heq|Hne].
  - rewrite (bool_decide_eq_true_2 _ Heq).
    destruct (Entry.scheduled_time y) as [sy|], (Entry.scheduled_time x) as [sx|];
      split.
    + intros Hlt. injection Hlt as Hlt. right. split; [lia|].
      right. exists sx, sy. repeat split. exact Hlt.
    + intros [Hlt|(_ & [[Hx _]|(s & s' & Hs & Hs' & Hlt)])];
        [lia|discriminate|]. congruence.
    + discriminate.
    + intros [Hlt|(_ & [[_ Hy]|(s & s' & Hs & Hs' & _)])];
        [lia|discriminate|discriminate].
    + discriminate.
    + intros [Hlt|(_ & [[Hx _]|(s & s' & Hs & Hs' & _)])];
        [lia|discriminate|discriminate].
    + intros _. right. split; [lia|]. left. split; reflexivity.
    + reflexivity.
  - rewrite (bool_decide_eq_false_2 _ Hne). split.
    + intros Hlt. injection Hlt as Hlt. apply Z.ltb_ge in Hlt. left. lia.
    + intros [Hlt|(Heq & _)]; [|lia]. f_equal. apply Z.ltb_ge. lia.
Qed.

Lemma slice_to_subseteq {A : Type} (l : list A) (n : Z) (x : A) :
  x ∈ slice_to l n -> x ∈ l.
Proof.
  unfold slice_to. destruct (0 <=? n); apply subseteq_take.
Qed.

(** ** get_ready_uploads *)

Section ReadyUploads.

Variable fromisoformat : string -> outcome Z.

Lemma ready_loop_sound (platform : option string) (now : Z)
    (queue ready : list Entry.t) :
  Scheduler.ready_loop fromisoformat platform now queue = Ok ready ->
  forall e : Entry.t, e ∈ ready ->
    e ∈ queue /\ Entry.status e = "queued" /\ due fromisoformat now e
    /\ platform_matches platform e.
Proof.
  revert ready. induction queue as [|x queue IH]; intros ready Hloop e He;
    simpl in Hloop.
  - injection Hloop as <-. inversion He.
  - assert (Hskip : Scheduler.ready_loop fromisoformat platform now queue = Ok ready ->
                    e ∈ x :: queue /\ Entry.status e = "queued" /\ due fromisoformat now e
                    /\ platform_matches platform e).
    { intros Hrest. destruct (IH ready Hrest e He) as (Hin & Hrest').
      split; [right; exact Hin|exact Hrest']. }
    destruct (String.eqb_spec (Entry.status x) "queued") as [Hst|Hst];
      simpl in Hloop; [|auto].
    destruct (truthy platform
              && negb (bool_decide (Some (Entry.platform x) = platform)))
      eqn:Hplat; [auto|].
    assert (Hmatch : platform_matches platform x).
    { intros p -> Hp. rewrite (truthy_nonempty p Hp) in Hplat. simpl in Hplat.
      apply negb_false_iff, bool_decide_eq_true in Hplat. congruence. }
    assert (Hkeep : due fromisoformat now x ->
              match Scheduler.ready_loop fromisoformat platform now queue with
              | Ok ready0 => Ok (x :: ready0)
              | Raise e0 => Raise e0
              end = Ok ready ->
              e ∈ x :: queue /\ Entry.status e = "queued" /\ due fromisoformat now e
              /\ platform_matches platform e).
    { intros Hdue Happ.
      destruct (Scheduler.ready_loop fromisoformat platform now queue)
        as [ready0|e0]; [|discriminate].
      injection Happ as <-. apply elem_of_cons in He as [->|He].
      - split; [left|]. repeat split; assumption.
      - destruct (IH ready0 eq_refl e He) as (Hin & Hrest').
        split; [right; exact Hin|exact Hrest']. }
    destruct (Entry.scheduled_time x) as [s|] eqn:Hs; simpl in Hloop.
    + destruct (String.eqb_spec s "") as [->|Hne]; simpl in Hloop.
      * apply Hkeep; [right; left; exact Hs|exact Hloop].
      * destruct (fromisoformat s) as [t|e0] eqn:Hparse; [|discriminate].
        destruct (Z.ltb_spec now t); [auto|].
        apply Hkeep; [|exact Hloop].
        right; right. exists s, t. repeat split; assumption.
    + apply Hkeep; [left; exact Hs|exact Hloop].
Qed.

Lemma ready_loop_sublist (platform : option string) (now : Z)
    (queue ready : list Entry.t) :
  Scheduler.ready_loop fromisoformat platform now queue = Ok ready ->
  ready `sublist_of` queue.
Proof.
  revert ready. induction queue as [|x queue IH]; intros ready Hloop;
    simpl in Hloop.
  - injection Hloop as <-. constructor.
  - assert (Hkeep : match Scheduler.ready_loop fromisoformat platform now queue with
                    | Ok ready0 => Ok (x :: ready0)
                    | Raise e0 => Raise e0
                    end = Ok ready -> ready `sublist_of` x :: queue).
    { destruct (Scheduler.ready_loop fromisoformat platform now queue)
        as [ready0|e0]; [|discriminate].
      intros Happ. injection Happ as <-. apply sublist_skip, IH. reflexivity. }
    destruct (negb (Entry.status x =? "queued")%string);
      [apply sublist_cons, IH, Hloop|].
    destruct (truthy platform
              && negb (bool_decide (Some (Entry.platform x) = platform)));
      [apply sublist_cons, IH, Hloop|].
    destruct (truthy (Entry.scheduled_time x)); [|exact (Hkeep Hloop)].
    destruct (fromisoformat (default "" (Entry.scheduled_time x))) as [t|e0];
      [|discriminate].
    destruct (now <? t); [apply sublist_cons, IH, Hloop|exact (Hkeep Hloop)].
Qed.

(** What holds of the order whenever [get_ready_uploads] returns: the
    result is a prefix (the whole, without a limit) of a list [sorted]
    that holds the ready jobs, ranks them by descending priority and then
    ascending scheduled time, and keeps jobs of equal priority and equal
    scheduled time in the order of the queue. *)
Lemma get_ready_uploads_order (w w' : world) (limit : option Z)
    (platform : option string) (ready : list Entry.t) :
  Scheduler.get_ready_uploads fromisoformat limit platform w = (Ok ready, w') ->
  exists candidates sorted : list Entry.t,
    Scheduler.ready_loop fromisoformat platform (clock w (ticks w)) (queue_of w)
      = Ok candidates
    /\ candidates `sublist_of` queue_of w
    /\ sorted ≡ₚ candidates
    /\ StronglySorted ranks_before_or_ties sorted
    /\ (forall k : Z * option string,
          with_key Scheduler.sort_key k sorted
          = with_key Scheduler.sort_key k candidates)
    /\ ready = if truthy_int limit then slice_to sorted (default 0 limit) else sorted.
Proof.
  intros Hrun.
  unfold Scheduler.get_ready_uploads, Scheduler._load_queue in Hrun.
  unfold_M. simpl in Hrun. fold (queue_of w) in Hrun.
  destruct (Scheduler.ready_loop fromisoformat platform (clock w (ticks w))
              (queue_of w)) as [candidates|e0] eqn:Hloop; [|discriminate].
  destruct (list_sort Scheduler.sort_key tuple_lt candidates) as [sorted|e0] eqn:Hsort;
    [|discriminate].
  injection Hrun as <- _.
  destruct (list_sort_correct Scheduler.sort_key tuple_lt tuple_lt_irrefl
              tuple_lt_chain candidates sorted Hsort) as [Hsorted Hstable].
  exists candidates, sorted.
  split; [reflexivity|].
  split; [apply (ready_loop_sublist _ _ _ _ Hloop)|].
  split; [apply (list_sort_perm _ _ _ _ Hsort)|].
  split; [|split; [exact Hstable|reflexivity]].
  clear -Hsorted. induction Hsorted as [|x l _ IH Hall]; constructor; [exact IH|].
  eapply Forall_impl; [exact Hall|]. intros y Hy. apply in_order_ranks. exact Hy.
Qed.

(** [get_ready_uploads] returns only when no two ready jobs of equal
    priority differ in having a scheduled time. *)
Lemma get_ready_uploads_returns_only_uniform (w w' : world) (limit : option Z)
    (platform : option string) (ready candidates : list Entry.t) (x y : Entry.t) :
  Scheduler.get_ready_uploads fromisoformat limit platform w = (Ok ready, w') ->
  Scheduler.ready_loop fromisoformat platform (clock w (ticks w)) (queue_of w)
    = Ok candidates ->
  x ∈ candidates -> y ∈ candidates ->
  Entry.priority x = Entry.priority y ->
  Entry.scheduled_time x = None <-> Entry.scheduled_time y = None.
Proof.
  intros Hrun Hloop Hx Hy Hprio.
  unfold Scheduler.get_ready_uploads, Scheduler._load_queue in Hrun.
  unfold_M. simpl in Hrun. fold (queue_of w) in Hrun. rewrite Hloop in Hrun.
  destruct (list_sort Scheduler.sort_key tuple_lt candidates) as [sorted|e0] eqn:Hsort;
    [|discriminate].
  destruct (list_sort_comparable Scheduler.sort_key tuple_lt tuple_lt_irrefl
              tuple_lt_chain candidates sorted x y tuple_lt_comparable_sym
              Hsort Hx Hy) as [c Hc].
  unfold tuple_lt, Scheduler.sort_key in Hc. simpl in Hc.
  rewrite bool_decide_eq_true_2 in Hc by (rewrite Hprio; reflexivity).
  destruct (Entry.scheduled_time x), (Entry.scheduled_time y);
    try discriminate; split; intros; congruence.
Qed.

(** An empty string as the platform filter is no filter. *)
Lemma ready_loop_empty_filter (now : Z) (queue : list Entry.t) :
  Scheduler.ready_loop fromisoformat (Some "") now queue
  = Scheduler.ready_loop fromisoformat None now queue.
Proof.
  induction queue as [|x queue IH]; [reflexivity|].
  simpl. rewrite IH. reflexivity.
Qed.

(** C4, as the code has it.  Whenever [get_ready_uploads] returns, every
    job in its result is in the queue, has status queued, is due at the
    time of the call (the reading of the clock that the call takes), and
    has the platform asked for when the filter is a non-empty string; so
    a returned job has neither a scheduled time in the future nor a status
    other than queued.  This holds for every limit and every filter.  The
    empty string as a filter selects nothing: the call is the one without
    a filter. *)
Theorem get_ready_uploads_returns_only_ready_jobs (w : world) (limit : option Z) :
  Scheduler.get_ready_uploads fromisoformat limit (Some "") w
  = Scheduler.get_ready_uploads fromisoformat limit None w
  /\ forall (platform : option string) (ready : list Entry.t) (w' : world),
       Scheduler.get_ready_uploads fromisoformat limit platform w = (Ok ready, w') ->
       forall e : Entry.t, e ∈ ready ->
         e ∈ queue_of w
         /\ Entry.status e = "queued"
         /\ due fromisoformat (clock w (ticks w)) e
         /\ (forall p : string, platform = Some p -> p <> "" -> Entry.platform e = p)
         /\ (forall (s : string) (t : Z),
               Entry.scheduled_time e = Some s -> s <> "" ->
               fromisoformat s = Ok t -> ~ clock w (ticks w) < t)
         /\ Entry.status e ∉ ["uploading"; "completed"; "failed"].
Proof.
  split.
  { unfold Scheduler.get_ready_uploads. unfold_M. simpl.
    rewrite ready_loop_empty_filter. reflexivity. }
  intros platform ready w' Hrun e He.
  unfold Scheduler.get_ready_uploads, Scheduler._load_queue in Hrun.
  unfold_M. simpl in Hrun. fold (queue_of w) in Hrun.
  destruct (Scheduler.ready_loop fromisoformat platform (clock w (ticks w))
              (queue_of w)) as [ready0|e0] eqn:Hloop; [|discriminate].
  destruct (list_sort Scheduler.sort_key tuple_lt ready0) as [sorted|e0] eqn:Hsort;
    [|discriminate].
  injection Hrun as <- _.
  assert (Hin : e ∈ ready0).
  { rewrite <- (list_sort_perm _ _ _ _ Hsort).
    destruct (truthy_int limit); [apply (slice_to_subseteq _ _ _ He)|exact He]. }
  destruct (ready_loop_sound platform _ _ _ Hloop e Hin)
    as (Hq & Hst & Hdue & Hplat).
  split; [exact Hq|]. split; [exact Hst|]. split; [exact Hdue|].
  split; [exact Hplat|]. split.
  - intros s t Hs Hne Hparse Hlt.
    destruct Hdue as [Hnone|[Hempty|(s' & t' & Hs' & Hparse' & Hle)]];
      [congruence|congruence|].
    rewrite Hs in Hs'. injection Hs' as <-.
    rewrite Hparse in Hparse'. injection Hparse' as <-. lia.
  - rewrite Hst. intros Hbad.
    repeat (apply elem_of_cons in Hbad as [Hbad|Hbad]; [discriminate|]).
    inversion Hbad.
Qed.

End ReadyUploads.

Lemma get_ready_uploads_witness :
  entry_b ∈ queue_of queue_world
  /\ Entry.status entry_b = "queued"
  /\ due Datetime.fromisoformat_naive (noon + 8000000) entry_b
  /\ Entry.platform entry_b = "youtube".
Proof.
  destruct (get_ready_uploads_returns_only_ready_jobs Datetime.fromisoformat_naive
              queue_world None) as [_ Hready].
  destruct (Hready (Some "youtube") [entry_b; entry_a] (set_ticks 9 queue_world))
    with (e := entry_b) as (Hq & Hst & Hdue & Hplat & _);
    [vm_compute; reflexivity | left |].
  split; [exact Hq|]. split; [exact Hst|]. split; [exact Hdue|].
  apply (Hplat "youtube"); [reflexivity|discriminate].
Defined.

(** C4 as the specification words it fails: with the empty string as the
    platform filter, [get_ready_uploads] returns the ready jobs of YouTube
    and of TikTok, none of which has the platform that the filter
    names. *)
Lemma get_ready_uploads_empty_filter_returns_every_platform :
  Scheduler.get_ready_uploads Datetime.fromisoformat_naive None (Some "") queue_world
  = (Ok [entry_b; entry_a; entry_d], set_ticks 9 queue_world)
  /\ Entry.platform entry_b = "youtube"
  /\ Entry.platform entry_a = "youtube"
  /\ Entry.platform entry_d = "tiktok"
  /\ ~ (forall e : Entry.t,
          e ∈ [entry_b; entry_a; entry_d] -> Entry.platform e = "").
Proof.
  split; [vm_compute; reflexivity|].
  split; [reflexivity|]. split; [reflexivity|]. split; [reflexivity|].
  intros Hall. specialize (Hall entry_b ltac:(left)). discriminate Hall.
Qed.

(** The queue of [queue_world] is what four calls of [add_to_queue] build
    (the fifth entry apart). *)
Example queue_world_is_built_by_add_to_queue :
  exists w' : world,
    (Scheduler.add_to_queue "a.mp4" "{}" "youtube" None 5;;
     Scheduler.add_to_queue "b.mp4" "{}" "youtube" (Some (noon - 3600000000)) 7;;
     Scheduler.add_to_queue "c.mp4" "{}" "youtube" (Some (noon + 86400000000)) 9;;
     Scheduler.add_to_queue "d.mp4" "{}" "tiktok" None 5)
      (empty_world (stepping_clock noon 1000000))
    = (Ok "tiktok_20240101120006", w')
    /\ queue_of w' = [entry_a; entry_b; entry_c; entry_d]
    /\ ticks w' = 8%nat.
Proof.
  eexists. split; [vm_compute; reflexivity|]. split; reflexivity.
Qed.

(** With a limit of one only the most urgent ready job is returned. *)
Example get_ready_uploads_limit_one :
  Scheduler.get_ready_uploads Datetime.fromisoformat_naive (Some 1) None queue_world
  = (Ok [entry_b], set_ticks 9 queue_world).
Proof. vm_compute. reflexivity. Qed.

(** C1.  Let the queue hold two queued jobs of equal priority, the first
    without a scheduled time, the second with a scheduled time that has
    passed; both are ready.  [get_ready_uploads] does not return them in
    any order: the sort compares the keys [(-priority, None)] and
    [(-priority, s)] and raises [TypeError].  The stored value of an
    unscheduled job is [None], not the empty string that the sort key asks
    [get] to default to. *)
Theorem get_ready_uploads_raises_on_mixed_schedule
    (fromisoformat : string -> outcome Z) (w : world) (e1 e2 : Entry.t)
    (s : string) (t : Z) (limit : option Z) :
  queue_of w = [e1; e2] ->
  Entry.status e1 = "queued" -> Entry.status e2 = "queued" ->
  Entry.priority e1 = Entry.priority e2 ->
  Entry.scheduled_time e1 = None ->
  Entry.scheduled_time e2 = Some s -> s <> "" ->
  fromisoformat s = Ok t -> t <= clock w (ticks w) ->
  Scheduler.ready_loop fromisoformat None (clock w (ticks w)) (queue_of w)
    = Ok [e1; e2]
  /\ Scheduler.get_ready_uploads fromisoformat limit None w
     = (Raise TypeError, set_ticks (S (ticks w)) w).
Proof.
  intros Hq Hst1 Hst2 Hprio Hs1 Hs2 Hne Hparse Hle.
  assert (Hloop : Scheduler.ready_loop fromisoformat None (clock w (ticks w))
                    (queue_of w) = Ok [e1; e2]).
  { rewrite Hq. simpl. rewrite Hst1, Hst2, Hs1, Hs2. simpl.
    destruct (String.eqb_spec s "") as [Hempty|_]; [contradiction|]. simpl.
    rewrite Hparse. destruct (Z.ltb_spec (clock w (ticks w)) t); [lia|reflexivity]. }
  split; [exact Hloop|].
  unfold Scheduler.get_ready_uploads, Scheduler._load_queue. unfold_M. simpl.
  fold (queue_of w). rewrite Hloop.
  unfold list_sort, sort_step, tuple_lt, Scheduler.sort_key. simpl.
  rewrite Hs1, Hs2, bool_decide_eq_true_2 by (rewrite Hprio; reflexivity).
  reflexivity.
Qed.

Lemma get_ready_uploads_mixed_schedule_witness :
  Scheduler.add_to_queue "a.mp4" "{}" "youtube" None 5
    (empty_world (stepping_clock noon 1000000))
    = (Ok "youtube_20240101120000", mixed_world_1)
  /\ Scheduler.add_to_queue "b.mp4" "{}" "youtube" (Some (noon - 3600000000)) 5
       mixed_world_1
     = (Ok "youtube_20240101120002", mixed_world)
  /\ Scheduler.get_ready_uploads Datetime.fromisoformat_naive None None mixed_world
     = (Raise TypeError, set_ticks 5 mixed_world).
Proof.
  split; [vm_compute; reflexivity|].
  split; [vm_compute; reflexivity|].
  apply (get_ready_uploads_raises_on_mixed_schedule Datetime.fromisoformat_naive
           mixed_world entry_a entry_p "2024-01-01T11:00:00" (noon - 3600000000) None);
    try reflexivity; [discriminate | vm_compute; discriminate].
Defined.

(** ** cleanup_completed *)

Lemma filter_length_eq {A : Type} (f : A -> bool) (l : list A) :
  length (List.filter f l) = length l -> List.filter f l = l.
Proof.
  induction l as [|a l IH]; intros Hlen; [reflexivity|].
  simpl in *. destruct (f a).
  - simpl in Hlen. f_equal. apply IH. lia.
  - pose proof (List.filter_length_le f l). lia.
Qed.

Section Cleanup.

Variable fromisoformat : string -> outcome Z.

Lemma expiredb_spec (cutoff : Z) (e : Entry.t) :
  expiredb fromisoformat cutoff e = true <-> expired fromisoformat cutoff e.
Proof.
  unfold expiredb, expired. rewrite andb_true_iff. split.
  - intros [Hst Hts]. split; [apply String.eqb_eq; exact Hst|].
    destruct (Entry.completed_at e) as [s|]; [|discriminate].
    destruct (fromisoformat s) as [t|] eqn:Hparse; [|discriminate].
    exists s, t. repeat split; [exact Hparse|]. apply Z.leb_le. exact Hts.
  - intros (Hst & s & t & Hs & Hparse & Hle).
    split; [apply String.eqb_eq; exact Hst|].
    rewrite Hs, Hparse. apply Z.leb_le. exact Hle.
Qed.

Lemma cleanup_filter_spec (cutoff : Z) (queue : list Entry.t) (w : world) :
  clock_readings_roundtrip fromisoformat (length queue) w ->
  completion_times_readable fromisoformat queue ->
  (forall k : nat, (ticks w <= k)%nat -> cutoff < clock w k) ->
  exists n : nat,
    Scheduler.cleanup_filter fromisoformat cutoff queue w
    = (Ok (List.filter (fun e => negb (expiredb fromisoformat cutoff e)) queue),
       set_ticks (ticks w + n) w).
Proof.
  revert w.
  induction queue as [|e queue IH]; intros w Hround Hread Hlate.
  - exists 0%nat. simpl. unfold_M. rewrite Nat.add_0_r. destruct w; reflexivity.
  - assert (Hread' : completion_times_readable fromisoformat queue).
    { intros x s Hx. apply Hread. right. exact Hx. }
    simpl. unfold expiredb at 1.
    destruct (String.eqb_spec (Entry.status e) "completed") as [Hst|Hst].
    + (* a completed entry: one reading of the clock *)
      set (w1 := set_ticks (S (ticks w)) w).
      assert (Hlate1 : forall k : nat, (ticks w1 <= k)%nat -> cutoff < clock w1 k).
      { intros k Hk. apply Hlate. simpl in Hk. lia. }
      assert (Hround1 : clock_readings_roundtrip fromisoformat (length queue) w1).
      { intros k Hk. apply Hround. simpl in *. lia. }
      destruct (IH w1 Hround1 Hread' Hlate1) as [n Hrest].
      exists (S n). unfold_M. simpl.
      destruct (Entry.completed_at e) as [s|] eqn:Hs; simpl.
      * destruct (Hread e s) as [t Hparse]; [left|exact Hst|exact Hs|].
        rewrite Hparse. fold w1. rewrite Hrest. simpl.
        rewrite Z.leb_antisym, negb_involutive.
        replace (ticks w + S n)%nat with (S (ticks w + n)) by lia.
        destruct (cutoff <? t); reflexivity.
      * rewrite Hround by (simpl; lia). fold w1. rewrite Hrest. simpl.
        assert (Hnew : (cutoff <? clock w (ticks w)) = true)
          by (apply Z.ltb_lt, Hlate; lia).
        rewrite Hnew.
        replace (ticks w + S n)%nat with (S (ticks w + n)) by lia.
        reflexivity.
    + (* any other status: kept, the clock is not read *)
      assert (Hround0 : clock_readings_roundtrip fromisoformat (length queue) w).
      { intros k Hk. apply Hround. simpl in *. lia. }
      destruct (IH w Hround0 Hread' Hlate) as [n Hrest].
      exists n. unfold_M. simpl. rewrite Hrest. reflexivity.
Qed.

(** What [cleanup_completed] does.  Let the horizon be at least one day
    and the cutoff, the time of the call less the horizon, be an instant
    that [datetime] can represent; let the clock not run backwards, and
    the completion times in the queue be readable.  Then
    [cleanup_completed] returns normally and leaves in the queue, in
    their order, exactly the jobs that are not [expired]: it removes the
    completed jobs whose completion time is at or before the cutoff and no
    other job.  A completed job without a completion time stays, and so
    does every job whose status is not completed, whatever its age. *)
Lemma cleanup_completed_removes_exactly_expired (w : world) (days : Z) :
  0 < days ->
  Datetime.representable (clock w (ticks w) - Datetime.timedelta_days days) ->
  clock_monotone w ->
  clock_readings_roundtrip fromisoformat (S (length (queue_of w))) w ->
  completion_times_readable fromisoformat (queue_of w) ->
  let cutoff := clock w (ticks w) - Datetime.timedelta_days days in
  exists w' : world,
    Scheduler.cleanup_completed fromisoformat days w = (Ok tt, w')
    /\ queue_of w' = List.filter (fun e => negb (expiredb fromisoformat cutoff e)) (queue_of w)
    /\ (forall e : Entry.t,
          e ∈ queue_of w' <-> e ∈ queue_of w /\ ~ expired fromisoformat cutoff e)
    /\ (forall e : Entry.t,
          e ∈ queue_of w -> Entry.status e = "completed" ->
          Entry.completed_at e = None -> e ∈ queue_of w')
    /\ (forall e : Entry.t,
          e ∈ queue_of w -> Entry.status e <> "completed" -> e ∈ queue_of w').
Proof.
  intros Hdays _ Hmono Hround Hread cutoff.
  set (w1 := set_ticks (S (ticks w)) w).
  assert (Hlate : forall k : nat, (ticks w1 <= k)%nat -> cutoff < clock w1 k).
  { intros k Hk. change (clock w1 k) with (clock w k).
    change (ticks w1) with (S (ticks w)) in Hk.
    pose proof (Hmono (ticks w) k ltac:(lia)) as Hle.
    subst cutoff. unfold Datetime.timedelta_days, Datetime.us_per_day,
      Datetime.us_per_second.
    lia. }
  assert (Hround1 : clock_readings_roundtrip fromisoformat (length (queue_of w)) w1).
  { intros k Hk. apply Hround. change (ticks w1) with (S (ticks w)) in Hk. lia. }
  destruct (cleanup_filter_spec cutoff (queue_of w) w1 Hround1 Hread Hlate)
    as [n Hfilter].
  set (kept := List.filter (fun e => negb (expiredb fromisoformat cutoff e)) (queue_of w)) in *.
  assert (Hmem : forall e : Entry.t, e ∈ kept <-> e ∈ queue_of w /\ ~ expired fromisoformat cutoff e).
  { intros e. unfold kept. rewrite list_elem_of_In, List.filter_In, <- list_elem_of_In.
    rewrite negb_true_iff, <- not_true_iff_false, expiredb_spec. tauto. }
  assert (Hrun : exists w' : world,
             Scheduler.cleanup_completed fromisoformat days w = (Ok tt, w')
             /\ queue_of w' = kept).
  { unfold Scheduler.cleanup_completed, Scheduler._load_queue, Scheduler._save_queue.
    unfold_M. simpl. fold (queue_of w) w1 cutoff. rewrite Hfilter. fold kept.
    destruct (Z.ltb_spec 0 (Z.of_nat (length (queue_of w)) - Z.of_nat (length kept)))
      as [Hremoved|Hnone].
    - eexists. split; reflexivity.
    - eexists. split; [reflexivity|].
      pose proof (List.filter_length_le (fun e => negb (expiredb fromisoformat cutoff e)) (queue_of w))
        as Hle.
      fold kept in Hle.
      assert (Hlen : length kept = length (queue_of w)) by lia.
      symmetry. apply filter_length_eq. exact Hlen. }
  destruct Hrun as (w' & Hrun & Hq).
  exists w'. split; [exact Hrun|]. rewrite Hq.
  split; [reflexivity|]. split; [exact Hmem|]. split.
  - intros e Hin Hst Hnone. apply Hmem. split; [exact Hin|].
    intros (_ & s & t & Hs & _). congruence.
  - intros e Hin Hst. apply Hmem. split; [exact Hin|].
    intros (Hst' & _). contradiction.
Qed.

(** C5.  The docstring of [cleanup_completed] and the specification have
    it remove the completed jobs that are older than the horizon.  The
    code keeps a completed job only when its completion time is later
    than the cutoff: a job completed exactly [days] days before the call,
    which is not older than the horizon, is removed from the queue.  This
    holds for every horizon of at least one day and every queue that can
    be read. *)
Theorem cleanup_completed_removes_job_completed_at_cutoff (w : world) (days : Z)
    (e : Entry.t) (s : string) :
  0 < days ->
  Datetime.representable (clock w (ticks w) - Datetime.timedelta_days days) ->
  clock_monotone w ->
  clock_readings_roundtrip fromisoformat (S (length (queue_of w))) w ->
  completion_times_readable fromisoformat (queue_of w) ->
  e ∈ queue_of w ->
  Entry.status e = "completed" ->
  Entry.completed_at e = Some s ->
  fromisoformat s = Ok (clock w (ticks w) - Datetime.timedelta_days days) ->
  exists w' : world,
    Scheduler.cleanup_completed fromisoformat days w = (Ok tt, w')
    /\ (e ∉ queue_of w')
    /\ queue_file w' = Some (queue_of w').
Proof.
  intros Hdays Hrange Hmono Hround Hread Hin Hst Hs Hparse.
  destruct (cleanup_completed_removes_exactly_expired w days Hdays Hrange Hmono
              Hround Hread) as (w' & Hrun & Hq & Hmem & _).
  assert (Hgone : e ∉ queue_of w').
  { intros Hkept. apply Hmem in Hkept as [_ Hnot]. apply Hnot.
    split; [exact Hst|]. exists s, (clock w (ticks w) - Datetime.timedelta_days days).
    split; [exact Hs|]. split; [exact Hparse|]. lia. }
  exists w'. split; [exact Hrun|]. split; [exact Hgone|].
  (* a job was removed, so the queue was written back *)
  revert Hrun Hgone.
  unfold Scheduler.cleanup_completed, Scheduler._load_queue, Scheduler._save_queue.
  unfold_M. simpl. fold (queue_of w).
  destruct (Scheduler.cleanup_filter fromisoformat
              (clock w (ticks w) - Datetime.timedelta_days days) (queue_of w)
              (set_ticks (S (ticks w)) w)) as [[kept|x] w1] eqn:Hfilter;
    [|discriminate].
  destruct (Z.ltb_spec 0 (Z.of_nat (length (queue_of w)) - Z.of_nat (length kept)))
    as [Hremoved|Hnone].
  - intros Hrun _. injection Hrun as <-. reflexivity.
  - intros Hrun Hgone. exfalso. apply Hgone. rewrite Hq.
    destruct (cleanup_filter_spec
                (clock w (ticks w) - Datetime.timedelta_days days) (queue_of w)
                (set_ticks (S (ticks w)) w)) as [n Hspec].
    + intros k Hk. apply Hround. simpl in Hk. lia.
    + exact Hread.
    + intros k Hk. simpl in Hk. simpl.
      pose proof (Hmono (ticks w) k ltac:(lia)) as Hle.
      unfold Datetime.timedelta_days, Datetime.us_per_day, Datetime.us_per_second.
      lia.
    + rewrite Hspec in Hfilter. injection Hfilter as <- _.
      pose proof (List.filter_length_le
                    (fun e => negb (expiredb fromisoformat
                       (clock w (ticks w) - Datetime.timedelta_days days) e))
                    (queue_of w)) as Hle.
      rewrite filter_length_eq by lia. exact Hin.
Qed.

End Cleanup.

Lemma stepping_clock_monotone (t0 step : Z) (n : nat) (q : list Entry.t) :
  0 <= step -> clock_monotone (world_with_queue (stepping_clock t0 step) n q).
Proof.
  intros Hstep i j Hij. simpl. unfold stepping_clock. nia.
Qed.

Example cleanup_completed_keeps_recent_and_unfinished :
  exists w' : world,
    Scheduler.cleanup_completed Datetime.fromisoformat_naive 7 cleanup_world
      = (Ok tt, w')
    /\ queue_of w' = [done_recent; done_untimed; failed_old; entry_a].
Proof.
  destruct (cleanup_completed_removes_exactly_expired Datetime.fromisoformat_naive
              cleanup_world 7) as (w' & Hrun & Hq & _).
  - lia.
  - split; vm_compute; intros Hcmp; discriminate Hcmp.
  - apply stepping_clock_monotone. lia.
  - intros k Hk. simpl in Hk.
    assert (Hcases : k = 0%nat \/ k = 1%nat \/ k = 2%nat \/ k = 3%nat
                     \/ k = 4%nat \/ k = 5%nat) by lia.
    destruct Hcases as [->|[->|[->|[->|[->| ->]]]]]; vm_compute; reflexivity.
  - intros e s He Hst Hs.
    repeat (apply elem_of_cons in He as [->|He];
            [simpl in Hst, Hs;
             first [ discriminate Hst | discriminate Hs
                   | injection Hs as <-; eexists; vm_compute; reflexivity ]|]).
    inversion He.
  - exists w'. split; [exact Hrun|]. rewrite Hq. vm_compute. reflexivity.
Defined.

(** The job [done_at_cutoff] was completed at 2023-12-25T12:00:00, seven
    days to the microsecond before the call. *)
Lemma cleanup_completed_at_cutoff_witness :
  Datetime.fromisoformat_naive "2023-12-25T12:00:00"
  = Ok (noon - Datetime.timedelta_days 7)
  /\ exists w' : world,
       Scheduler.cleanup_completed Datetime.fromisoformat_naive 7
         (world_with_queue (stepping_clock noon 1000000) 0 [entry_a; done_at_cutoff])
       = (Ok tt, w')
       /\ (done_at_cutoff ∉ queue_of w')
       /\ queue_file w' = Some (queue_of w').
Proof.
  split; [vm_compute; reflexivity|].
  apply (cleanup_completed_removes_job_completed_at_cutoff
           Datetime.fromisoformat_naive
           (world_with_queue (stepping_clock noon 1000000) 0 [entry_a; done_at_cutoff])
           7 done_at_cutoff "2023-12-25T12:00:00").
  - lia.
  - split; vm_compute; intros Hcmp; discriminate Hcmp.
  - apply stepping_clock_monotone. lia.
  - intros k Hk. simpl in Hk.
    assert (Hcases : k = 0%nat \/ k = 1%nat \/ k = 2%nat) by lia.
    destruct Hcases as [->|[->| ->]]; vm_compute; reflexivity.
  - intros e s He Hst Hs.
    repeat (apply elem_of_cons in He as [->|He];
            [simpl in Hst, Hs;
             first [ discriminate Hst | discriminate Hs
                   | injection Hs as <-; eexists; vm_compute; reflexivity ]|]).
    inversion He.
  - right; left.
  - reflexivity.
  - reflexivity.
  - vm_compute. reflexivity.
Defined.

(** The two evaluations.
    (1) With a horizon of seven days, a job completed exactly seven days
    before the call is not older than the cutoff, and is removed.
    (2) With a horizon of zero days and a clock that gives the same
    reading twice, a completed job without a completion time, which the
    default of [get] means to count as just completed, is removed. *)
Example cleanup_completed_boundary_and_zero_horizon :
  (exists w' : world,
     Scheduler.cleanup_completed Datetime.fromisoformat_naive 7
       (world_with_queue (stepping_clock noon 1000000) 0 [done_at_cutoff])
       = (Ok tt, w')
     /\ Datetime.fromisoformat_naive "2023-12-25T12:00:00"
        = Ok (noon - Datetime.timedelta_days 7)
     /\ ~ (noon - Datetime.timedelta_days 7 < noon - Datetime.timedelta_days 7)
     /\ queue_of w' = [])
  /\ (exists w' : world,
        Scheduler.cleanup_completed Datetime.fromisoformat_naive 0
          (world_with_queue (frozen_clock noon) 0 [done_untimed])
          = (Ok tt, w')
        /\ Entry.completed_at done_untimed = None
        /\ queue_of w' = []).
Proof.
  split.
  - eexists. split; [vm_compute; reflexivity|].
    split; [vm_compute; reflexivity|]. split; [lia|reflexivity].
  - eexists. split; [vm_compute; reflexivity|].
    split; reflexivity.
Qed.

(** ** add_to_queue *)

Lemma strftime_same_second (t1 t2 : Z) :
  t1 / Datetime.us_per_second = t2 / Datetime.us_per_second ->
  Datetime.strftime_YmdHMS t1 = Datetime.strftime_YmdHMS t2.
Proof.
  unfold Datetime.strftime_YmdHMS, Datetime.year, Datetime.month, Datetime.day,
    Datetime.hour, Datetime.minute, Datetime.second, Datetime.us_per_day,
    Datetime.us_per_hour, Datetime.us_per_second.
  intros Hsec.
  assert (Hday : t1 / (86400 * 1000000) = t2 / (86400 * 1000000))
    by (Z.div_mod_to_equations; lia).
  assert (Hhour : t1 mod (86400 * 1000000) / (3600 * 1000000)
                  = t2 mod (86400 * 1000000) / (3600 * 1000000))
    by (Z.div_mod_to_equations; lia).
  assert (Hmin : t1 mod (3600 * 1000000) / (60 * 1000000)
                 = t2 mod (3600 * 1000000) / (60 * 1000000))
    by (Z.div_mod_to_equations; lia).
  assert (Hs : t1 mod (60 * 1000000) / 1000000 = t2 mod (60 * 1000000) / 1000000)
    by (Z.div_mod_to_equations; lia).
  rewrite Hday, Hhour, Hmin, Hs. reflexivity.
Qed.

Lemma add_to_queue_run (w : world) (video_file_path metadata platform : string)
    (scheduled_time : option Z) (priority : Z) :
  let entry_id := platform ++ "_" ++ Datetime.strftime_YmdHMS (clock w (ticks w)) in
  let entry :=
    Entry.mk entry_id video_file_path metadata platform
      (Datetime.isoformat <$> scheduled_time) priority "queued"
      (Datetime.isoformat (clock w (S (ticks w)))) 0 None None None in
  Scheduler.add_to_queue video_file_path metadata platform scheduled_time priority w
  = (Ok entry_id,
     set_queue_file (Some (queue_of w ++ [entry])%list)
       (set_ticks (S (S (ticks w))) w)).
Proof. reflexivity. Qed.

(** C7.  Whenever the clock readings that two successive calls of
    [add_to_queue] for one platform take for their ids fall in the same
    second, both calls return the same id, and the queue then holds two
    entries under it: the ids of two enqueued jobs need not differ. *)
Theorem add_to_queue_same_second_same_id (w : world)
    (platform file1 metadata1 file2 metadata2 : string)
    (scheduled1 scheduled2 : option Z) (priority1 priority2 : Z) :
  clock w (ticks w) / Datetime.us_per_second
  = clock w (S (S (ticks w))) / Datetime.us_per_second ->
  exists (entry_id : string) (w1 w2 : world) (e1 e2 : Entry.t),
    Scheduler.add_to_queue file1 metadata1 platform scheduled1 priority1 w
      = (Ok entry_id, w1)
    /\ Scheduler.add_to_queue file2 metadata2 platform scheduled2 priority2 w1
       = (Ok entry_id, w2)
    /\ entry_id = platform ++ "_" ++ Datetime.strftime_YmdHMS (clock w (ticks w))
    /\ queue_of w2 = (queue_of w ++ [e1; e2])%list
    /\ Entry.id e1 = entry_id /\ Entry.id e2 = entry_id
    /\ Entry.video_file_path e1 = file1 /\ Entry.video_file_path e2 = file2.
Proof.
  intros Hsec.
  eexists _, _, _, _, _.
  split; [apply add_to_queue_run|].
  split.
  { rewrite add_to_queue_run. cbn [clock ticks set_queue_file set_ticks].
    rewrite <- (strftime_same_second _ _ Hsec). reflexivity. }
  split; [reflexivity|].
  split.
  { assert (Hsaved : forall (q : list Entry.t) (w0 : world),
              queue_of (set_queue_file (Some q) w0) = q) by reflexivity.
    rewrite !Hsaved, <- app_assoc. reflexivity. }
  repeat split.
Qed.

Lemma add_to_queue_same_second_witness :
  exists (w1 w2 : world) (e1 e2 : Entry.t),
    Scheduler.add_to_queue "a.mp4" "{}" "youtube" None 5
      (empty_world (stepping_clock noon 1)) = (Ok "youtube_20240101120000", w1)
    /\ Scheduler.add_to_queue "b.mp4" "{}" "youtube" None 5 w1
       = (Ok "youtube_20240101120000", w2)
    /\ queue_of w2 = [e1; e2]
    /\ Entry.id e1 = Entry.id e2
    /\ Entry.video_file_path e1 = "a.mp4"
    /\ Entry.video_file_path e2 = "b.mp4".
Proof.
  destruct (add_to_queue_same_second_same_id (empty_world (stepping_clock noon 1))
              "youtube" "a.mp4" "{}" "b.mp4" "{}" None None 5 5)
    as (entry_id & w1 & w2 & e1 & e2 & Hrun1 & Hrun2 & Hid & Hq & Hid1 & Hid2 & Hf1 & Hf2);
    [vm_compute; reflexivity|].
  assert (Hstr : entry_id = "youtube_20240101120000")
    by (rewrite Hid; vm_compute; reflexivity).
  rewrite Hstr in Hrun1, Hrun2.
  exists w1, w2, e1, e2.
  repeat split; try assumption. congruence.
Defined.

(** [schedule_batch_uploads] enqueues in a loop: on a clock that steps by
    a millisecond the three jobs of a batch get one id; their scheduled
    times are the start time and four and eight hours later. *)
Example schedule_batch_uploads_ids_collide :
  exists w' : world,
    Scheduler.schedule_batch_uploads ["a.mp4"; "b.mp4"; "c.mp4"] ["{}"; "{}"; "{}"]
      "youtube" (Some (noon + Datetime.us_per_day)) 4
      (empty_world (stepping_clock noon 1000))
    = (Ok ["youtube_20240101120000"; "youtube_20240101120000";
           "youtube_20240101120000"], w')
    /\ map Entry.id (queue_of w')
       = ["youtube_20240101120000"; "youtube_20240101120000";
          "youtube_20240101120000"]
    /\ map Entry.scheduled_time (queue_of w')
       = [Some "2024-01-02T12:00:00"; Some "2024-01-02T16:00:00";
          Some "2024-01-02T20:00:00"].
Proof.
  eexists. split; [vm_compute; reflexivity|]. split; vm_compute; reflexivity.
Qed.

Example get_next_upload_time_same_day :
  Scheduler.get_next_upload_time "youtube" (Some noon)
    (empty_world (stepping_clock noon 1000))
  = (Ok (noon + 6 * Datetime.us_per_hour), empty_world (stepping_clock noon 1000)).
Proof. vm_compute. reflexivity. Qed.

Example get_next_upload_time_next_day :
  Scheduler.get_next_upload_time "youtube" (Some (noon + 10 * Datetime.us_per_hour))
    (empty_world (stepping_clock noon 1000))
  = (Ok (noon + 21 * Datetime.us_per_hour), empty_world (stepping_clock noon 1000)).
Proof. vm_compute. reflexivity. Qed.

(** Removing an id that two entries share removes both. *)
Example remove_from_queue_removes_every_match :
  Scheduler.remove_from_queue "youtube_20240101120002"
    (world_with_queue (stepping_clock noon 1000) 0
       [entry_a; entry_b; entry_p; entry_d])
  = (Ok tt, world_with_queue (stepping_clock noon 1000) 0 [entry_a; entry_d]).
Proof. vm_compute. reflexivity. Qed.

(** ** check_daily_limit *)

Lemma filter_ext_length {A : Type} (f g : A -> bool) (l : list A) :
  (forall x, f x = g x) -> length (List.filter f l) = length (List.filter g l).
Proof.
  intros Hext. induction l as [|a l IH]; [reflexivity|].
  simpl. rewrite Hext. destruct (g a); simpl; rewrite IH; reflexivity.
Qed.

(** For the platform "youtube" the report is the one the specification
    describes. *)
Lemma check_daily_limit_youtube (w : world) (date : option Z) :
  let day := Datetime.start_of_day (default (clock w (ticks w)) date) in
  let limit := default 3 (daily_limit_cfg w) in
  let used :=
    Z.of_nat (length (List.filter (published_in_day YOUTUBE day) (publish_records w))) in
  exists w' : world,
    Scheduler.check_daily_limit "youtube" date w
    = (Ok (Scheduler.mk_limit_info limit used (Z.max 0 (limit - used))
             (Z.max 0 (limit - used) =? 0)), w').
Proof.
  intros day limit used.
  assert (Hcount : forall d : Z,
    Z.of_nat (length (List.filter
      (fun r => bool_decide (PublishRecord.platform r = YOUTUBE)
                && (Scheduler.published_at_ge (Datetime.start_of_day d) r
                    && (Scheduler.published_at_lt
                          (Datetime.start_of_day d + Datetime.timedelta_days 1) r
                        && (Bool.eqb (PublishRecord.is_published r) true && true))))
      (publish_records w)))
    = Z.of_nat (length (List.filter (published_in_day YOUTUBE (Datetime.start_of_day d))
                          (publish_records w)))).
  { intros d. f_equal. apply filter_ext_length. intros r.
    unfold published_in_day, Scheduler.published_at_ge, Scheduler.published_at_lt.
    change (Datetime.timedelta_days 1) with (24 * Datetime.us_per_hour).
    destruct (bool_decide (PublishRecord.platform r = YOUTUBE)),
      (PublishRecord.is_published r), (PublishRecord.published_at r) as [p|];
      simpl; try reflexivity.
    - destruct (Datetime.start_of_day d <=? p),
        (p <? Datetime.start_of_day d + 24 * Datetime.us_per_hour); reflexivity.
    - destruct (Datetime.start_of_day d <=? p),
        (p <? Datetime.start_of_day d + 24 * Datetime.us_per_hour); reflexivity. }
  unfold Scheduler.check_daily_limit, Scheduler.session_execute. unfold_M.
  destruct date as [d|]; simpl; rewrite Hcount; eexists; reflexivity.
Qed.

(** C6.  For every platform other than "youtube" (so for "tiktok" and
    "instagram") [check_daily_limit] returns no report: building the query
    raises [ArgumentError], because the first argument of [and_] is then
    the enum member [Platform.TIKTOK], not a condition on the platform
    column. *)
Theorem check_daily_limit_raises_unless_youtube (w : world) (platform : string)
    (date : option Z) :
  platform <> "youtube" ->
  exists w' : world,
    Scheduler.check_daily_limit platform date w = (Raise ArgumentError, w').
Proof.
  intros Hne. unfold Scheduler.check_daily_limit, Scheduler.platform_clause.
  unfold_M. destruct (String.eqb_spec platform "youtube") as [Heq|_];
    [contradiction|].
  destruct date as [d|]; simpl; eexists; reflexivity.
Qed.

Lemma check_daily_limit_tiktok_witness :
  exists w' : world,
    Scheduler.check_daily_limit "tiktok" (Some noon) records_world
    = (Raise ArgumentError, w').
Proof.
  apply (check_daily_limit_raises_unless_youtube records_world "tiktok" (Some noon)).
  discriminate.
Defined.

(** The two scenarios of the specification, for "youtube". *)
Example check_daily_limit_three_of_three :
  Scheduler.check_daily_limit "youtube" None records_world
  = (Ok (Scheduler.mk_limit_info 3 3 0 true), set_ticks 1 records_world).
Proof. vm_compute. reflexivity. Qed.

Example check_daily_limit_two_of_three :
  Scheduler.check_daily_limit "youtube" (Some noon) records_world_two
  = (Ok (Scheduler.mk_limit_info 3 2 1 false), records_world_two).
Proof. vm_compute. reflexivity. Qed.

(** ** The viral-candidate filter *)

Example isodate_total_seconds_minute : Isodate.total_seconds "PT1M" = Ok 60%Q.
Proof. vm_compute. reflexivity. Qed.

Example isodate_parse_datetime_ten :
  Isodate.parse_datetime "2024-01-01T10:00:00Z" = Ok (noon - 2 * Datetime.us_per_hour).
Proof. vm_compute. reflexivity. Qed.

Example filter_videos_scenarios :
  YouTubeMonitor.filter_videos Isodate.total_seconds Isodate.parse_datetime
    [video_45s; video_90s; video_old; video_music; video_slow] 48 10000
    (empty_world (stepping_clock noon 1000000))
  = (Ok [YouTubeMonitor.mk_video_data "v45" "title v45" "channel" 20000 10 10000
           (noon - 2 * Datetime.us_per_hour) 45 "https://www.youtube.com/shorts/v45"],
     set_ticks 1 (empty_world (stepping_clock noon 1000000))).
Proof. vm_compute. reflexivity. Qed.

Lemma Qltb_lt (x y : Q) : Qltb x y = true <-> (x < y)%Q.
Proof.
  unfold Qltb. rewrite negb_true_iff, <- not_true_iff_false, Qle_bool_iff.
  split; [apply Qnot_le_lt|apply Qlt_not_le].
Qed.

Lemma Qltb_ge (x y : Q) : Qltb x y = false <-> (y <= x)%Q.
Proof.
  unfold Qltb. rewrite negb_false_iff, Qle_bool_iff. reflexivity.
Qed.

Lemma Qle_bool_gt (x y : Q) : Qle_bool x y = false <-> (y < x)%Q.
Proof.
  rewrite <- not_true_iff_false, Qle_bool_iff.
  split; [apply Qnot_le_lt|apply Qlt_not_le].
Qed.

(** *** The rounding of floats *)

Lemma nearest_even_bounds (y : Q) :
  Qfloor y <= Float.nearest_even y <= Qfloor y + 1.
Proof.
  unfold Float.nearest_even.
  destruct (y - inject_Z (Qfloor y) ?= 1 # 2)%Q; [destruct (Z.even (Qfloor y))| |]; lia.
Qed.

Lemma nearest_even_le (y : Q) (k : Z) :
  (y <= inject_Z k)%Q -> Float.nearest_even y <= k.
Proof.
  intros Hle. unfold Float.nearest_even.
  pose proof (Qfloor_le y) as Hfloor.
  assert (Hfk : Qfloor y <= k).
  { rewrite Zle_Qle. apply Qle_trans with y; assumption. }
  destruct (Qcompare_spec (y - inject_Z (Qfloor y)) (1 # 2)) as [Heq|Hlt|Hgt].
  - assert (Hlt : (inject_Z (Qfloor y) < inject_Z k)%Q) by lra.
    rewrite <- Zlt_Qlt in Hlt. destruct (Z.even (Qfloor y)); lia.
  - exact Hfk.
  - assert (Hlt : (inject_Z (Qfloor y) < inject_Z k)%Q) by lra.
    rewrite <- Zlt_Qlt in Hlt. lia.
Qed.

Lemma nearest_even_nonneg (y : Q) : (0 <= y)%Q -> 0 <= Float.nearest_even y.
Proof.
  intros Hy. transitivity (Qfloor y); [|apply nearest_even_bounds].
  rewrite <- (Qfloor_Z 0). apply Qfloor_resp_le. exact Hy.
Qed.

Lemma pow2_pos (e : Z) : (0 < 2 ^ e)%Q.
Proof. apply Qpower_0_lt. reflexivity. Qed.

Lemma pow2_add (a b : Z) : (2 ^ (a + b) == 2 ^ a * 2 ^ b)%Q.
Proof. apply Qpower_plus. discriminate. Qed.

Lemma pow2_Z (n : Z) : 0 <= n -> (2 ^ n == inject_Z (2 ^ n))%Q.
Proof. intros Hn. rewrite (Zpower_Qpower 2 n Hn). reflexivity. Qed.

Lemma pow2_le (a b : Z) : a <= b -> (2 ^ a <= 2 ^ b)%Q.
Proof. intros Hab. apply Qpower_le_compat_l; [exact Hab|discriminate]. Qed.

Lemma ilog2_le (x : Q) : (0 < x)%Q -> (2 ^ Float.ilog2 x <= x)%Q.
Proof.
  intros Hpos. unfold Float.ilog2. destruct x as [a b]. cbn [Qnum Qden].
  set (l := Z.log2 a - Z.log2 (Z.pos b)).
  destruct (Qltb (a # b) (2 ^ l)) eqn:Hlt.
  - unfold Qlt in Hpos. simpl in Hpos.
    assert (Ha : 0 < a) by lia.
    destruct (Z.log2_spec a Ha) as [Halo _].
    destruct (Z.log2_spec (Z.pos b) ltac:(lia)) as [_ Hbhi].
    pose proof (Z.log2_nonneg a) as Hla. pose proof (Z.log2_nonneg (Z.pos b)) as Hlb.
    replace (l - 1) with (Z.log2 a + - (Z.log2 (Z.pos b) + 1)) by (subst l; lia).
    rewrite pow2_add, Qpower_opp, !pow2_Z by lia.
    replace (Z.succ (Z.log2 (Z.pos b))) with (Z.log2 (Z.pos b) + 1) in Hbhi by lia.
    assert (HA : 0 < 2 ^ Z.log2 a) by (apply Z.pow_pos_nonneg; lia).
    generalize dependent (2 ^ Z.log2 a). generalize dependent (2 ^ (Z.log2 (Z.pos b) + 1)).
    intros B HB A HA0 HA.
    apply Qle_shift_div_r.
    + change 0%Q with (inject_Z 0). rewrite <- Zlt_Qlt. lia.
    + unfold Qle, Qmult, inject_Z. simpl. nia.
  - apply Qltb_ge in Hlt. exact Hlt.
Qed.

(** A positive number that is not below a binary64 number [c * 2 ^ j]
    is not rounded below it. *)
Lemma round_positive_lower (x : Q) (c j : Z) :
  (0 < x)%Q -> 0 < c <= 2 ^ 53 -> -1074 <= j ->
  (inject_Z c * 2 ^ j <= x)%Q ->
  at_least (inject_Z c * 2 ^ j) (Float.round_positive x).
Proof.
  intros Hpos Hc Hj HK. unfold Float.round_positive.
  set (e := Z.max (Float.ilog2 x - 52) (-1074)).
  set (n := Float.nearest_even (x / 2 ^ e)).
  assert (Hval : (inject_Z c * 2 ^ j <= inject_Z n * 2 ^ e)%Q).
  { destruct (Z.le_gt_cases e j) as [Hej|Hej].
    - (* the bound is a multiple of 2 ^ e *)
      assert (H2 : (2 ^ j == inject_Z (2 ^ (j - e)) * 2 ^ e)%Q).
      { rewrite <- pow2_Z by lia. rewrite <- pow2_add.
        replace (j - e + e) with j by lia. reflexivity. }
      rewrite H2, Qmult_assoc. apply Qmult_le_compat_r; [|apply Qlt_le_weak, pow2_pos].
      rewrite <- inject_Z_mult, <- Zle_Qle.
      transitivity (Qfloor (x / 2 ^ e)); [|apply nearest_even_bounds].
      rewrite <- (Qfloor_Z (c * 2 ^ (j - e))). apply Qfloor_resp_le.
      apply Qle_shift_div_l; [apply pow2_pos|].
      rewrite inject_Z_mult, <- Qmult_assoc, <- H2. exact HK.
    - (* the bound has fewer digits than [x] *)
      assert (He : e = Float.ilog2 x - 52) by lia.
      assert (Hn : 2 ^ 52 <= n).
      { transitivity (Qfloor (x / 2 ^ e)); [|apply nearest_even_bounds].
        rewrite <- (Qfloor_Z (2 ^ 52)). apply Qfloor_resp_le.
        apply Qle_shift_div_l; [apply pow2_pos|].
        rewrite <- pow2_Z by lia. rewrite <- pow2_add.
        replace (52 + e) with (Float.ilog2 x) by lia. apply ilog2_le. exact Hpos. }
      apply Qle_trans with (inject_Z (2 ^ 53) * 2 ^ j)%Q.
      + apply Qmult_le_compat_r; [rewrite <- Zle_Qle; lia|apply Qlt_le_weak, pow2_pos].
      + apply Qle_trans with (inject_Z (2 ^ 52) * 2 ^ e)%Q.
        * rewrite <- !pow2_Z by lia. rewrite <- !pow2_add. apply pow2_le. lia.
        * apply Qmult_le_compat_r; [rewrite <- Zle_Qle; exact Hn|apply Qlt_le_weak, pow2_pos]. }
  destruct (Qle_bool _ _); [reflexivity|exact Hval].
Qed.

(** A positive number that is not above a binary64 number [c * 2 ^ j]
    is rounded to a finite number that is not above it. *)
Lemma round_positive_upper (x : Q) (c j : Z) :
  (0 < x)%Q -> 0 < c <= 2 ^ 53 -> -1074 <= j ->
  (x <= inject_Z c * 2 ^ j)%Q ->
  (inject_Z c * 2 ^ j < 2 ^ 1024)%Q ->
  exists q : Q,
    Float.round_positive x = Float.Finite q /\ (0 <= q <= inject_Z c * 2 ^ j)%Q.
Proof.
  intros Hpos Hc Hj HK Hmax. unfold Float.round_positive.
  set (e := Z.max (Float.ilog2 x - 52) (-1074)).
  set (n := Float.nearest_even (x / 2 ^ e)).
  assert (Hval : (inject_Z n * 2 ^ e <= inject_Z c * 2 ^ j)%Q).
  { destruct (Z.le_gt_cases e j) as [Hej|Hej].
    - assert (H2 : (2 ^ j == inject_Z (2 ^ (j - e)) * 2 ^ e)%Q).
      { rewrite <- pow2_Z by lia. rewrite <- pow2_add.
        replace (j - e + e) with j by lia. reflexivity. }
      rewrite H2, Qmult_assoc. apply Qmult_le_compat_r; [|apply Qlt_le_weak, pow2_pos].
      rewrite <- inject_Z_mult, <- Zle_Qle. apply nearest_even_le.
      apply Qle_shift_div_r; [apply pow2_pos|].
      rewrite inject_Z_mult, <- Qmult_assoc, <- H2. exact HK.
    - assert (He : e = Float.ilog2 x - 52) by lia.
      assert (Hx : (x <= inject_Z (2 ^ 52) * 2 ^ e)%Q).
      { apply Qle_trans with (inject_Z c * 2 ^ j)%Q; [exact HK|].
        apply Qle_trans with (inject_Z (2 ^ 53) * 2 ^ j)%Q.
        - apply Qmult_le_compat_r; [rewrite <- Zle_Qle; lia|apply Qlt_le_weak, pow2_pos].
        - rewrite <- !pow2_Z by lia. rewrite <- !pow2_add. apply pow2_le. lia. }
      assert (Hn : n <= 2 ^ 52).
      { apply nearest_even_le. apply Qle_shift_div_r; [apply pow2_pos|exact Hx]. }
      apply Qle_trans with (inject_Z (2 ^ 52) * 2 ^ e)%Q.
      + apply Qmult_le_compat_r; [rewrite <- Zle_Qle; exact Hn|apply Qlt_le_weak, pow2_pos].
      + apply Qle_trans with x; [|exact HK].
        rewrite <- pow2_Z by lia. rewrite <- pow2_add.
        replace (52 + e) with (Float.ilog2 x) by lia. apply ilog2_le. exact Hpos. }
  assert (Hnn : (0 <= inject_Z n * 2 ^ e)%Q).
  { apply Qmult_le_0_compat; [|apply Qlt_le_weak, pow2_pos].
    change 0%Q with (inject_Z 0). rewrite <- Zle_Qle. apply nearest_even_nonneg.
    apply Qle_shift_div_l; [apply pow2_pos|]. rewrite Qmult_0_l.
    apply Qlt_le_weak. exact Hpos. }
  destruct (Qle_bool (2 ^ 1024) (inject_Z n * 2 ^ e)) eqn:Hover.
  - apply Qle_bool_iff in Hover. exfalso.
    apply (Qlt_irrefl (2 ^ 1024)).
    apply Qle_lt_trans with (inject_Z c * 2 ^ j)%Q; [|exact Hmax].
    apply Qle_trans with (inject_Z n * 2 ^ e)%Q; assumption.
  - eexists. split; [reflexivity|]. split; assumption.
Qed.

Lemma round_positive_nonneg (x : Q) :
  (0 < x)%Q -> at_least 0 (Float.round_positive x).
Proof.
  intros Hpos. unfold Float.round_positive.
  set (e := Z.max (Float.ilog2 x - 52) (-1074)).
  destruct (Qle_bool _ _); [reflexivity|]. simpl.
  apply Qmult_le_0_compat; [|apply Qlt_le_weak, pow2_pos].
  change 0%Q with (inject_Z 0). rewrite <- Zle_Qle. apply nearest_even_nonneg.
  apply Qle_shift_div_l; [apply pow2_pos|]. rewrite Qmult_0_l.
  apply Qlt_le_weak. exact Hpos.
Qed.

Lemma round_not_nan (x : Q) : Float.round x <> Float.NaN.
Proof.
  unfold Float.round, Float.round_positive.
  destruct (x ?= 0)%Q; [discriminate| |];
    match goal with |- context [Qle_bool ?a ?b] => destruct (Qle_bool a b) end;
    discriminate.
Qed.

Lemma round_nonneg (x : Q) : (0 <= x)%Q -> at_least 0 (Float.round x).
Proof.
  intros Hx. unfold Float.round.
  destruct (Qcompare_spec x 0) as [Heq|Hlt|Hgt].
  - apply Qle_refl.
  - exfalso. lra.
  - apply round_positive_nonneg. exact Hgt.
Qed.

Lemma round_nonpos (x : Q) : (x <= 0)%Q -> at_most 0 (Float.round x).
Proof.
  intros Hx. unfold Float.round.
  destruct (Qcompare_spec x 0) as [Heq|Hlt|Hgt].
  - apply Qle_refl.
  - assert (Hpos : (0 < - x)%Q) by lra.
    pose proof (round_positive_nonneg (- x) Hpos) as Hr.
    destruct (Float.round_positive (- x)) as [q|negative|]; simpl in *.
    + lra.
    + rewrite Hr. reflexivity.
    + exact Hr.
  - exfalso. lra.
Qed.

Lemma round_lower (x : Q) (c j : Z) :
  0 < c <= 2 ^ 53 -> -1074 <= j ->
  (inject_Z c * 2 ^ j <= x)%Q ->
  at_least (inject_Z c * 2 ^ j) (Float.round x).
Proof.
  intros Hc Hj HK.
  assert (Hpos : (0 < inject_Z c * 2 ^ j)%Q).
  { apply Qmult_lt_0_compat; [|apply pow2_pos].
    change 0%Q with (inject_Z 0). rewrite <- Zlt_Qlt. lia. }
  unfold Float.round.
  destruct (Qcompare_spec x 0) as [Heq|Hlt|Hgt].
  - exfalso. rewrite Heq in HK. lra.
  - exfalso. lra.
  - apply round_positive_lower; assumption.
Qed.

Lemma round_bounded (x : Q) (c j : Z) :
  0 < c <= 2 ^ 53 -> -1074 <= j ->
  (inject_Z c * 2 ^ j < 2 ^ 1024)%Q ->
  (- (inject_Z c * 2 ^ j) <= x <= inject_Z c * 2 ^ j)%Q ->
  exists q : Q,
    Float.round x = Float.Finite q
    /\ (- (inject_Z c * 2 ^ j) <= q <= inject_Z c * 2 ^ j)%Q
    /\ ((0 <= x)%Q -> (0 <= q)%Q)
    /\ ((x <= 0)%Q -> (q <= 0)%Q).
Proof.
  intros Hc Hj Hmax [Hlo Hhi].
  assert (Hpos : (0 < inject_Z c * 2 ^ j)%Q).
  { apply Qmult_lt_0_compat; [|apply pow2_pos].
    change 0%Q with (inject_Z 0). rewrite <- Zlt_Qlt. lia. }
  unfold Float.round.
  destruct (Qcompare_spec x 0) as [Heq|Hlt|Hgt].
  - exists 0%Q. split; [reflexivity|]. split; [lra|]. split; intros _; lra.
  - assert (Hneg : (0 < - x)%Q) by lra.
    destruct (round_positive_upper (- x) c j Hneg Hc Hj) as (q & Hq & Hq0 & HqK);
      [lra|exact Hmax|].
    exists (- q)%Q. rewrite Hq. split; [reflexivity|]. split; [lra|].
    split; intros; lra.
  - destruct (round_positive_upper x c j Hgt Hc Hj Hhi Hmax) as (q & Hq & Hq0 & HqK).
    exists q. split; [exact Hq|]. split; [lra|]. split; intros; lra.
Qed.

Lemma at_least_proper (k k' : Q) (x : Float.t) :
  (k == k')%Q -> at_least k x -> at_least k' x.
Proof.
  intros Hk. destruct x as [q|negative|]; simpl; [|tauto|tauto].
  intros Hle. rewrite <- Hk. exact Hle.
Qed.

Lemma round_lower_pow2 (x : Q) (j : Z) :
  -1074 <= j -> (2 ^ j <= x)%Q -> at_least (2 ^ j) (Float.round x).
Proof.
  intros Hj Hx. apply (at_least_proper (inject_Z 1 * 2 ^ j)); [apply Qmult_1_l|].
  apply round_lower; [lia|exact Hj|]. rewrite Qmult_1_l. exact Hx.
Qed.

Lemma round_lower_int (x : Q) (n : Z) :
  0 < n <= 2 ^ 53 -> (inject_Z n <= x)%Q -> at_least (inject_Z n) (Float.round x).
Proof.
  intros Hn Hx. apply (at_least_proper (inject_Z n * 2 ^ 0)); [apply Qmult_1_r|].
  apply round_lower; [exact Hn|lia|]. rewrite Qmult_1_r. exact Hx.
Qed.

Lemma round_bounded_pow2 (x : Q) (j : Z) :
  -1074 <= j < 1024 ->
  (- 2 ^ j <= x <= 2 ^ j)%Q ->
  exists q : Q,
    Float.round x = Float.Finite q
    /\ (- 2 ^ j <= q <= 2 ^ j)%Q
    /\ ((0 <= x)%Q -> (0 <= q)%Q)
    /\ ((x <= 0)%Q -> (q <= 0)%Q).
Proof.
  intros Hj Hx.
  assert (HK : (inject_Z 1 * 2 ^ j == 2 ^ j)%Q) by apply Qmult_1_l.
  destruct (round_bounded x 1 j ltac:(lia) ltac:(lia)) as (q & Hq & Hb & Hnn & Hnp).
  - rewrite HK. apply Qpower_lt_compat_l; [lia|reflexivity].
  - rewrite HK. exact Hx.
  - exists q. split; [exact Hq|]. rewrite HK in Hb. split; [exact Hb|].
    split; assumption.
Qed.

(** *** The floats of the viral filter *)

Ltac unfold_outcome := unfold mbind, mret, outcome_bind, outcome_ret in *.

Lemma of_int_exact (n : Z) :
  0 < n <= 2 ^ 53 ->
  exists q : Q, Float.of_int n = Ok (Float.Finite q) /\ (q == inject_Z n)%Q.
Proof.
  intros Hn. unfold Float.of_int.
  assert (HK : (inject_Z n * 2 ^ 0 == inject_Z n)%Q) by apply Qmult_1_r.
  assert (Hnn : (0 <= inject_Z n)%Q)
    by (change 0%Q with (inject_Z 0); rewrite <- Zle_Qle; lia).
  destruct (round_bounded (inject_Z n) n 0 Hn ltac:(lia)) as (q & Hq & [_ Hhi] & _).
  - rewrite HK. apply Qlt_le_trans with (2 ^ 54)%Q.
    + rewrite pow2_Z by lia. rewrite <- Zlt_Qlt. lia.
    + apply pow2_le. lia.
  - rewrite HK. split; [lra|apply Qle_refl].
  - pose proof (round_lower_int (inject_Z n) n Hn (Qle_refl _)) as Hlo.
    rewrite Hq in Hlo. simpl in Hlo. rewrite HK in Hhi.
    exists q. rewrite Hq. split; [reflexivity|].
    apply Qle_antisym; assumption.
Qed.

Lemma sub_ok (a b td : Z) :
  Datetime.sub a b = Ok td ->
  td = a - b
  /\ - (2 ^ 47 * Datetime.us_per_second) <= td <= 2 ^ 47 * Datetime.us_per_second.
Proof.
  unfold Datetime.sub.
  destruct ((-999999999 <=? (a - b) / Datetime.us_per_day)
            && ((a - b) / Datetime.us_per_day <=? 999999999)) eqn:Hrange;
    [|discriminate].
  intros Heq. injection Heq as <-. split; [reflexivity|].
  apply andb_true_iff in Hrange as [Hlo Hhi].
  apply Z.leb_le in Hlo, Hhi.
  unfold Datetime.us_per_day, Datetime.us_per_second in *.
  change (2 ^ 47) with 140737488355328.
  pose proof (Z.div_mod (a - b) (86400 * 1000000) ltac:(lia)) as Hdiv.
  pose proof (Z.mod_pos_bound (a - b) (86400 * 1000000) ltac:(lia)) as Hmod.
  lia.
Qed.

Lemma sub_representable (a b : Z) :
  Datetime.representable a -> Datetime.representable b ->
  Datetime.sub a b = Ok (a - b).
Proof.
  unfold Datetime.representable, Datetime.sub.
  change Datetime.datetime_min with (-62135596800000000).
  change Datetime.datetime_max with 253402300799999999.
  intros Ha Hb.
  assert (Hlo : -999999999 <= (a - b) / Datetime.us_per_day).
  { apply Z.div_le_lower_bound; unfold Datetime.us_per_day, Datetime.us_per_second; lia. }
  assert (Hhi : (a - b) / Datetime.us_per_day <= 999999999).
  { apply Z.div_le_upper_bound; unfold Datetime.us_per_day, Datetime.us_per_second; lia. }
  apply Z.leb_le in Hlo, Hhi. rewrite Hlo, Hhi. reflexivity.
Qed.

(** [delta.total_seconds()] of a timedelta: a finite float of the sign of
    the delta, not below a whole number of seconds that the delta
    reaches. *)
Lemma total_seconds_facts (delta : Z) :
  - (2 ^ 47 * Datetime.us_per_second) <= delta <= 2 ^ 47 * Datetime.us_per_second ->
  exists seconds : Q,
    Datetime.total_seconds delta = Ok (Float.Finite seconds)
    /\ (- 2 ^ 47 <= seconds <= 2 ^ 47)%Q
    /\ (delta <= 0 -> (seconds <= 0)%Q)
    /\ (0 < delta -> (2 ^ (-20) <= seconds)%Q)
    /\ (forall k : Z, 0 < k <= 2 ^ 53 -> k * Datetime.us_per_second <= delta ->
        (inject_Z k <= seconds)%Q).
Proof.
  intros Hdelta. unfold Datetime.total_seconds, Float.int_truediv.
  change (Datetime.us_per_second =? 0) with false. cbv iota.
  unfold Datetime.us_per_second in *.
  set (x := (inject_Z delta / inject_Z 1000000)%Q).
  assert (Hx : (x * (1000000 # 1) == inject_Z delta)%Q).
  { subst x. change (inject_Z 1000000) with (1000000 # 1). field. }
  assert (Hd : (- inject_Z (2 ^ 47 * 1000000) <= inject_Z delta
                <= inject_Z (2 ^ 47 * 1000000))%Q).
  { rewrite <- inject_Z_opp, <- !Zle_Qle. lia. }
  rewrite inject_Z_mult, <- pow2_Z in Hd by lia.
  change (inject_Z 1000000) with (1000000 # 1) in Hd.
  destruct (round_bounded_pow2 x 47 ltac:(lia)) as (q & Hq & Hb & Hnn & Hnp).
  - split; lra.
  - rewrite Hq. exists q. split; [reflexivity|]. split; [exact Hb|]. split; [|split].
    + intros Hneg. apply Hnp.
      assert (inject_Z delta <= 0)%Q
        by (change 0%Q with (inject_Z 0); rewrite <- Zle_Qle; exact Hneg).
      lra.
    + intros Hpos.
      assert (Hone : (1 <= inject_Z delta)%Q)
        by (change 1%Q with (inject_Z 1); rewrite <- Zle_Qle; lia).
      assert (Hsmall : (2 ^ (-20) <= 1 # 1000000)%Q)
        by (apply Qle_bool_iff; vm_compute; reflexivity).
      pose proof (round_lower_pow2 x (-20) ltac:(lia)) as Hlo.
      rewrite Hq in Hlo. apply Hlo. lra.
    + intros k Hk Hle.
      assert (Hkd : (inject_Z (k * 1000000) <= inject_Z delta)%Q)
        by (rewrite <- Zle_Qle; exact Hle).
      rewrite inject_Z_mult in Hkd.
      change (inject_Z 1000000) with (1000000 # 1) in Hkd.
      pose proof (round_lower_int x k Hk) as Hlo.
      rewrite Hq in Hlo. apply Hlo. lra.
Qed.

(** The age in hours that [filter_videos] computes: a finite float of the
    sign of the age, not below a whole number of hours that the age
    reaches. *)
Lemma hours_since_published_facts (now published_at delta : Z) :
  Datetime.sub now published_at = Ok delta ->
  exists hours : Q,
    YouTubeMonitor.hours_since_published now published_at = Ok (Float.Finite hours)
    /\ (delta <= 0 -> (hours <= 0)%Q)
    /\ (0 < delta -> (2 ^ (-32) <= hours)%Q)
    /\ (forall n : Z, 0 < n -> n * Datetime.us_per_hour <= delta ->
        (inject_Z n <= hours)%Q).
Proof.
  intros Hsub. destruct (sub_ok _ _ _ Hsub) as [_ Hdelta].
  destruct (total_seconds_facts delta Hdelta)
    as (seconds & Hsec & Hsb & Hsneg & Hspos & Hsk).
  destruct (of_int_exact 3600 ltac:(lia)) as (d & Hd & Hd3600).
  unfold YouTubeMonitor.hours_since_published, Float.truediv_int. unfold_outcome.
  rewrite Hsub, Hsec, Hd. unfold Float.truediv, Float.is_zero.
  assert (Hnz : Qeq_bool d 0 = false).
  { apply not_true_iff_false. rewrite Qeq_bool_iff, Hd3600. discriminate. }
  rewrite Hnz.
  set (x := (seconds / d)%Q).
  assert (Hx : (x * (3600 # 1) == seconds)%Q).
  { subst x. rewrite Hd3600. change (inject_Z 3600) with (3600 # 1). field. }
  pose proof (pow2_pos 47) as H47.
  destruct (round_bounded_pow2 x 47 ltac:(lia)) as (q & Hq & _ & Hnn & Hnp).
  - split; lra.
  - exists q. rewrite Hq. split; [reflexivity|]. split; [|split].
    + intros Hneg. apply Hnp. specialize (Hsneg Hneg). lra.
    + intros Hpos. specialize (Hspos Hpos).
      assert (Hsmall : (2 ^ (-32) * (3600 # 1) <= 2 ^ (-20))%Q)
        by (apply Qle_bool_iff; vm_compute; reflexivity).
      pose proof (round_lower_pow2 x (-32) ltac:(lia)) as Hlo.
      rewrite Hq in Hlo. apply Hlo. lra.
    + intros n Hn Hle.
      assert (Hn47 : n * 3600 <= 2 ^ 47).
      { unfold Datetime.us_per_hour, Datetime.us_per_second in *.
        change (2 ^ 47) with 140737488355328 in *. lia. }
      assert (Hsn : (inject_Z (n * 3600) <= seconds)%Q).
      { apply Hsk.
        - change (2 ^ 47) with 140737488355328 in *.
          change (2 ^ 53) with 9007199254740992. lia.
        - unfold Datetime.us_per_hour in Hle. lia. }
      rewrite inject_Z_mult in Hsn. change (inject_Z 3600) with (3600 # 1) in Hsn.
      pose proof (round_lower_int x n) as Hlo.
      rewrite Hq in Hlo. apply Hlo; [|lra].
      change (2 ^ 47) with 140737488355328 in *.
      change (2 ^ 53) with 9007199254740992. lia.
Qed.

(** The views per hour of a positive age: a finite float of the sign of
    the view count. *)
Lemma views_per_hour_facts (view_count : Z) (hours : Q) :
  0 <= view_count < 2 ^ 64 ->
  (2 ^ (-32) <= hours)%Q ->
  exists vph : Q,
    YouTubeMonitor.views_per_hour view_count (Float.Finite hours)
    = Ok (Float.Finite vph)
    /\ (0 <= vph)%Q.
Proof.
  intros Hviews Hhours.
  pose proof (pow2_pos (-32)) as H32.
  assert (Hpos : (0 < hours)%Q) by lra.
  unfold YouTubeMonitor.views_per_hour, Float.gt_int.
  change (inject_Z 0) with 0%Q. rewrite (proj2 (Qltb_lt 0 hours) Hpos).
  unfold Float.rtruediv_int, Float.of_int. unfold_outcome.
  assert (Hv : (0 <= inject_Z view_count <= 2 ^ 64)%Q).
  { rewrite pow2_Z by lia. change 0%Q with (inject_Z 0). rewrite <- !Zle_Qle. lia. }
  pose proof (pow2_pos 64) as H64.
  destruct (round_bounded_pow2 (inject_Z view_count) 64 ltac:(lia))
    as (n & Hn & [_ Hnhi] & Hnn & _).
  - split; lra.
  - rewrite Hn. unfold Float.truediv, Float.is_zero.
    assert (Hnz : Qeq_bool hours 0 = false).
    { apply not_true_iff_false. rewrite Qeq_bool_iff. intros Hz. rewrite Hz in Hpos.
      discriminate Hpos. }
    rewrite Hnz. specialize (Hnn (proj1 Hv)).
    assert (Hquot : (0 <= n / hours <= 2 ^ 96)%Q).
    { split.
      - apply Qle_shift_div_l; [exact Hpos|]. lra.
      - apply Qle_shift_div_r; [exact Hpos|].
        apply Qle_trans with (2 ^ 64)%Q; [exact Hnhi|].
        apply Qle_trans with (2 ^ 96 * 2 ^ (-32))%Q.
        + rewrite <- pow2_add. apply pow2_le. lia.
        + apply Qmult_le_l; [apply pow2_pos|exact Hhours]. }
    pose proof (pow2_pos 96) as H96.
    destruct (round_bounded_pow2 (n / hours) 96 ltac:(lia))
      as (vph & Hvph & _ & Hvnn & _).
    + split; [|apply Hquot]. destruct Hquot as [H0 _]. lra.
    + exists vph. rewrite Hvph. split; [reflexivity|]. apply Hvnn, Hquot.
Qed.

Section ViralFilter.

Variable isodate_total_seconds : string -> outcome Q.
Variable isodate_parse_datetime : string -> outcome Z.

Lemma hours_since_published_finite (now published : Z) (hours : Float.t) :
  YouTubeMonitor.hours_since_published now published = Ok hours ->
  exists q : Q, hours = Float.Finite q.
Proof.
  destruct (Datetime.sub now published) as [delta|e] eqn:Hsub.
  - destruct (hours_since_published_facts now published delta Hsub) as (q & Hq & _).
    rewrite Hq. intros Heq. injection Heq as <-. exists q. reflexivity.
  - unfold YouTubeMonitor.hours_since_published. unfold_outcome. rewrite Hsub.
    discriminate.
Qed.

Lemma is_short_spec (v : YouTubeMonitor.video) (max_duration : Z) :
  YouTubeMonitor.is_short isodate_total_seconds v max_duration = true
  <-> (0 < YouTubeMonitor.parse_duration isodate_total_seconds (YouTubeMonitor.duration v)
       <= inject_Z max_duration)%Q.
Proof.
  unfold YouTubeMonitor.is_short. rewrite andb_true_iff, Qltb_lt, Qle_bool_iff.
  reflexivity.
Qed.

Lemma acceptedb_spec (now max_age_hours min_vph : Z) (v : YouTubeMonitor.video) :
  acceptedb isodate_total_seconds isodate_parse_datetime now max_age_hours min_vph v = true
  <-> accepted isodate_total_seconds isodate_parse_datetime now max_age_hours min_vph v.
Proof.
  unfold acceptedb, accepted. cbv zeta.
  rewrite !andb_true_iff, negb_true_iff, bool_decide_eq_false, is_short_spec.
  split.
  - intros [[Hcat [Hpos Hmax]] Hrest].
    split; [exact Hcat|]. split; [exact Hpos|]. split; [exact Hmax|].
    destruct (isodate_parse_datetime (YouTubeMonitor.publishedAt v)) as [published|e];
      [|discriminate Hrest].
    destruct (YouTubeMonitor.hours_since_published now published) as [hours|e] eqn:Hhours;
      [|discriminate Hrest].
    destruct (hours_since_published_finite _ _ _ Hhours) as [qh ->].
    apply andb_true_iff in Hrest as [Hwin Hrest].
    apply negb_true_iff, orb_false_iff in Hwin as [Hold Hfuture].
    simpl in Hold, Hfuture. apply Qle_bool_gt in Hold, Hfuture.
    destruct (YouTubeMonitor.views_per_hour (default 0 (YouTubeMonitor.viewCount v))
                (Float.Finite qh)) as [vph|e] eqn:Hvph; [|discriminate Hrest].
    apply andb_true_iff in Hrest as [Hlow Hint].
    destruct vph as [r|negative|]; [|discriminate Hint|discriminate Hint].
    apply negb_true_iff in Hlow. simpl in Hlow. apply Qltb_ge in Hlow.
    exists published, qh, r. split; [reflexivity|]. split; [exact Hhours|].
    split; [exact Hfuture|]. split; [exact Hold|]. split; [exact Hvph|exact Hlow].
  - intros (Hcat & Hpos & Hmax & published & qh & r & Hparse & Hhours & Hfuture
            & Hold & Hvph & Hlow).
    split; [split; [exact Hcat|split; assumption]|].
    rewrite Hparse, Hhours, Hvph.
    cbn [Float.ge_int Float.le_int Float.lt_int Float.to_int].
    change (inject_Z 0) with 0%Q.
    apply Qle_bool_gt in Hold, Hfuture. apply Qltb_ge in Hlow.
    rewrite Hold, Hfuture, Hlow. reflexivity.
Qed.

(** Whenever the loop returns, it returns the records of the items that
    pass the four tests, in their order. *)
Lemma filter_loop_returns (now max_age_hours min_vph : Z)
    (videos : list YouTubeMonitor.video) (records : list YouTubeMonitor.video_data) :
  YouTubeMonitor.filter_loop isodate_total_seconds isodate_parse_datetime
    now max_age_hours min_vph videos = Ok records ->
  records
  = map (video_data_of isodate_total_seconds isodate_parse_datetime now)
      (List.filter
         (acceptedb isodate_total_seconds isodate_parse_datetime
            now max_age_hours min_vph) videos).
Proof.
  revert records. induction videos as [|v videos IH]; intros records Hloop.
  - injection Hloop as <-. reflexivity.
  - cbn [YouTubeMonitor.filter_loop] in Hloop. cbn [List.filter].
    unfold acceptedb at 1.
    destruct (bool_decide (YouTubeMonitor.categoryId v = Some "10"));
      cbn [negb andb]; [apply IH; exact Hloop|].
    destruct (YouTubeMonitor.is_short isodate_total_seconds v 60);
      cbn [negb andb] in *; [|apply IH; exact Hloop].
    unfold mbind, outcome_bind in Hloop.
    destruct (isodate_parse_datetime (YouTubeMonitor.publishedAt v))
      as [published|e] eqn:Hparse; [|discriminate Hloop].
    destruct (YouTubeMonitor.hours_since_published now published)
      as [hours|e] eqn:Hhours; [|discriminate Hloop].
    destruct (Float.ge_int hours max_age_hours || Float.le_int hours 0);
      cbn [negb andb]; [apply IH; exact Hloop|].
    destruct (YouTubeMonitor.views_per_hour (default 0 (YouTubeMonitor.viewCount v)) hours)
      as [vph|e] eqn:Hvph; [|discriminate Hloop].
    destruct (Float.lt_int vph min_vph); cbn [negb andb]; [apply IH; exact Hloop|].
    destruct (Float.to_int vph) as [vph_int|e] eqn:Hint; [|discriminate Hloop].
    destruct (YouTubeMonitor.filter_loop isodate_total_seconds isodate_parse_datetime
                now max_age_hours min_vph videos) as [filtered|e]; [|discriminate Hloop].
    injection Hloop as <-. cbn [map]. f_equal; [|apply IH; reflexivity].
    unfold video_data_of, mbind, outcome_bind. rewrite Hparse, Hhours, Hvph, Hint.
    reflexivity.
Qed.

(** The loop returns when the items that it examines are readable. *)
Lemma filter_loop_total (now max_age_hours min_vph : Z)
    (videos : list YouTubeMonitor.video) :
  Datetime.representable now ->
  (forall v : YouTubeMonitor.video,
     v ∈ videos -> examined isodate_total_seconds v ->
     readable isodate_parse_datetime v) ->
  exists records : list YouTubeMonitor.video_data,
    YouTubeMonitor.filter_loop isodate_total_seconds isodate_parse_datetime
      now max_age_hours min_vph videos = Ok records.
Proof.
  intros Hnow. induction videos as [|v videos IH]; intros Hread.
  - exists []. reflexivity.
  - destruct IH as [filtered Hrest].
    { intros x Hx. apply Hread. right. exact Hx. }
    cbn [YouTubeMonitor.filter_loop].
    destruct (bool_decide (YouTubeMonitor.categoryId v = Some "10")) eqn:Hcat;
      [exists filtered; exact Hrest|].
    destruct (YouTubeMonitor.is_short isodate_total_seconds v 60) eqn:Hshort;
      cbn [negb]; [|exists filtered; exact Hrest].
    destruct (Hread v) as [(published & Hparse & Hpub) Hviews]; [left| |].
    { split; [apply bool_decide_eq_false in Hcat; exact Hcat|exact Hshort]. }
    pose proof (sub_representable now published Hnow Hpub) as Hsub.
    destruct (hours_since_published_facts now published _ Hsub)
      as (hours & Hhours & Hneg & Hpos & _).
    unfold mbind, outcome_bind. rewrite Hparse, Hhours.
    destruct (Float.ge_int (Float.Finite hours) max_age_hours
              || Float.le_int (Float.Finite hours) 0) eqn:Hwin;
      [exists filtered; exact Hrest|].
    apply orb_false_iff in Hwin as [_ Hfuture]. simpl in Hfuture.
    apply Qle_bool_gt in Hfuture.
    assert (Hage : 0 < now - published).
    { destruct (Z.lt_ge_cases 0 (now - published)) as [H|H]; [exact H|].
      specialize (Hneg ltac:(lia)). exfalso. change (inject_Z 0) with 0%Q in Hfuture.
      lra. }
    destruct (views_per_hour_facts (default 0 (YouTubeMonitor.viewCount v)) hours
                Hviews (Hpos Hage)) as (vph & Hvph & _).
    rewrite Hvph.
    destruct (Float.lt_int (Float.Finite vph) min_vph); [exists filtered; exact Hrest|].
    cbn [Float.to_int]. rewrite Hrest. eexists. reflexivity.
Qed.


End ViralFilter.



(** The floats of the filter are those of the code.  An item with 20003
    views, published 7201.08 seconds before the call, has 10000 views per
    hour as a fraction; the two divisions of the code round, to 2.0003
    hours and then to 9999.999999999998 views per hour, and with a floor
    of 10000 the item is dropped. *)
Example filter_videos_rounds_views_per_hour :
  (inject_Z 20003 / ((7201080000 # 1000000) / inject_Z 3600) == inject_Z 10000)%Q
  /\ (exists hours vph : Q,
        YouTubeMonitor.hours_since_published noon (noon - 7201080000)
        = Ok (Float.Finite hours)
        /\ (hours == 2252137583657301 # 1125899906842624)%Q
        /\ YouTubeMonitor.views_per_hour 20003 (Float.Finite hours)
           = Ok (Float.Finite vph)
        /\ (vph == 5497558138879999 # 549755813888)%Q
        /\ (vph < inject_Z 10000)%Q)
  /\ YouTubeMonitor.filter_videos Isodate.total_seconds Isodate.parse_datetime
       [video_rounded] 48 10000 (empty_world (stepping_clock noon 1000000))
     = (Ok [], set_ticks 1 (empty_world (stepping_clock noon 1000000)))
  /\ YouTubeMonitor.filter_videos Isodate.total_seconds Isodate.parse_datetime
       [video_rounded] 48 9999 (empty_world (stepping_clock noon 1000000))
     = (Ok [YouTubeMonitor.mk_video_data "vround" "title vround" "channel" 20003 10 9999
              (noon - 7201080000) 45 "https://www.youtube.com/shorts/vround"],
        set_ticks 1 (empty_world (stepping_clock noon 1000000))).
Proof.
  split; [vm_compute; reflexivity|]. split.
  - eexists _, _. split; [vm_compute; reflexivity|].
    split; [vm_compute; reflexivity|]. split; [vm_compute; reflexivity|].
    split; vm_compute; reflexivity.
  - split; vm_compute; reflexivity.
Qed.

(** The rounding of [Float] is that of the Standard Library's
    specification of binary64 division, on quotients of every kind:
    exact, rounded down and up, ties, subnormal, and beyond the largest
    float. *)
Definition spec_float_value (x : SpecFloat.spec_float) : option Q :=
  match x with
  | SpecFloat.S754_zero _ => Some 0%Q
  | SpecFloat.S754_finite s m e =>
      Some ((if s then -1 else 1) * inject_Z (Zpos m) * 2 ^ e)%Q
  | _ => None
  end.

Definition same_quotient (a b : positive) : bool :=
  match spec_float_value
          (SpecFloat.SFdiv 53 1024 (SpecFloat.S754_finite false a 0)
             (SpecFloat.S754_finite false b 0)),
        Float.round (Zpos a # b) with
  | Some x, Float.Finite y => Qeq_bool x y
  | None, Float.Infinity false => true
  | _, _ => false
  end.

Example round_agrees_with_SFdiv :
  forallb (fun p => same_quotient p.1 p.2)
    [(7201080000, 1000000); (1, 3); (2, 3); (10, 3); (1, 1000000); (1, 10);
     (123456789123456789123456789, 7); (999999999999999999, 1000000);
     (2 ^ 53 + 1, 1); (2 ^ 53 + 3, 1); (2 ^ 54 + 2, 1); (2 ^ 54 + 6, 1);
     (1, 2 ^ 1074); (1, 2 ^ 1075); (3, 2 ^ 1075); (5, 2 ^ 1076);
     (1, 2 ^ 1022 * 3); (7, 2 ^ 1030);
     (2 ^ 1024, 1); (2 ^ 1024 - 2 ^ 970, 1); (2 ^ 1024 - 2 ^ 970 - 1, 1)]%positive
  = true.
Proof. vm_compute. reflexivity. Qed.


(** * Further properties of the scheduler *)

(** ** update_entry_status *)

Lemma update_loop_absent (entry_id status : string) (msg : option string)
    (queue : list Entry.t) (w : world) :
  (forall e : Entry.t, e ∈ queue -> Entry.id e <> entry_id) ->
  Scheduler.update_loop entry_id status msg queue w = (Ok queue, w).
Proof.
  induction queue as [|x queue IH]; intros Hno; simpl; [reflexivity|].
  destruct (String.eqb_spec (Entry.id x) entry_id) as [Heq|Hne].
  - exfalso. apply (Hno x); [left|exact Heq].
  - unfold_M. rewrite IH; [reflexivity|]. intros e He. apply Hno. right. exact He.
Qed.

(** The loop on a queue whose first job with the id is [e]; the clock is
    read for the statuses uploading, completed and failed. *)
Lemma update_loop_first (entry_id status : string) (msg : option string)
    (pre post : list Entry.t) (e : Entry.t) (w : world) :
  Entry.id e = entry_id ->
  (forall x : Entry.t, x ∈ pre -> Entry.id x <> entry_id) ->
  Scheduler.update_loop entry_id status msg (pre ++ e :: post)%list w
  = (Ok (pre ++ entry_after (clock w (ticks w)) status msg e :: post)%list,
     if String.eqb status "uploading" || bool_decide (status ∈ ["completed"; "failed"])
     then set_ticks (S (ticks w)) w else w).
Proof.
  intros Hid Hpre. induction pre as [|x pre IH]; simpl.
  - rewrite (proj2 (String.eqb_eq _ _) Hid). unfold_M. unfold entry_after.
    destruct (String.eqb status "uploading") eqn:Hup; simpl.
    + apply String.eqb_eq in Hup. subst status. simpl.
      destruct (truthy msg); reflexivity.
    + destruct (bool_decide (status ∈ ["completed"; "failed"])); simpl;
        destruct (truthy msg); reflexivity.
  - destruct (String.eqb_spec (Entry.id x) entry_id) as [Heq|Hne].
    + exfalso. apply (Hpre x); [left|exact Heq].
    + unfold_M. rewrite IH by (intros y Hy; apply Hpre; right; exact Hy).
      reflexivity.
Qed.

(** X1.  [update_entry_status] for an id that no job of the queue has raises
    nothing, reads no clock, and writes the queue back as it was: the
    status, the error message and the attempt counters of every job are
    untouched. *)
Theorem update_entry_status_unknown_id_keeps_queue (w : world)
    (entry_id status : string) (error_message : option string) :
  (forall e : Entry.t, e ∈ queue_of w -> Entry.id e <> entry_id) ->
  Scheduler.update_entry_status entry_id status error_message w
  = (Ok tt, set_queue_file (Some (queue_of w)) w).
Proof.
  intros Hno. unfold Scheduler.update_entry_status, Scheduler._load_queue,
    Scheduler._save_queue. unfold_M. fold (queue_of w).
  rewrite (update_loop_absent _ _ _ _ _ Hno). reflexivity.
Qed.

Lemma update_entry_status_unknown_id_witness :
  Scheduler.update_entry_status "youtube_19990101000000" "failed" (Some "quota")
    queue_world
  = (Ok tt, set_queue_file (Some (queue_of queue_world)) queue_world).
Proof.
  apply (update_entry_status_unknown_id_keeps_queue queue_world).
  intros e He.
  repeat (apply elem_of_cons in He as [->|He]; [discriminate|]).
  inversion He.
Defined.

(** X2.  [update_entry_status] changes the first job that has the id, and no
    other: the jobs before it and all jobs after it (also later jobs with
    the same id) stay as they are.  The changed job gets the new status;
    a non-empty error message is stored as last_error and adds one to
    attempts, whatever the status; status uploading sets started_at, and
    completed or failed set completed_at, to the time of the call. *)
Theorem update_entry_status_changes_first_match_only (w : world)
    (entry_id status : string) (error_message : option string)
    (pre post : list Entry.t) (e : Entry.t) :
  queue_of w = (pre ++ e :: post)%list ->
  Entry.id e = entry_id ->
  (forall x : Entry.t, x ∈ pre -> Entry.id x <> entry_id) ->
  exists w' : world,
    Scheduler.update_entry_status entry_id status error_message w = (Ok tt, w')
    /\ queue_of w'
       = (pre ++ entry_after (clock w (ticks w)) status error_message e :: post)%list
    /\ ticks w' = (if String.eqb status "uploading"
                      || bool_decide (status ∈ ["completed"; "failed"])
                   then S (ticks w) else ticks w).
Proof.
  intros Hq Hid Hpre. unfold Scheduler.update_entry_status, Scheduler._load_queue,
    Scheduler._save_queue. unfold_M. fold (queue_of w). rewrite Hq.
  rewrite (update_loop_first _ _ _ _ _ _ _ Hid Hpre).
  eexists. split; [reflexivity|]. split; [reflexivity|].
  destruct (String.eqb status "uploading"
            || bool_decide (status ∈ ["completed"; "failed"])); reflexivity.
Qed.

Lemma update_entry_status_first_match_witness :
  exists w' : world,
    Scheduler.update_entry_status "youtube_20240101120002" "failed" (Some "quota")
      duplicate_id_world = (Ok tt, w')
    /\ queue_of w'
       = [entry_a;
          Entry.mk "youtube_20240101120002" "b.mp4" "{}" "youtube"
            (Some "2024-01-01T11:00:00") 7 "failed" "2024-01-01T12:00:03" 1
            (Some "quota") None (Some "2024-01-01T12:00:08");
          entry_p; entry_d]
    /\ ticks w' = 9%nat.
Proof.
  destruct (update_entry_status_changes_first_match_only duplicate_id_world
              "youtube_20240101120002" "failed" (Some "quota")
              [entry_a] [entry_p; entry_d] entry_b eq_refl eq_refl)
    as (w' & Hrun & Hq & Hticks).
  - intros x Hx. apply list_elem_of_singleton in Hx as ->. discriminate.
  - exists w'. split; [exact Hrun|]. split; [rewrite Hq; vm_compute; reflexivity|].
    exact Hticks.
Defined.

(** ** get_queue_statistics *)

Lemma count_status_cons (s : string) (e : Entry.t) (queue : list Entry.t) :
  count_status s (e :: queue)
  = (if decide (Entry.status e = s) then 1 else 0) + count_status s queue.
Proof.
  unfold count_status. rewrite filter_cons.
  destruct (decide (Entry.status e = s)); simpl length; lia.
Qed.

Lemma count_platform_status_cons (p s : string) (e : Entry.t)
    (queue : list Entry.t) :
  count_platform_status p s (e :: queue)
  = (if decide (Entry.platform e = p /\ Entry.status e = s) then 1 else 0)
    + count_platform_status p s queue.
Proof.
  unfold count_platform_status. rewrite filter_cons.
  destruct (decide (Entry.platform e = p /\ Entry.status e = s));
    simpl length; lia.
Qed.

Lemma zero_counts_lookup (s : string) :
  default 0 (Scheduler.zero_counts !! s) = 0.
Proof.
  unfold Scheduler.zero_counts.
  destruct (decide (s = "queued")) as [->|H1]; [reflexivity|].
  destruct (decide (s = "uploading")) as [->|H2]; [reflexivity|].
  destruct (decide (s = "completed")) as [->|H3]; [reflexivity|].
  destruct (decide (s = "failed")) as [->|H4]; [reflexivity|].
  rewrite !lookup_insert_ne by congruence.
  rewrite lookup_singleton_ne by congruence. reflexivity.
Qed.

(** One turn of the loop adds one to the counter of the job's status and
    one to the counter of its platform and status, and changes no other
    counter. *)
Lemma stats_step_counts (stats : Scheduler.statistics) (e : Entry.t) :
  Entry.status e <> "by_platform" ->
  exists stats' : Scheduler.statistics,
    Scheduler.stats_step (Ok stats) e = Ok stats'
    /\ (forall s : string,
          counter stats' s
          = counter stats s + (if decide (Entry.status e = s) then 1 else 0))
    /\ (forall p s : string,
          platform_counter stats' p s
          = platform_counter stats p s
            + (if decide (Entry.platform e = p /\ Entry.status e = s) then 1 else 0)).
Proof.
  intros Hst. unfold Scheduler.stats_step.
  destruct (String.eqb_spec (Entry.status e) "by_platform") as [Heq|_];
    [contradiction|].
  eexists. split; [reflexivity|]. split.
  - intros s. unfold counter. simpl.
    destruct (decide (Entry.status e = s)) as [<-|Hne].
    + rewrite lookup_insert_eq. reflexivity.
    + rewrite lookup_insert_ne by exact Hne. lia.
  - intros p s. unfold platform_counter. simpl.
    destruct (decide (Entry.platform e = p)) as [<-|Hp].
    + rewrite lookup_insert_eq. simpl.
      assert (Hold : forall s0 : string,
                default 0
                  (default ∅
                     (match Scheduler.by_platform stats !! Entry.platform e with
                      | Some _ => Scheduler.by_platform stats
                      | None => <[Entry.platform e := Scheduler.zero_counts]>
                                  (Scheduler.by_platform stats)
                      end !! Entry.platform e) !! s0)
                = default 0 (Scheduler.by_platform stats !! Entry.platform e
                             ≫= (.!! s0))).
      { intros s0.
        destruct (Scheduler.by_platform stats !! Entry.platform e) as [m|] eqn:Hm.
        - rewrite Hm. reflexivity.
        - rewrite lookup_insert_eq. simpl. apply zero_counts_lookup. }
      destruct (decide (Entry.status e = s)) as [<-|Hs].
      * rewrite lookup_insert_eq. simpl. rewrite Hold.
        destruct (decide (Entry.platform e = Entry.platform e
                          /\ Entry.status e = Entry.status e)) as [_|Hno];
          [reflexivity|].
        exfalso. apply Hno. split; reflexivity.
      * rewrite lookup_insert_ne by exact Hs. rewrite Hold.
        destruct (decide (Entry.platform e = Entry.platform e /\ Entry.status e = s))
          as [[_ Heq]|_]; [contradiction|]. lia.
    + rewrite lookup_insert_ne by exact Hp.
      destruct (decide (Entry.platform e = p /\ Entry.status e = s))
        as [[Heq _]|_]; [contradiction|].
      destruct (Scheduler.by_platform stats !! Entry.platform e);
        [|rewrite lookup_insert_ne by exact Hp]; lia.
Qed.

Lemma stats_fold_counts (queue : list Entry.t) (stats : Scheduler.statistics) :
  (forall e : Entry.t, e ∈ queue -> Entry.status e <> "by_platform") ->
  exists stats' : Scheduler.statistics,
    fold_left Scheduler.stats_step queue (Ok stats) = Ok stats'
    /\ (forall s : string, counter stats' s = counter stats s + count_status s queue)
    /\ (forall p s : string,
          platform_counter stats' p s
          = platform_counter stats p s + count_platform_status p s queue).
Proof.
  revert stats. induction queue as [|e queue IH]; intros stats Hst.
  - exists stats. split; [reflexivity|].
    split; intros; unfold count_status, count_platform_status; simpl; lia.
  - destruct (stats_step_counts stats e) as (stats1 & Hstep & Hc1 & Hp1);
      [apply Hst; left|].
    destruct (IH stats1) as (stats' & Hfold & Hc & Hp);
      [intros x Hx; apply Hst; right; exact Hx|].
    exists stats'. cbn [fold_left]. rewrite Hstep. split; [exact Hfold|].
    split.
    + intros s. rewrite Hc, Hc1, count_status_cons. lia.
    + intros p s. rewrite Hp, Hp1, count_platform_status_cons. lia.
Qed.

(** X3.  The statistics of a queue in which no job has the status
    by_platform: the call returns, changes nothing, and counts every job
    once under its status and once under its platform and status.  The
    entry total is the length of the queue, plus the number of jobs whose
    status is the string total, since these are counted in the same
    entry. *)
Theorem get_queue_statistics_counts_every_job (w : world) :
  (forall e : Entry.t, e ∈ queue_of w -> Entry.status e <> "by_platform") ->
  exists stats : Scheduler.statistics,
    Scheduler.get_queue_statistics w = (Ok stats, w)
    /\ (forall s : string,
          s <> "total" -> counter stats s = count_status s (queue_of w))
    /\ counter stats "total"
       = Z.of_nat (length (queue_of w)) + count_status "total" (queue_of w)
    /\ (forall p s : string,
          platform_counter stats p s = count_platform_status p s (queue_of w)).
Proof.
  intros Hst.
  unfold Scheduler.get_queue_statistics, Scheduler._load_queue. unfold_M.
  fold (queue_of w).
  destruct (stats_fold_counts (queue_of w)
              (Scheduler.mk_statistics
                 (<["total" := Z.of_nat (length (queue_of w))]> Scheduler.zero_counts) ∅)
              Hst) as (stats & Hfold & Hc & Hp).
  exists stats. rewrite Hfold. split; [reflexivity|]. split; [|split].
  - intros s Hs. rewrite Hc. unfold counter at 1. simpl.
    rewrite lookup_insert_ne by congruence. rewrite zero_counts_lookup. lia.
  - rewrite Hc. unfold counter at 1. simpl. rewrite lookup_insert_eq. reflexivity.
  - intros p s. rewrite Hp. unfold platform_counter at 1. simpl.
    rewrite lookup_empty. simpl. lia.
Qed.

Lemma get_queue_statistics_counts_witness :
  exists stats : Scheduler.statistics,
    Scheduler.get_queue_statistics queue_world = (Ok stats, queue_world)
    /\ counter stats "queued" = 4
    /\ counter stats "completed" = 1
    /\ counter stats "failed" = 0
    /\ counter stats "total" = 5
    /\ platform_counter stats "youtube" "queued" = 3
    /\ platform_counter stats "tiktok" "queued" = 1
    /\ platform_counter stats "youtube" "completed" = 1.
Proof.
  destruct (get_queue_statistics_counts_every_job queue_world)
    as (stats & Hrun & Hc & Htotal & Hp).
  - intros e He.
    repeat (apply elem_of_cons in He as [->|He]; [discriminate|]).
    inversion He.
  - exists stats. split; [exact Hrun|].
    rewrite !Hc by discriminate. rewrite Htotal, !Hp.
    vm_compute. repeat split; reflexivity.
Defined.

Lemma count_status_absent (s : string) (queue : list Entry.t) :
  (forall e : Entry.t, e ∈ queue -> Entry.status e <> s) ->
  count_status s queue = 0.
Proof.
  induction queue as [|e queue IH]; intros Hno; [reflexivity|].
  rewrite count_status_cons, IH by (intros x Hx; apply Hno; right; exact Hx).
  destruct (decide (Entry.status e = s)) as [Heq|_]; [|reflexivity].
  exfalso. apply (Hno e); [left|exact Heq].
Qed.

Lemma length_by_status (queue : list Entry.t) :
  (forall e : Entry.t, e ∈ queue ->
     Entry.status e ∈ ["queued"; "uploading"; "completed"; "failed"]) ->
  Z.of_nat (length queue)
  = count_status "queued" queue + count_status "uploading" queue
    + count_status "completed" queue + count_status "failed" queue.
Proof.
  induction queue as [|e queue IH]; intros Hst; [reflexivity|].
  rewrite !count_status_cons.
  assert (Hrest : Z.of_nat (length queue)
                  = count_status "queued" queue + count_status "uploading" queue
                    + count_status "completed" queue + count_status "failed" queue)
    by (apply IH; intros x Hx; apply Hst; right; exact Hx).
  assert (He : Entry.status e ∈ ["queued"; "uploading"; "completed"; "failed"])
    by (apply Hst; left).
  change (length (e :: queue)) with (S (length queue)).
  repeat (apply elem_of_cons in He as [He|He];
          [rewrite He; simpl; lia|]).
  inversion He.
Qed.

(** X4.  When every job has one of the four statuses that the scheduler
    writes, the four status counters add up to total, which is the length
    of the queue. *)
Theorem get_queue_statistics_statuses_add_up (w : world) :
  (forall e : Entry.t, e ∈ queue_of w ->
     Entry.status e ∈ ["queued"; "uploading"; "completed"; "failed"]) ->
  exists stats : Scheduler.statistics,
    Scheduler.get_queue_statistics w = (Ok stats, w)
    /\ counter stats "total" = Z.of_nat (length (queue_of w))
    /\ counter stats "queued" + counter stats "uploading"
       + counter stats "completed" + counter stats "failed"
       = counter stats "total".
Proof.
  intros Hst.
  assert (Hno : forall e : Entry.t, e ∈ queue_of w -> Entry.status e <> "by_platform").
  { intros e He Hbad. specialize (Hst e He). rewrite Hbad in Hst.
    repeat (apply elem_of_cons in Hst as [Hst|Hst]; [discriminate|]).
    inversion Hst. }
  assert (Htot : count_status "total" (queue_of w) = 0).
  { apply count_status_absent. intros e He Hbad. specialize (Hst e He).
    rewrite Hbad in Hst.
    repeat (apply elem_of_cons in Hst as [Hst|Hst]; [discriminate|]).
    inversion Hst. }
  unfold Scheduler.get_queue_statistics, Scheduler._load_queue. unfold_M.
  fold (queue_of w).
  destruct (stats_fold_counts (queue_of w)
              (Scheduler.mk_statistics
                 (<["total" := Z.of_nat (length (queue_of w))]> Scheduler.zero_counts) ∅)
              Hno) as (stats & Hfold & Hc & _).
  exists stats. rewrite Hfold. split; [reflexivity|].
  assert (Hinit : forall s : string, s <> "total" ->
            counter stats s = count_status s (queue_of w)).
  { intros s Hs. rewrite Hc. unfold counter at 1. simpl.
    rewrite lookup_insert_ne by congruence. rewrite zero_counts_lookup. lia. }
  assert (Htotal : counter stats "total" = Z.of_nat (length (queue_of w))).
  { rewrite Hc, Htot. unfold counter. simpl. rewrite lookup_insert_eq. simpl. lia. }
  split; [exact Htotal|].
  rewrite Htotal, !Hinit by discriminate. symmetry. apply length_by_status, Hst.
Qed.

Lemma get_queue_statistics_statuses_add_up_witness :
  exists stats : Scheduler.statistics,
    Scheduler.get_queue_statistics cleanup_world = (Ok stats, cleanup_world)
    /\ counter stats "total" = 5
    /\ counter stats "queued" + counter stats "uploading"
       + counter stats "completed" + counter stats "failed"
       = counter stats "total".
Proof.
  destruct (get_queue_statistics_statuses_add_up cleanup_world)
    as (stats & Hrun & Htotal & Hsum).
  - intros e He.
    repeat (apply elem_of_cons in He as [->|He];
            [vm_compute; repeat (first [left; reflexivity | right])|]).
    inversion He.
  - exists stats. split; [exact Hrun|]. split; [exact Htotal|exact Hsum].
Defined.

Lemma stats_fold_raise (queue : list Entry.t) (x : exn) :
  fold_left Scheduler.stats_step queue (Raise x) = Raise x.
Proof. induction queue as [|e queue IH]; [reflexivity|exact IH]. Qed.

Lemma stats_fold_by_platform (queue : list Entry.t) (stats : Scheduler.statistics) :
  (exists e : Entry.t, e ∈ queue /\ Entry.status e = "by_platform") ->
  fold_left Scheduler.stats_step queue (Ok stats) = Raise TypeError.
Proof.
  revert stats. induction queue as [|x queue IH]; intros stats (e & He & Hst).
  - inversion He.
  - cbn [fold_left].
    destruct (String.eqb_spec (Entry.status x) "by_platform") as [Hx|Hx].
    + unfold Scheduler.stats_step. rewrite (proj2 (String.eqb_eq _ _) Hx).
      apply stats_fold_raise.
    + destruct (stats_step_counts stats x Hx) as (stats1 & Hstep & _).
      rewrite Hstep. apply IH. exists e. split; [|exact Hst].
      apply elem_of_cons in He as [->|He]; [contradiction|exact He].
Qed.

(** X5.  The status of a job is a free string, and the status counters share
    their dict with the entry by_platform: as soon as one job of the
    queue has the status by_platform, [get_queue_statistics] raises
    [TypeError] and returns no statistics. *)
Theorem get_queue_statistics_raises_on_status_by_platform (w : world) (e : Entry.t) :
  e ∈ queue_of w ->
  Entry.status e = "by_platform" ->
  Scheduler.get_queue_statistics w = (Raise TypeError, w).
Proof.
  intros He Hst.
  unfold Scheduler.get_queue_statistics, Scheduler._load_queue. unfold_M.
  fold (queue_of w). rewrite stats_fold_by_platform; [reflexivity|].
  exists e. split; assumption.
Qed.

Lemma get_queue_statistics_by_platform_witness :
  (exists w : world,
     Scheduler.update_entry_status "youtube_20240101120000" "by_platform" None
       (world_with_queue (stepping_clock noon 1000000) 8 [entry_b; entry_a; entry_d])
     = (Ok tt, w) /\ queue_of w = queue_of odd_status_world)
  /\ Scheduler.get_queue_statistics odd_status_world
     = (Raise TypeError, odd_status_world).
Proof.
  split; [eexists; split; vm_compute; reflexivity|].
  apply (get_queue_statistics_raises_on_status_by_platform odd_status_world entry_odd).
  - right; left.
  - reflexivity.
Defined.

(** ** schedule_batch_uploads *)

Lemma lookup_combine {A B : Type} (l : list A) (k : list B) (i : nat)
    (a : A) (b : B) :
  combine l k !! i = Some (a, b) -> l !! i = Some a /\ k !! i = Some b.
Proof.
  revert k i. induction l as [|x l IH]; intros [|y k] [|i] H; simpl in *;
    try discriminate.
  - injection H as -> ->. split; reflexivity.
  - apply IH. exact H.
Qed.

(** The loop enqueues one job per pair, in the order of the pairs, each
    scheduled one interval after the one before. *)
Lemma batch_loop_run (pairs : list (string * string)) (platform : string)
    (start interval_hours : Z) (w : world) :
  exists (new : list Entry.t) (w' : world),
    Scheduler.batch_loop pairs platform start interval_hours w
    = (Ok (map Entry.id new), w')
    /\ queue_of w' = (queue_of w ++ new)%list
    /\ length new = length pairs
    /\ ticks w' = (ticks w + 2 * length pairs)%nat
    /\ (forall (i : nat) (e : Entry.t) (pair : string * string),
          new !! i = Some e -> pairs !! i = Some pair ->
          batch_job platform start interval_hours i pair.1 pair.2 e).
Proof.
  revert start w. induction pairs as [|[video_file metadata] rest IH];
    intros start w.
  - exists [], w. simpl. unfold_M. rewrite app_nil_r.
    split; [reflexivity|]. split; [reflexivity|]. split; [reflexivity|].
    split; [lia|]. intros i e pair Hi. inversion Hi.
  - cbn [Scheduler.batch_loop]. unfold mbind at 1. unfold M_bind at 1.
    rewrite add_to_queue_run.
    set (entry := Entry.mk _ _ _ _ _ _ _ _ _ _ _ _).
    set (w1 := set_queue_file _ _).
    destruct (IH (start + Datetime.timedelta_hours interval_hours) w1)
      as (new & w' & Hrun & Hq & Hlen & Hticks & Hjobs).
    exists (entry :: new), w'. unfold_M. rewrite Hrun.
    split; [reflexivity|]. split.
    { rewrite Hq. subst w1. unfold queue_of at 1. simpl.
      rewrite <- app_assoc. reflexivity. }
    split; [simpl; rewrite Hlen; reflexivity|]. split.
    { rewrite Hticks. subst w1. simpl. lia. }
    intros [|j] e pair He Hpair; simpl in He, Hpair.
    + injection He as <-. injection Hpair as <-. subst entry.
      unfold batch_job. simpl. rewrite Z.add_0_r. repeat split; reflexivity.
    + destruct (Hjobs j e pair He Hpair)
        as (Hf & Hm & Hp & Hs & Hprio & Hst & Hatt & Herr).
      unfold batch_job. repeat split; try assumption.
      rewrite Hs. do 2 f_equal. lia.
Qed.

(** X6.  Given as many metadata as video files, and a start time such
    that it and the instant one interval after the last job are
    representable (the loop adds the interval to the current time after
    every job, also after the last, and [datetime] raises when the sum
    leaves its range), [schedule_batch_uploads] returns without error; it
    appends one job per file to the queue, in the order of the files, and
    returns their ids in that order.  The [i]-th job (from 0) has the
    [i]-th file and metadata, the platform asked for, priority 5, status
    queued, no attempts, and is scheduled [i] intervals after the start
    time.  The jobs that were in the queue stay as they are. *)
Theorem schedule_batch_uploads_appends_spaced_jobs (w : world)
    (video_files metadata_list : list string) (platform : string)
    (start interval_hours : Z) :
  length video_files = length metadata_list ->
  Datetime.representable start ->
  Datetime.representable
    (start + Z.of_nat (length video_files) * Datetime.timedelta_hours interval_hours) ->
  exists (new : list Entry.t) (w' : world),
    Scheduler.schedule_batch_uploads video_files metadata_list platform
      (Some start) interval_hours w
    = (Ok (map Entry.id new), w')
    /\ queue_of w' = (queue_of w ++ new)%list
    /\ length new = length video_files
    /\ (forall (i : nat) (e : Entry.t),
          new !! i = Some e ->
          exists video_file metadata : string,
            video_files !! i = Some video_file
            /\ metadata_list !! i = Some metadata
            /\ batch_job platform start interval_hours i video_file metadata e).
Proof.
  intros Hlen _ _. unfold Scheduler.schedule_batch_uploads.
  rewrite Hlen, Nat.eqb_refl. simpl. unfold_M.
  destruct (batch_loop_run (combine video_files metadata_list) platform start
              interval_hours w) as (new & w' & Hrun & Hq & Hnew & _ & Hjobs).
  exists new, w'. split; [exact Hrun|]. split; [exact Hq|].
  assert (Hcomb : length (combine video_files metadata_list) = length video_files)
    by (rewrite length_combine; lia).
  split; [lia|].
  intros i e He.
  assert (Hi : (i < length (combine video_files metadata_list))%nat).
  { rewrite <- Hnew. apply lookup_lt_Some with e. exact He. }
  destruct (lookup_lt_is_Some_2 _ _ Hi) as [[video_file metadata] Hpair].
  exists video_file, metadata.
  destruct (lookup_combine _ _ _ _ _ Hpair) as [Hvf Hmd].
  split; [exact Hvf|]. split; [exact Hmd|].
  exact (Hjobs i e _ He Hpair).
Qed.

Lemma schedule_batch_uploads_witness :
  exists (new : list Entry.t) (w' : world),
    Scheduler.schedule_batch_uploads ["a.mp4"; "b.mp4"] ["{}"; "{}"] "youtube"
      (Some (noon + Datetime.us_per_day)) 4 queue_world
    = (Ok (map Entry.id new), w')
    /\ queue_of w' = (queue_of queue_world ++ new)%list
    /\ map Entry.video_file_path new = ["a.mp4"; "b.mp4"]
    /\ map Entry.scheduled_time new
       = [Some "2024-01-02T12:00:00"; Some "2024-01-02T16:00:00"].
Proof.
  destruct (schedule_batch_uploads_appends_spaced_jobs queue_world
              ["a.mp4"; "b.mp4"] ["{}"; "{}"] "youtube"
              (noon + Datetime.us_per_day) 4 eq_refl)
    as (new & w' & Hrun & Hq & Hlen & Hjobs).
  { split; vm_compute; intros Hcmp; discriminate Hcmp. }
  { split; vm_compute; intros Hcmp; discriminate Hcmp. }
  exists new, w'. split; [exact Hrun|]. split; [exact Hq|].
  destruct new as [|e1 [|e2 [|e3 new]]]; try discriminate.
  destruct (Hjobs 0%nat e1 eq_refl) as (f1 & m1 & Hf1 & _ & Hj1).
  destruct (Hjobs 1%nat e2 eq_refl) as (f2 & m2 & Hf2 & _ & Hj2).
  injection Hf1 as <-. injection Hf2 as <-.
  destruct Hj1 as (Hp1 & _ & _ & Hs1 & _). destruct Hj2 as (Hp2 & _ & _ & Hs2 & _).
  simpl. rewrite Hp1, Hp2, Hs1, Hs2. split; [reflexivity|].
  vm_compute. reflexivity.
Defined.

(** X7.  With a number of metadata other than the number of video files,
    [schedule_batch_uploads] raises [PublishingError] before it reads the
    clock or touches the queue: no job of the batch is enqueued. *)
Theorem schedule_batch_uploads_refuses_unequal_lengths (w : world)
    (video_files metadata_list : list string) (platform : string)
    (start_time : option Z) (interval_hours : Z) :
  length video_files <> length metadata_list ->
  Scheduler.schedule_batch_uploads video_files metadata_list platform start_time
    interval_hours w
  = (Raise PublishingError, w).
Proof.
  intros Hlen. unfold Scheduler.schedule_batch_uploads.
  rewrite (proj2 (Nat.eqb_neq _ _) Hlen). reflexivity.
Qed.

Lemma schedule_batch_uploads_unequal_lengths_witness :
  Scheduler.schedule_batch_uploads ["a.mp4"; "b.mp4"] ["{}"] "youtube" None 4
    queue_world
  = (Raise PublishingError, queue_world).
Proof.
  apply (schedule_batch_uploads_refuses_unequal_lengths queue_world
           ["a.mp4"; "b.mp4"] ["{}"] "youtube" None 4).
  discriminate.
Defined.

(** ** get_next_upload_time *)

Ltac unfold_datetime :=
  unfold Datetime.replace_hour, Datetime.start_of_day, Datetime.hour,
    Datetime.timedelta_days, Datetime.timedelta_hours, Datetime.us_per_day,
    Datetime.us_per_hour, Datetime.us_per_second in *.

Lemma replace_hour_valid (t h : Z) :
  0 <= h <= 23 ->
  Datetime.replace_hour t h = Ok (Datetime.start_of_day t + h * Datetime.us_per_hour).
Proof.
  intros Hh. unfold Datetime.replace_hour.
  rewrite (proj2 (Z.leb_le 0 h)), (proj2 (Z.leb_le h 23)) by lia. reflexivity.
Qed.

Lemma replaced_hour_facts (t h : Z) :
  0 <= h <= 23 ->
  let r := Datetime.start_of_day t + h * Datetime.us_per_hour in
  Datetime.hour r = h
  /\ r mod Datetime.us_per_hour = 0
  /\ Datetime.start_of_day r = Datetime.start_of_day t
  /\ r < t + Datetime.us_per_day
  /\ (Datetime.hour t < h -> t < r).
Proof.
  intros Hh r. subst r. unfold_datetime.
  repeat split; intros; Z.div_mod_to_equations; lia.
Qed.

Lemma next_day_facts (t : Z) :
  Datetime.start_of_day (t + Datetime.timedelta_days 1)
  = Datetime.start_of_day t + Datetime.us_per_day
  /\ t < Datetime.start_of_day t + Datetime.us_per_day.
Proof. unfold_datetime. split; Z.div_mod_to_equations; lia. Qed.



(** X9.  With an empty list of optimal hours configured,
    [get_next_upload_time] raises [IndexError]; so does
    [schedule_batch_uploads] when it is called without a start time, and
    then no job of the batch is enqueued. *)
Theorem get_next_upload_time_raises_on_empty_list (w : world) (platform : string)
    (base_time : option Z) (video_files metadata_list : list string)
    (interval_hours : Z) :
  optimal_times_cfg w = Some [] ->
  length video_files = length metadata_list ->
  (exists w' : world,
     Scheduler.get_next_upload_time platform base_time w = (Raise IndexError, w')
     /\ queue_file w' = queue_file w)
  /\ (exists w' : world,
        Scheduler.schedule_batch_uploads video_files metadata_list platform None
          interval_hours w = (Raise IndexError, w')
        /\ queue_file w' = queue_file w).
Proof.
  intros Hcfg Hlen. split.
  - unfold Scheduler.get_next_upload_time. unfold_M.
    destruct base_time as [b|]; simpl; rewrite Hcfg; simpl;
      eexists; split; reflexivity.
  - unfold Scheduler.schedule_batch_uploads, Scheduler.get_next_upload_time.
    rewrite Hlen, Nat.eqb_refl. unfold_M. simpl. rewrite Hcfg. simpl.
    eexists; split; reflexivity.
Qed.

Lemma get_next_upload_time_empty_list_witness :
  (exists w' : world,
     Scheduler.get_next_upload_time "youtube" None no_optimal_times_world
     = (Raise IndexError, w')
     /\ queue_file w' = Some [entry_a])
  /\ (exists w' : world,
        Scheduler.schedule_batch_uploads ["b.mp4"] ["{}"] "youtube" None 4
          no_optimal_times_world = (Raise IndexError, w')
        /\ queue_file w' = Some [entry_a]).
Proof.
  exact (get_next_upload_time_raises_on_empty_list no_optimal_times_world "youtube"
           None ["b.mp4"] ["{}"] 4 eq_refl eq_refl).
Defined.

(** ** get_ready_uploads: which jobs are returned, the limit, errors *)

Section ReadyUploadsMore.

Variable fromisoformat : string -> outcome Z.

Lemma ready_loop_complete (platform : option string) (now : Z)
    (queue ready : list Entry.t) :
  Scheduler.ready_loop fromisoformat platform now queue = Ok ready ->
  forall e : Entry.t,
    e ∈ queue -> Entry.status e = "queued" -> due fromisoformat now e ->
    platform_matches platform e -> e ∈ ready.
Proof.
  revert ready. induction queue as [|x queue IH]; intros ready Hloop e He Hst Hdue Hplat.
  - inversion He.
  - simpl in Hloop.
    assert (Happend : match Scheduler.ready_loop fromisoformat platform now queue with
                      | Ok ready0 => Ok (x :: ready0)
                      | Raise e0 => Raise e0
                      end = Ok ready -> e ∈ ready).
    { destruct (Scheduler.ready_loop fromisoformat platform now queue)
        as [ready0|e0]; [|discriminate].
      intros Heq. injection Heq as <-.
      apply elem_of_cons in He as [->|He]; [left|right].
      apply (IH ready0 eq_refl e He Hst Hdue Hplat). }
    assert (Hskip : e <> x ->
              Scheduler.ready_loop fromisoformat platform now queue = Ok ready ->
              e ∈ ready).
    { intros Hne Hrest. apply elem_of_cons in He as [->|He]; [contradiction|].
      apply (IH ready Hrest e He Hst Hdue Hplat). }
    destruct (String.eqb_spec (Entry.status x) "queued") as [Hx|Hx]; simpl in Hloop.
    2: { apply Hskip; [intros ->; contradiction|exact Hloop]. }
    destruct (truthy platform
              && negb (bool_decide (Some (Entry.platform x) = platform))) eqn:Hp.
    { apply Hskip; [|exact Hloop]. intros ->.
      apply andb_true_iff in Hp as [Htruthy Hother].
      apply negb_true_iff, bool_decide_eq_false in Hother. apply Hother.
      destruct platform as [p|]; [|discriminate]. f_equal. apply Hplat; [reflexivity|].
      intros ->. discriminate. }
    destruct (truthy (Entry.scheduled_time x)) eqn:Htime; [|exact (Happend Hloop)].
    destruct (fromisoformat (default "" (Entry.scheduled_time x))) as [t|e0] eqn:Hparse;
      [|discriminate].
    destruct (Z.ltb_spec now t) as [Hfuture|_]; [|exact (Happend Hloop)].
    apply Hskip; [|exact Hloop]. intros ->.
    destruct Hdue as [Hnone|[Hempty|(s & t' & Hs & Hparse' & Hle)]].
    + rewrite Hnone in Htime. discriminate.
    + rewrite Hempty in Htime. discriminate.
    + rewrite Hs in Hparse. simpl in Hparse. rewrite Hparse in Hparse'.
      injection Hparse' as <-. lia.
Qed.

Lemma platform_matches_cases (platform : option string) (e : Entry.t) :
  platform_matches platform e
  <-> platform = None \/ platform = Some "" \/ platform = Some (Entry.platform e).
Proof.
  unfold platform_matches. split.
  - intros Hmatch. destruct platform as [p|]; [|left; reflexivity].
    destruct (String.eqb_spec p "") as [->|Hne]; [right; left; reflexivity|].
    right; right. rewrite (Hmatch p eq_refl Hne). reflexivity.
  - intros [->|[->| ->]] p Hp Hne; [discriminate Hp| |]; congruence.
Qed.

(** X10.  Called without a limit (or with the limit 0, which the code takes
    for none), [get_ready_uploads] returns, when it returns, exactly the
    ready jobs: a job is in the result if and only if it is in the queue,
    has the status queued, is due at the time of the call (it has no
    scheduled time, or the empty string for one, or one that is not later)
    and passes the platform filter: the filter is [None], or it is the
    empty string, which the code takes for no filter and which lets the
    jobs of every platform pass, or it is the platform of the job.  No
    ready job is left out. *)
Theorem get_ready_uploads_returns_every_ready_job (w w' : world)
    (limit : option Z) (platform : option string) (ready : list Entry.t) :
  truthy_int limit = false ->
  Scheduler.get_ready_uploads fromisoformat limit platform w = (Ok ready, w') ->
  forall e : Entry.t,
    e ∈ ready
    <-> e ∈ queue_of w /\ Entry.status e = "queued"
        /\ due fromisoformat (clock w (ticks w)) e
        /\ (platform = None \/ platform = Some ""
            \/ platform = Some (Entry.platform e)).
Proof.
  intros Hlimit Hrun e. rewrite <- platform_matches_cases.
  unfold Scheduler.get_ready_uploads, Scheduler._load_queue in Hrun.
  unfold_M. simpl in Hrun. fold (queue_of w) in Hrun.
  destruct (Scheduler.ready_loop fromisoformat platform (clock w (ticks w))
              (queue_of w)) as [candidates|e0] eqn:Hloop; [|discriminate].
  destruct (list_sort Scheduler.sort_key tuple_lt candidates) as [sorted|e0] eqn:Hsort;
    [|discriminate].
  rewrite Hlimit in Hrun. injection Hrun as <- _.
  rewrite (list_sort_perm _ _ _ _ Hsort). split.
  - apply (ready_loop_sound _ _ _ _ _ Hloop).
  - intros (Hin & Hst & Hdue & Hplat).
    apply (ready_loop_complete _ _ _ _ Hloop e Hin Hst Hdue Hplat).
Qed.

End ReadyUploadsMore.

Lemma get_ready_uploads_every_ready_job_witness :
  exists (ready : list Entry.t) (w' : world),
    Scheduler.get_ready_uploads Datetime.fromisoformat_naive (Some 0) None queue_world
    = (Ok ready, w')
    /\ entry_d ∈ ready
    /\ entry_c ∉ ready.
Proof.
  assert (Hrun : Scheduler.get_ready_uploads Datetime.fromisoformat_naive (Some 0)
                   None queue_world
                 = (Ok [entry_b; entry_a; entry_d], set_ticks 9 queue_world))
    by (vm_compute; reflexivity).
  exists [entry_b; entry_a; entry_d], (set_ticks 9 queue_world).
  split; [exact Hrun|]. split.
  - apply (get_ready_uploads_returns_every_ready_job Datetime.fromisoformat_naive
             queue_world _ (Some 0) None _ eq_refl Hrun).
    split; [do 3 right; left|]. split; [reflexivity|].
    split; [left; reflexivity|]. left. reflexivity.
  - intros Hin.
    apply (get_ready_uploads_returns_every_ready_job Datetime.fromisoformat_naive
             queue_world _ (Some 0) None _ eq_refl Hrun) in Hin.
    destruct Hin as (_ & _ & [Hnone|[Hempty|(s & t & Hs & Hparse & Hle)]] & _);
      [discriminate Hnone|discriminate Hempty|].
    injection Hs as <-. vm_compute in Hparse. injection Hparse as <-.
    vm_compute in Hle. exact (Hle eq_refl).
Defined.

Section ReadyUploadsLimit.

Variable fromisoformat : string -> outcome Z.

(** X11.  The limit of [get_ready_uploads] cuts the list that the call without
    a limit returns: a positive limit [n] keeps its first [n] jobs (all of
    them when there are fewer); the limit 0 keeps all of them, as no
    limit does; a negative limit [-n] drops its last [n] jobs. *)
Theorem get_ready_uploads_limit_cuts_the_full_list (w w' : world) (n : Z)
    (platform : option string) (full : list Entry.t) :
  Scheduler.get_ready_uploads fromisoformat None platform w = (Ok full, w') ->
  Scheduler.get_ready_uploads fromisoformat (Some n) platform w
  = (Ok (if n =? 0 then full
         else if 0 <? n then take (Z.to_nat n) full
         else take (length full - Z.to_nat (- n)) full), w').
Proof.
  intros Hrun.
  unfold Scheduler.get_ready_uploads, Scheduler._load_queue in *.
  unfold_M. simpl in *.
  destruct (Scheduler.ready_loop fromisoformat platform (clock w (ticks w))
              (default [] (queue_file w))) as [candidates|e0]; [|discriminate].
  destruct (list_sort Scheduler.sort_key tuple_lt candidates) as [sorted|e0];
    [|discriminate].
  injection Hrun as <- <-. unfold slice_to.
  destruct (Z.eqb_spec n 0) as [->|Hn]; [reflexivity|]. simpl.
  destruct (Z.leb_spec 0 n) as [Hpos|Hneg].
  - rewrite (proj2 (Z.ltb_lt 0 n)) by lia. reflexivity.
  - rewrite (proj2 (Z.ltb_ge 0 n)) by lia. do 3 f_equal. lia.
Qed.

(** X12.  A queued job of the platform asked for whose scheduled time cannot
    be read makes [get_ready_uploads] raise: no job is returned, also
    none of the jobs that are ready. *)
Theorem get_ready_uploads_raises_on_unreadable_time (w : world)
    (limit : option Z) (platform : option string) (e : Entry.t) (s : string)
    (x : exn) :
  e ∈ queue_of w ->
  Entry.status e = "queued" ->
  platform_matches platform e ->
  Entry.scheduled_time e = Some s ->
  s <> "" ->
  fromisoformat s = Raise x ->
  exists x' : exn,
    Scheduler.get_ready_uploads fromisoformat limit platform w
    = (Raise x', set_ticks (S (ticks w)) w).
Proof.
  intros He Hst Hplat Hs Hne Hparse.
  assert (Hloop : exists x' : exn,
            Scheduler.ready_loop fromisoformat platform (clock w (ticks w)) (queue_of w)
            = Raise x').
  { induction (queue_of w) as [|y queue IH]; [inversion He|].
    simpl.
    assert (Hrest : e ∈ queue ->
              exists x' : exn,
                match Scheduler.ready_loop fromisoformat platform (clock w (ticks w)) queue with
                | Ok ready => Ok (y :: ready)
                | Raise e0 => Raise e0
                end = Raise x'
                /\ Scheduler.ready_loop fromisoformat platform (clock w (ticks w)) queue
                   = Raise x').
    { intros Hin. destruct (IH Hin) as [x' Hx']. exists x'. rewrite Hx'.
      split; reflexivity. }
    destruct (decide (e = y)) as [<-|Hney].
    - rewrite (proj2 (String.eqb_eq _ _) Hst). simpl.
      assert (Hp : truthy platform
                   && negb (bool_decide (Some (Entry.platform e) = platform)) = false).
      { destruct platform as [p|]; [|reflexivity]. simpl.
        destruct (String.eqb_spec p "") as [->|Hp]; [reflexivity|]. simpl.
        apply negb_false_iff, bool_decide_eq_true. f_equal.
        apply Hplat; [reflexivity|exact Hp]. }
      rewrite Hp, Hs. simpl. rewrite (proj2 (String.eqb_neq _ _) Hne). simpl.
      rewrite Hparse. exists x. reflexivity.
    - apply elem_of_cons in He as [Heq|Hin]; [contradiction|].
      destruct (Hrest Hin) as (x' & Happ & Hskip).
      destruct (negb (Entry.status y =? "queued")%string); [exists x'; exact Hskip|].
      destruct (truthy platform
                && negb (bool_decide (Some (Entry.platform y) = platform)));
        [exists x'; exact Hskip|].
      destruct (truthy (Entry.scheduled_time y)); [|exists x'; exact Happ].
      destruct (fromisoformat (default "" (Entry.scheduled_time y))) as [t|e0];
        [|exists e0; reflexivity].
      destruct (clock w (ticks w) <? t); exists x'; assumption. }
  destruct Hloop as [x' Hloop]. exists x'.
  unfold Scheduler.get_ready_uploads, Scheduler._load_queue. unfold_M. simpl.
  fold (queue_of w). rewrite Hloop. reflexivity.
Qed.

End ReadyUploadsLimit.

Lemma get_ready_uploads_limit_witness :
  Scheduler.get_ready_uploads Datetime.fromisoformat_naive (Some 2) None queue_world
  = (Ok [entry_b; entry_a], set_ticks 9 queue_world)
  /\ Scheduler.get_ready_uploads Datetime.fromisoformat_naive (Some 0) None queue_world
     = (Ok [entry_b; entry_a; entry_d], set_ticks 9 queue_world)
  /\ Scheduler.get_ready_uploads Datetime.fromisoformat_naive (Some (-1)) None queue_world
     = (Ok [entry_b; entry_a], set_ticks 9 queue_world).
Proof.
  assert (Hfull : Scheduler.get_ready_uploads Datetime.fromisoformat_naive None None
                    queue_world
                  = (Ok [entry_b; entry_a; entry_d], set_ticks 9 queue_world))
    by (vm_compute; reflexivity).
  split; [|split].
  - exact (get_ready_uploads_limit_cuts_the_full_list Datetime.fromisoformat_naive
             queue_world _ 2 None _ Hfull).
  - exact (get_ready_uploads_limit_cuts_the_full_list Datetime.fromisoformat_naive
             queue_world _ 0 None _ Hfull).
  - exact (get_ready_uploads_limit_cuts_the_full_list Datetime.fromisoformat_naive
             queue_world _ (-1) None _ Hfull).
Defined.

Lemma get_ready_uploads_unreadable_time_witness :
  exists x' : exn,
    Scheduler.get_ready_uploads Datetime.fromisoformat_naive None (Some "youtube")
      bad_time_world
    = (Raise x', set_ticks 11 bad_time_world).
Proof.
  apply (get_ready_uploads_raises_on_unreadable_time Datetime.fromisoformat_naive
           bad_time_world None (Some "youtube") entry_bad_time "tomorrow" ValueError).
  - right; left.
  - reflexivity.
  - intros p Hp _. injection Hp as <-. reflexivity.
  - reflexivity.
  - intros Hbad. discriminate Hbad.
  - vm_compute. reflexivity.
Defined.

(** ** When get_ready_uploads returns *)

Section ListSortTotal.

Context {A K : Type}.
Variable key : A -> K.
Variable lt : K -> K -> outcome bool.

Lemma insert_sorted_total (x : A) (s : list A) :
  (forall y : A, y ∈ s -> exists c : bool, lt (key x) (key y) = Ok c) ->
  exists r : list A, insert_sorted (fun a b => lt (key a) (key b)) x s = Ok r.
Proof.
  induction s as [|y ys IH]; intros Hcmp; simpl.
  - exists [x]. reflexivity.
  - destruct (Hcmp y) as [c Hc]; [left|]. rewrite Hc. destruct c.
    + eexists. reflexivity.
    + destruct IH as [r Hr]; [intros z Hz; apply Hcmp; right; exact Hz|].
      rewrite Hr. eexists. reflexivity.
Qed.

Lemma sort_fold_total (l s : list A) :
  (forall x y : A, x ∈ l -> y ∈ (s ++ l)%list ->
     exists c : bool, lt (key x) (key y) = Ok c) ->
  exists r : list A, fold_left (sort_step key lt) l (Ok s) = Ok r.
Proof.
  revert s. induction l as [|x l IH]; intros s Hcmp.
  - exists s. reflexivity.
  - cbn [fold_left]. unfold sort_step at 2.
    destruct (insert_sorted_total x s) as [s1 Hs1].
    { intros y Hy. apply Hcmp; [left|]. apply elem_of_app. left. exact Hy. }
    rewrite Hs1. apply IH. intros a b Ha Hb. apply Hcmp; [right; exact Ha|].
    apply elem_of_app in Hb as [Hb|Hb].
    + rewrite (insert_sorted_perm key lt x s s1 Hs1) in Hb.
      apply elem_of_cons in Hb as [->|Hb]; apply elem_of_app;
        [right; left|left; exact Hb].
    + apply elem_of_app. right; right. exact Hb.
Qed.

(** [list_sort] returns when [lt] can compare the keys of any two
    elements. *)
Lemma list_sort_total (l : list A) :
  (forall x y : A, x ∈ l -> y ∈ l -> exists c : bool, lt (key x) (key y) = Ok c) ->
  exists r : list A, list_sort key lt l = Ok r.
Proof. intros Hcmp. apply sort_fold_total. exact Hcmp. Qed.

End ListSortTotal.

Section ReadyUploadsTotal.

Variable fromisoformat : string -> outcome Z.

Lemma ready_loop_total (platform : option string) (now : Z) (queue : list Entry.t) :
  (forall (e : Entry.t) (s : string),
     e ∈ queue -> Entry.status e = "queued" -> Entry.scheduled_time e = Some s ->
     s <> "" -> exists t : Z, fromisoformat s = Ok t) ->
  exists candidates : list Entry.t,
    Scheduler.ready_loop fromisoformat platform now queue = Ok candidates.
Proof.
  induction queue as [|x queue IH]; intros Hread; simpl.
  - exists []. reflexivity.
  - destruct IH as [rest Hrest].
    { intros e s He. apply Hread. right. exact He. }
    rewrite Hrest.
    destruct (String.eqb_spec (Entry.status x) "queued") as [Hst|Hst]; simpl;
      [|exists rest; reflexivity].
    destruct (truthy platform
              && negb (bool_decide (Some (Entry.platform x) = platform)));
      [exists rest; reflexivity|].
    destruct (Entry.scheduled_time x) as [s|] eqn:Hs; simpl;
      [|eexists; reflexivity].
    destruct (String.eqb_spec s "") as [->|Hne]; simpl; [eexists; reflexivity|].
    destruct (Hread x s) as [t Ht]; [left|exact Hst|exact Hs|exact Hne|].
    rewrite Ht. destruct (now <? t); eexists; reflexivity.
Qed.

(** X13.  Let every scheduled time of a queued job be readable, and let no two
    queued jobs of equal priority differ in having a scheduled time.
    Then [get_ready_uploads] returns, after one reading of the clock and
    without touching the queue file.  Its result is the list of the ready
    jobs, or the part of it that the limit leaves, in rank order: by
    descending priority, then by ascending scheduled time; ready jobs of
    equal priority and equal scheduled time keep the order they have in
    the queue. *)
Theorem get_ready_uploads_returns_in_rank_order (w : world) (limit : option Z)
    (platform : option string) :
  (forall (e : Entry.t) (s : string),
     e ∈ queue_of w -> Entry.status e = "queued" ->
     Entry.scheduled_time e = Some s -> s <> "" ->
     exists t : Z, fromisoformat s = Ok t) ->
  (forall x y : Entry.t,
     x ∈ queue_of w -> y ∈ queue_of w ->
     Entry.status x = "queued" -> Entry.status y = "queued" ->
     Entry.priority x = Entry.priority y ->
     (Entry.scheduled_time x = None <-> Entry.scheduled_time y = None)) ->
  exists ready candidates sorted : list Entry.t,
    Scheduler.get_ready_uploads fromisoformat limit platform w
    = (Ok ready, set_ticks (S (ticks w)) w)
    /\ Scheduler.ready_loop fromisoformat platform (clock w (ticks w)) (queue_of w)
       = Ok candidates
    /\ candidates `sublist_of` queue_of w
    /\ sorted ≡ₚ candidates
    /\ StronglySorted ranks_before_or_ties sorted
    /\ (forall k : Z * option string,
          with_key Scheduler.sort_key k sorted
          = with_key Scheduler.sort_key k candidates)
    /\ ready = (if truthy_int limit then slice_to sorted (default 0 limit) else sorted).
Proof.
  intros Hread Huniform.
  destruct (ready_loop_total platform (clock w (ticks w)) (queue_of w) Hread)
    as [candidates Hloop].
  destruct (list_sort_total Scheduler.sort_key tuple_lt candidates) as [sorted Hsort].
  { intros x y Hx Hy.
    destruct (ready_loop_sound fromisoformat platform _ _ _ Hloop x Hx)
      as (Hxq & Hxst & _).
    destruct (ready_loop_sound fromisoformat platform _ _ _ Hloop y Hy)
      as (Hyq & Hyst & _).
    unfold tuple_lt, Scheduler.sort_key. simpl.
    destruct (decide (- Entry.priority x = - Entry.priority y)) as [Heq|Hne].
    - rewrite (bool_decide_eq_true_2 _ Heq).
      pose proof (Huniform x y Hxq Hyq Hxst Hyst ltac:(lia)) as Hu.
      destruct (Entry.scheduled_time x) as [sx|], (Entry.scheduled_time y) as [sy|].
      + eexists. reflexivity.
      + exfalso. destruct Hu as [_ Hu]. discriminate (Hu eq_refl).
      + exfalso. destruct Hu as [Hu _]. discriminate (Hu eq_refl).
      + eexists. reflexivity.
    - rewrite (bool_decide_eq_false_2 _ Hne). eexists. reflexivity. }
  assert (Hrun : Scheduler.get_ready_uploads fromisoformat limit platform w
                 = (Ok (if truthy_int limit then slice_to sorted (default 0 limit)
                        else sorted), set_ticks (S (ticks w)) w)).
  { unfold Scheduler.get_ready_uploads, Scheduler._load_queue. unfold_M. simpl.
    fold (queue_of w). rewrite Hloop, Hsort. reflexivity. }
  destruct (get_ready_uploads_order fromisoformat _ _ _ _ _ Hrun)
    as (candidates' & sorted' & Hloop' & Hsub & Hperm & Hsorted & Hstable & Hready).
  exists (if truthy_int limit then slice_to sorted (default 0 limit) else sorted),
    candidates', sorted'.
  split; [exact Hrun|]. repeat split; assumption.
Qed.

End ReadyUploadsTotal.

Lemma get_ready_uploads_rank_order_witness :
  exists ready : list Entry.t,
    Scheduler.get_ready_uploads Datetime.fromisoformat_naive None None queue_world
    = (Ok ready, set_ticks 9 queue_world)
    /\ StronglySorted ranks_before_or_ties ready.
Proof.
  destruct (get_ready_uploads_returns_in_rank_order Datetime.fromisoformat_naive
              queue_world None None)
    as (ready & candidates & sorted & Hrun & _ & _ & _ & Hsorted & _ & Hready).
  - intros e s He Hst Hs Hne.
    repeat (apply elem_of_cons in He as [->|He];
            [first [ discriminate Hs
                   | injection Hs as <-; eexists; vm_compute; reflexivity ]|]).
    inversion He.
  - intros x y Hx Hy Hxst Hyst Hprio.
    repeat (apply elem_of_cons in Hx as [->|Hx];
            [repeat (apply elem_of_cons in Hy as [->|Hy];
                     [first [ discriminate Hprio | discriminate Hxst
                            | discriminate Hyst | tauto ]|]);
             inversion Hy|]).
    inversion Hx.
  - exists ready. split; [exact Hrun|]. rewrite Hready. exact Hsorted.
Defined.

(** ** cleanup_completed, whatever the timestamps and the horizon *)

Section CleanupSafe.

Variable fromisoformat : string -> outcome Z.

Lemma cleanup_filter_safe (cutoff : Z) (queue : list Entry.t) (w : world) :
  queue_file (Scheduler.cleanup_filter fromisoformat cutoff queue w).2 = queue_file w
  /\ forall kept : list Entry.t,
       (Scheduler.cleanup_filter fromisoformat cutoff queue w).1 = Ok kept ->
       kept `sublist_of` queue
       /\ forall e : Entry.t,
            e ∈ queue -> Entry.status e <> "completed" -> e ∈ kept.
Proof.
  revert w. induction queue as [|x queue IH]; intros w.
  - simpl. split; [reflexivity|]. intros kept Hk. injection Hk as <-.
    split; [constructor|]. intros e He. inversion He.
  - cbn [Scheduler.cleanup_filter]. unfold_M.
    destruct (String.eqb_spec (Entry.status x) "completed") as [Hst|Hst]; simpl.
    + destruct (fromisoformat
                  (default (Datetime.isoformat (clock w (ticks w)))
                     (Entry.completed_at x))) as [dt|e0]; simpl.
      * destruct (IH (set_ticks (S (ticks w)) w)) as [Hfile Hkept].
        destruct (Scheduler.cleanup_filter fromisoformat cutoff queue
                    (set_ticks (S (ticks w)) w)) as [[rest|e1] w1]; simpl in *.
        -- split; [exact Hfile|]. intros kept Hk. injection Hk as <-.
           destruct (Hkept rest eq_refl) as [Hsub Hin].
           split.
           ++ destruct (cutoff <? dt); [apply sublist_skip|apply sublist_cons];
                exact Hsub.
           ++ intros e He Hne. apply elem_of_cons in He as [->|He];
                [contradiction|].
              destruct (cutoff <? dt); [right|]; apply Hin; assumption.
        -- split; [exact Hfile|]. intros kept Hk. discriminate Hk.
      * split; [reflexivity|]. intros kept Hk. discriminate Hk.
    + destruct (IH w) as [Hfile Hkept].
      destruct (Scheduler.cleanup_filter fromisoformat cutoff queue w)
        as [[rest|e1] w1]; simpl in *.
      * split; [exact Hfile|]. intros kept Hk. injection Hk as <-.
        destruct (Hkept rest eq_refl) as [Hsub Hin].
        split; [apply sublist_skip; exact Hsub|].
        intros e He Hne. apply elem_of_cons in He as [->|He]; [left|right].
        apply Hin; assumption.
      * split; [exact Hfile|]. intros kept Hk. discriminate Hk.
Qed.

(** X14.  Whatever the horizon, the clock and the timestamps in the queue,
    [cleanup_completed] only removes jobs: the queue after the call is the
    queue before it with some jobs left out, in the same order.  It leaves
    out no job whose status is not completed.  When it raises (a
    completion time cannot be read), the queue file is as before. *)
Theorem cleanup_completed_only_removes_completed_jobs (w : world) (days : Z) :
  let r := Scheduler.cleanup_completed fromisoformat days w in
  queue_of r.2 `sublist_of` queue_of w
  /\ (forall e : Entry.t,
        e ∈ queue_of w -> Entry.status e <> "completed" -> e ∈ queue_of r.2)
  /\ (forall x : exn, r.1 = Raise x -> queue_file r.2 = queue_file w).
Proof.
  intros r. subst r.
  unfold Scheduler.cleanup_completed, Scheduler._load_queue, Scheduler._save_queue.
  unfold_M. simpl. fold (queue_of w).
  set (w1 := set_ticks (S (ticks w)) w).
  set (cutoff := clock w (ticks w) - Datetime.timedelta_days days).
  destruct (cleanup_filter_safe cutoff (queue_of w) w1) as [Hfile Hkept].
  destruct (Scheduler.cleanup_filter fromisoformat cutoff (queue_of w) w1)
    as [[kept|e1] w2]; simpl in *.
  - destruct (Hkept kept eq_refl) as [Hsub Hin].
    destruct (0 <? Z.of_nat (length (queue_of w)) - Z.of_nat (length kept)) eqn:Hrem;
      simpl.
    + split; [exact Hsub|]. split; [exact Hin|]. intros x Hx. discriminate Hx.
    + assert (Hsame : queue_of w2 = queue_of w)
        by (unfold queue_of; rewrite Hfile; reflexivity).
      rewrite Hsame. split; [reflexivity|]. split; [auto|].
      intros x Hx. discriminate Hx.
  - assert (Hsame : queue_of w2 = queue_of w)
      by (unfold queue_of; rewrite Hfile; reflexivity).
    rewrite Hsame. split; [reflexivity|]. split; [auto|].
    intros x _. exact Hfile.
Qed.

End CleanupSafe.

(** ** add_to_queue followed by remove_from_queue *)

(** X15.  Enqueueing a job and then removing the id that [add_to_queue]
    returned leaves the queue as it was before the two calls, but for the
    earlier jobs that had the same id, which are removed with it; when no
    earlier job has the id, the queue is exactly the one before. *)
Theorem add_to_queue_then_remove_from_queue (w : world)
    (video_file_path metadata platform : string) (scheduled_time : option Z)
    (priority : Z) :
  exists (entry_id : string) (w1 w2 : world),
    Scheduler.add_to_queue video_file_path metadata platform scheduled_time priority w
    = (Ok entry_id, w1)
    /\ Scheduler.remove_from_queue entry_id w1 = (Ok tt, w2)
    /\ queue_of w2 = filter (fun e => Entry.id e ≠ entry_id) (queue_of w)
    /\ ((forall e : Entry.t, e ∈ queue_of w -> Entry.id e ≠ entry_id) ->
        queue_of w2 = queue_of w).
Proof.
  set (entry_id := platform ++ "_" ++ Datetime.strftime_YmdHMS (clock w (ticks w))).
  set (entry :=
         Entry.mk entry_id video_file_path metadata platform
           (Datetime.isoformat <$> scheduled_time) priority "queued"
           (Datetime.isoformat (clock w (S (ticks w)))) 0 None None None).
  set (w1 := set_queue_file (Some (queue_of w ++ [entry])%list)
               (set_ticks (S (S (ticks w))) w)).
  exists entry_id, w1,
    (set_queue_file
       (Some (filter (fun e => Entry.id e ≠ entry_id) (queue_of w ++ [entry])%list)) w1).
  split; [apply add_to_queue_run|].
  split; [reflexivity|].
  assert (Hfilter : filter (fun e => Entry.id e ≠ entry_id) (queue_of w ++ [entry])%list
                    = filter (fun e => Entry.id e ≠ entry_id) (queue_of w)).
  { rewrite filter_app, filter_cons_False, filter_nil, app_nil_r.
    - reflexivity.
    - simpl. intros Hne. apply Hne. reflexivity. }
  unfold queue_of at 1. cbn [queue_file set_queue_file default].
  split; [exact Hfilter|].
  intros Hfresh. rewrite Hfilter. apply filter_all. exact Hfresh.
Qed.

(** ** check_daily_limit for youtube *)


(** * Further properties of the repositories *)

(** ** TaskRepository.update_progress *)

Lemma clamp_bounds (p : Q) :
  (0 <= TaskRepository.clamp p <= 1)%Q
  /\ ((0 <= p <= 1)%Q -> (TaskRepository.clamp p == p)%Q)
  /\ ((p < 0)%Q -> TaskRepository.clamp p = 0%Q)
  /\ ((1 < p)%Q -> TaskRepository.clamp p = 1%Q).
Proof.
  unfold TaskRepository.clamp.
  destruct (Qle_bool 1 p) eqn:H1.
  - apply Qle_bool_iff in H1. simpl.
    split; [split; discriminate|]. split; [|split].
    + intros [_ Hle]. apply Qle_antisym; assumption.
    + intros Hneg. exfalso. apply (Qlt_irrefl 0).
      apply Qle_lt_trans with p; [|exact Hneg].
      apply Qle_trans with 1%Q; [discriminate|exact H1].
    + intros _. reflexivity.
  - assert (Hlt : (p < 1)%Q).
    { apply Qnot_le_lt. intros Hle. apply Qle_bool_iff in Hle. congruence. }
    destruct (Qle_bool p 0) eqn:H0.
    + apply Qle_bool_iff in H0.
      split; [split; discriminate|]. split; [|split].
      * intros [Hge _]. symmetry. apply Qle_antisym; assumption.
      * intros _. reflexivity.
      * intros Hgt. exfalso. apply (Qlt_irrefl 1).
        apply Qlt_trans with p; assumption.
    + assert (Hpos : (0 < p)%Q).
      { apply Qnot_le_lt. intros Hle. apply Qle_bool_iff in Hle. congruence. }
      split; [split; apply Qlt_le_weak; assumption|]. split; [|split].
      * intros _. reflexivity.
      * intros Hneg. exfalso. apply (Qlt_irrefl 0).
        apply Qlt_trans with p; assumption.
      * intros Hgt. exfalso. apply (Qlt_irrefl 1).
        apply Qlt_trans with p; assumption.
Qed.

(** X17.  [update_progress] on a stored task stores and returns the task with
    only its progress changed: to the given value when that lies in
    [0, 1], to 0 for a value below 0, to 1 for a value above 1; so the
    stored progress always lies in [0, 1].  For an id that the database
    can hold (a signed 64-bit integer) and that is not stored, it returns
    None and changes nothing.  In neither case does it raise. *)
Theorem update_progress_clamps_to_unit_interval (w : world) (task_id : Z)
    (progress : Q) :
  (sqlite_integer task_id ->
   tasks w !! task_id = None ->
   TaskRepository.update_progress task_id progress w = (Ok None, w))
  /\ (forall t : Task.t,
        tasks w !! task_id = Some t ->
        exists q : Q,
          TaskRepository.update_progress task_id progress w
          = (Ok (Some (TaskRepository.set_progress q t)),
             set_tasks (<[task_id := TaskRepository.set_progress q t]> (tasks w)) w)
          /\ (0 <= q <= 1)%Q
          /\ ((0 <= progress <= 1)%Q -> (q == progress)%Q)
          /\ ((progress < 0)%Q -> q = 0%Q)
          /\ ((1 < progress)%Q -> q = 1%Q)).
Proof.
  unfold TaskRepository.update_progress, TaskRepository.session_get,
    TaskRepository.flush. unfold_M. split.
  - intros _ Hnone. rewrite Hnone. reflexivity.
  - intros t Hsome. rewrite Hsome. exists (TaskRepository.clamp progress).
    split; [reflexivity|]. apply clamp_bounds.
Qed.

Lemma update_progress_witness :
  (exists q : Q,
     TaskRepository.update_progress 1 (3 # 2) sample_db
     = (Ok (Some (TaskRepository.set_progress q sample_task)),
        set_tasks (<[1 := TaskRepository.set_progress q sample_task]> (tasks sample_db))
          sample_db)
     /\ q = 1%Q)
  /\ TaskRepository.update_progress 7 (3 # 2) sample_db = (Ok None, sample_db).
Proof.
  split.
  - destruct (update_progress_clamps_to_unit_interval sample_db 1 (3 # 2))
      as [_ Hstored].
    destruct (Hstored sample_task eq_refl) as (q & Hrun & _ & _ & _ & Hhigh).
    exists q. split; [exact Hrun|]. apply Hhigh. reflexivity.
  - destruct (update_progress_clamps_to_unit_interval sample_db 7 (3 # 2))
      as [Habsent _].
    apply Habsent; [unfold sqlite_integer; lia|reflexivity].
Defined.

(** ** TaskRepository.cancel_task *)

(** X18.  [cancel_task] on a stored task, whatever its status (also a task
    that is already completed or failed): the task is stored and returned
    with the status CANCELLED and with the time of the call as its
    completion time, which replaces an earlier one; its start time, type,
    video, creation time, progress, result, error message and retry count
    stay as they are. *)
Theorem cancel_task_stores_cancelled_with_completion_time (w : world)
    (task_id : Z) (t : Task.t) :
  tasks w !! task_id = Some t ->
  let t' :=
    Task.mk (Task.id t) (Task.video_url_id t) (Task.task_type t) CANCELLED
      (Task.created_at t) (Task.started_at t) (Some (clock w (ticks w)))
      (Task.progress t) (Task.result t) (Task.error_message t)
      (Task.retry_count t) in
  TaskRepository.cancel_task task_id w
  = (Ok (Some t'),
     set_tasks (<[task_id := t']> (tasks w)) (set_ticks (S (ticks w)) w)).
Proof.
  intros Hsome t'. unfold TaskRepository.cancel_task,
    TaskRepository.update_task_status, TaskRepository.session_get,
    TaskRepository.flush.
  unfold_M. rewrite Hsome. reflexivity.
Qed.

Lemma cancel_task_witness :
  TaskRepository.cancel_task 1 sample_db
  = (Ok (Some (Task.mk 1 (Some 1) "analysis" CANCELLED noon None
                 (Some (noon + 5000000)) 0%Q None None 0)),
     set_tasks
       {[ 1 := Task.mk 1 (Some 1) "analysis" CANCELLED noon None
                 (Some (noon + 5000000)) 0%Q None None 0 ]}
       (set_ticks 1 sample_db)).
Proof.
  rewrite (cancel_task_stores_cancelled_with_completion_time sample_db 1 sample_task
             eq_refl).
  vm_compute. reflexivity.
Defined.

(** ** delete *)

(** X19.  [delete] of the two repositories: for a stored id it returns True
    and removes that row and no other; for an id that the database can
    hold (a signed 64-bit integer) and that is not stored, it returns
    False and changes nothing.  After a delete the id is not stored, so a
    second delete returns False.  In these cases neither raises. *)
Theorem delete_removes_exactly_that_row (w : world) (id : Z) :
  (sqlite_integer id ->
   video_urls w !! id = None -> VideoRepository.delete id w = (Ok false, w))
  /\ (is_Some (video_urls w !! id) ->
      exists w' : world,
        VideoRepository.delete id w = (Ok true, w')
        /\ video_urls w' !! id = None
        /\ (forall j : Z, j <> id -> video_urls w' !! j = video_urls w !! j)
        /\ tasks w' = tasks w
        /\ VideoRepository.delete id w' = (Ok false, w'))
  /\ (sqlite_integer id ->
      tasks w !! id = None -> TaskRepository.delete id w = (Ok false, w))
  /\ (is_Some (tasks w !! id) ->
      exists w' : world,
        TaskRepository.delete id w = (Ok true, w')
        /\ tasks w' !! id = None
        /\ (forall j : Z, j <> id -> tasks w' !! j = tasks w !! j)
        /\ video_urls w' = video_urls w
        /\ TaskRepository.delete id w' = (Ok false, w')).
Proof.
  unfold VideoRepository.delete, VideoRepository.session_get,
    VideoRepository.flush_delete, TaskRepository.delete,
    TaskRepository.session_get, TaskRepository.flush_delete.
  unfold_M. split; [|split; [|split]].
  - intros _ Hnone. rewrite Hnone. reflexivity.
  - intros [v Hsome]. rewrite Hsome. eexists. split; [reflexivity|]. simpl.
    rewrite lookup_delete_eq. split; [reflexivity|].
    split; [intros j Hj; apply lookup_delete_ne; congruence|].
    split; reflexivity.
  - intros _ Hnone. rewrite Hnone. reflexivity.
  - intros [t Hsome]. rewrite Hsome. eexists. split; [reflexivity|]. simpl.
    rewrite lookup_delete_eq. split; [reflexivity|].
    split; [intros j Hj; apply lookup_delete_ne; congruence|].
    split; reflexivity.
Qed.

Lemma delete_witness :
  (exists w' : world,
     VideoRepository.delete 1 sample_db = (Ok true, w')
     /\ video_urls w' !! 1 = None
     /\ tasks w' !! 1 = Some sample_task
     /\ VideoRepository.delete 1 w' = (Ok false, w'))
  /\ VideoRepository.delete 7 sample_db = (Ok false, sample_db)
  /\ TaskRepository.delete 7 sample_db = (Ok false, sample_db).
Proof.
  split.
  - destruct (delete_removes_exactly_that_row sample_db 1) as (_ & Hvideo & _).
    destruct Hvideo as (w' & Hrun & Hgone & _ & Htasks & Hagain).
    + exists sample_video. reflexivity.
    + exists w'. split; [exact Hrun|]. split; [exact Hgone|].
      split; [rewrite Htasks; reflexivity|exact Hagain].
  - destruct (delete_removes_exactly_that_row sample_db 7)
      as (Hvideo & _ & Htask & _).
    split; [apply Hvideo|apply Htask];
      first [reflexivity | unfold sqlite_integer; lia].
Defined.

(** ** TaskRepository.create_task and the life of a task *)

Section TaskLife.

Variable next_id : gmap Z Task.t -> Z.



End TaskLife.



(** ** TaskRepository.get_by_status and its callers *)

#[local] Instance created_le_trans : Transitive TaskRepository.created_le.
Proof. intros a b c. unfold TaskRepository.created_le. lia. Qed.

#[local] Instance created_le_total : Total TaskRepository.created_le.
Proof. intros a b. unfold TaskRepository.created_le. lia. Qed.

Lemma limited_prefix {A : Type} (limit : option Z) (rows : list A) :
  exists rest : list A,
    rows = (limited limit rows ++ rest)%list
    /\ (truthy_int limit = false -> rest = [])
    /\ (forall n : Z, limit = Some n -> 0 < n ->
        length (limited limit rows) = Nat.min (Z.to_nat n) (length rows)).
Proof.
  unfold limited, sql_limit. destruct limit as [n|]; simpl.
  - destruct (Z.eqb_spec n 0) as [->|Hn]; simpl.
    + exists []. rewrite app_nil_r. split; [reflexivity|]. split; [reflexivity|].
      intros n Hn Hpos. injection Hn as <-. lia.
    + destruct (Z.leb_spec 0 n) as [Hpos|Hneg].
      * exists (drop (Z.to_nat n) rows). rewrite take_drop.
        split; [reflexivity|]. split; [discriminate|].
        intros n' Hn' _. injection Hn' as <-. apply length_take.
      * exists []. rewrite app_nil_r. split; [reflexivity|]. split; [reflexivity|].
        intros n' Hn' Hpos. injection Hn' as <-. lia.
  - exists []. rewrite app_nil_r. split; [reflexivity|]. split; [reflexivity|].
    intros n Hn. discriminate Hn.
Qed.

Section TaskQueries.

(** The rows of the table, in the order in which the database takes
    them. *)
Variable scan : gmap Z Task.t -> list Task.t.

(** X22.  With no limit, or a limit that the database takes as a parameter
    (a signed 64-bit integer), [get_by_status] does not raise and changes
    nothing.  The tasks it returns have the status asked for, and the
    type asked for when a non-empty type is given; they come oldest first
    (by creation time).  With a positive limit [n] it returns [n] tasks
    (all of them when there are fewer), and no task that it leaves out is
    older than one that it returns; without a limit, or with the limit 0,
    it leaves none out.  [get_pending_tasks], [get_failed_tasks] and
    [get_running_tasks] are this query for the statuses PENDING, FAILED
    and RUNNING. *)
Theorem get_by_status_returns_oldest_first (w : world) (status : TaskStatus)
    (task_type : option string) (limit : option Z) :
  (forall n : Z, limit = Some n -> sqlite_integer n) ->
  let matching :=
    filter (fun t => Task.status t = status
                     /\ (truthy task_type = true -> Some (Task.task_type t) = task_type))
      (scan (tasks w)) in
  exists returned rest : list Task.t,
    TaskRepository.get_by_status scan status task_type limit w = (Ok returned, w)
    /\ (returned ++ rest)%list ≡ₚ matching
    /\ StronglySorted TaskRepository.created_le (returned ++ rest)%list
    /\ (forall t t' : Task.t,
          t ∈ returned -> t' ∈ rest -> Task.created_at t <= Task.created_at t')
    /\ (truthy_int limit = false -> rest = [])
    /\ (forall n : Z, limit = Some n -> 0 < n ->
        length returned = Nat.min (Z.to_nat n) (length matching))
    /\ TaskRepository.get_pending_tasks scan task_type limit w
       = TaskRepository.get_by_status scan PENDING task_type limit w
    /\ TaskRepository.get_failed_tasks scan task_type limit w
       = TaskRepository.get_by_status scan FAILED task_type limit w
    /\ TaskRepository.get_running_tasks scan task_type w
       = TaskRepository.get_by_status scan RUNNING task_type None w.
Proof.
  intros _ matching. unfold TaskRepository.get_by_status.
  set (rows := if truthy task_type
               then filter (fun t => Some (Task.task_type t) = task_type)
                      (filter (fun t => Task.status t = status) (scan (tasks w)))
               else filter (fun t => Task.status t = status) (scan (tasks w))).
  assert (Hrows : rows = matching).
  { subst rows matching. destruct (truthy task_type).
    - rewrite list_filter_filter. apply list_filter_iff. intros t. tauto.
    - apply list_filter_iff. intros t. split; [intros H; split; [exact H|]|tauto].
      intros Hbad. discriminate Hbad. }
  set (sorted := merge_sort TaskRepository.created_le rows).
  destruct (limited_prefix limit sorted) as (rest & Hsplit & Hnone & Hlen).
  exists (limited limit sorted), rest.
  assert (Hsorted : StronglySorted TaskRepository.created_le sorted)
    by (apply StronglySorted_merge_sort; apply _).
  split; [reflexivity|]. split; [|split; [|split; [|split; [|split]]]].
  - rewrite <- Hsplit, <- Hrows. apply merge_sort_Permutation.
  - rewrite <- Hsplit. exact Hsorted.
  - intros t t' Ht Ht'. rewrite Hsplit in Hsorted.
    clear -Hsorted Ht Ht'.
    induction (limited limit sorted) as [|x l IH]; [inversion Ht|].
    simpl in Hsorted. apply StronglySorted_inv in Hsorted as [Hl Hall].
    apply elem_of_cons in Ht as [->|Ht].
    + rewrite Forall_forall in Hall. apply Hall. apply elem_of_app. right. exact Ht'.
    + apply IH; assumption.
  - exact Hnone.
  - intros n Hn Hpos. rewrite (Hlen n Hn Hpos). subst sorted.
    rewrite merge_sort_Permutation, Hrows. reflexivity.
  - repeat split; reflexivity.
Qed.

End TaskQueries.

Lemma get_by_status_witness :
  exists returned rest : list Task.t,
    TaskRepository.get_by_status (fun m => (map_to_list m).*2) PENDING None (Some 1)
      tasks_world
    = (Ok returned, tasks_world)
    /\ length returned = 1%nat
    /\ (forall t t' : Task.t,
          t ∈ returned -> t' ∈ rest -> Task.created_at t <= Task.created_at t').
Proof.
  destruct (get_by_status_returns_oldest_first (fun m => (map_to_list m).*2)
              tasks_world PENDING None (Some 1))
    as (returned & rest & Hrun & _ & _ & Holder & _ & Hlen & _).
  - intros n Hn. injection Hn as <-. unfold sqlite_integer. lia.
  - exists returned, rest. split; [exact Hrun|]. split; [|exact Holder].
    rewrite (Hlen 1 eq_refl) by lia. vm_compute. reflexivity.
Defined.

Example get_pending_tasks_oldest_first :
  TaskRepository.get_pending_tasks (fun m => (map_to_list m).*2) None (Some 1)
    tasks_world = (Ok [task_old], tasks_world)
  /\ TaskRepository.get_pending_tasks (fun m => (map_to_list m).*2) None None
       tasks_world = (Ok [task_old; task_new], tasks_world)
  /\ TaskRepository.get_pending_tasks (fun m => (map_to_list m).*2)
       (Some "generation") (Some 0) tasks_world = (Ok [task_new], tasks_world)
  /\ TaskRepository.get_running_tasks (fun m => (map_to_list m).*2) None tasks_world
     = (Ok [task_running], tasks_world).
Proof. repeat split; vm_compute; reflexivity. Qed.

(** ** VideoRepository.update_analysis_data *)

(** [update_analysis_data] on a stored video stores and returns the
    video with the given analysis data and with the time of the call as
    its time of update; its status, error message, retry count and all
    other columns stay as they are, and no other row changes.  For an id
    that the database can hold and that is not stored, it returns None,
    changes nothing and does not read the clock. *)
Lemma update_analysis_data_stores_only_the_payload (w : world)
    (video_url_id : Z) (analysis_data : string) :
  (sqlite_integer video_url_id ->
   video_urls w !! video_url_id = None ->
   VideoRepository.update_analysis_data video_url_id analysis_data w = (Ok None, w))
  /\ (forall v : VideoURL.t,
        video_urls w !! video_url_id = Some v ->
        let v' :=
          VideoURL.mk (VideoURL.id v) (VideoURL.url v) (VideoURL.video_id v)
            (VideoURL.title v) (VideoURL.channel v) (VideoURL.views v)
            (VideoURL.likes v) (VideoURL.duration v) (VideoURL.published_at v)
            (VideoURL.status v) (VideoURL.discovered_at v) (clock w (ticks w))
            (Some analysis_data) (VideoURL.error_message v)
            (VideoURL.retry_count v) in
        VideoRepository.update_analysis_data video_url_id analysis_data w
        = (Ok (Some v'),
           set_video_urls (<[video_url_id := v']> (video_urls w))
             (set_ticks (S (ticks w)) w))).
Proof.
  unfold VideoRepository.update_analysis_data, VideoRepository.session_get,
    VideoRepository.flush. unfold_M. split.
  - intros _ Hnone. rewrite Hnone. reflexivity.
  - intros v Hsome. rewrite Hsome. reflexivity.
Qed.

(** * Further properties of the viral filter *)

Lemma int_of_lower_bound (m : Z) (q : Q) :
  (inject_Z m <= q)%Q -> m <= YouTubeMonitor.int_of q.
Proof.
  unfold YouTubeMonitor.int_of, Float.truncate, Qle, inject_Z. simpl. intros Hle.
  destruct q as [num den]. simpl in *.
  destruct (Z.le_gt_cases 0 num) as [Hpos|Hneg].
  - rewrite Z.quot_div_nonneg by lia. apply Z.div_le_lower_bound; lia.
  - rewrite <- (Z.opp_involutive num) at 1. rewrite Z.quot_opp_l by lia.
    rewrite Z.quot_div_nonneg by lia.
    assert ((- num) / Z.pos den <= - m); [|lia].
    apply Z.div_le_upper_bound; lia.
Qed.

Lemma int_of_upper_bound (m : Z) (q : Q) :
  (0 <= q)%Q -> (q <= inject_Z m)%Q -> 0 <= YouTubeMonitor.int_of q <= m.
Proof.
  unfold YouTubeMonitor.int_of, Float.truncate, Qle, inject_Z. simpl. intros Hpos Hle.
  destruct q as [num den]. simpl in *.
  rewrite Z.quot_div_nonneg by lia. split.
  - apply Z.div_pos; lia.
  - apply Z.div_le_upper_bound; lia.
Qed.

(** An age that passes the window test of the loop lies in the window,
    to the microsecond: the two roundings do not carry an age of
    [max_age_hours] hours or more below [max_age_hours], nor an age that
    is not positive above 0. *)
Lemma hours_since_published_window (now published_at max_age_hours : Z)
    (hours : Float.t) :
  YouTubeMonitor.hours_since_published now published_at = Ok hours ->
  Float.ge_int hours max_age_hours || Float.le_int hours 0 = false ->
  0 < now - published_at < max_age_hours * Datetime.us_per_hour.
Proof.
  intros Hhours Hwin.
  destruct (Datetime.sub now published_at) as [delta|e] eqn:Hsub.
  2:{ unfold YouTubeMonitor.hours_since_published in Hhours. unfold_outcome.
      rewrite Hsub in Hhours. discriminate Hhours. }
  destruct (hours_since_published_facts now published_at delta Hsub)
    as (q & Hq & Hneg & _ & Hreach).
  rewrite Hq in Hhours. injection Hhours as <-.
  apply orb_false_iff in Hwin as [Hold Hfuture]. simpl in Hold, Hfuture.
  apply Qle_bool_gt in Hold, Hfuture. change (inject_Z 0) with 0%Q in Hfuture.
  destruct (sub_ok _ _ _ Hsub) as [-> _].
  assert (Hage : 0 < now - published_at).
  { destruct (Z.lt_ge_cases 0 (now - published_at)) as [H|H]; [exact H|].
    specialize (Hneg ltac:(lia)). exfalso. lra. }
  split; [exact Hage|].
  destruct (Z.lt_ge_cases (now - published_at) (max_age_hours * Datetime.us_per_hour))
    as [H|H]; [exact H|].
  assert (Hmax : 0 < max_age_hours).
  { rewrite Zlt_Qlt. change (inject_Z 0) with 0%Q. lra. }
  specialize (Hreach max_age_hours Hmax H). exfalso. lra.
Qed.

Section ViralFilterMore.

Variable isodate_total_seconds : string -> outcome Q.
Variable isodate_parse_datetime : string -> outcome Z.


(** X23.  A video that is not music and is a Short, with a publication time
    that cannot be read, makes [filter_videos] raise: no candidate is
    returned, also none of the videos that pass the filter. *)
Theorem filter_videos_raises_on_unreadable_publication_time (w : world)
    (videos : list YouTubeMonitor.video) (max_age_hours min_vph : Z)
    (v : YouTubeMonitor.video) (x : exn) :
  v ∈ videos ->
  YouTubeMonitor.categoryId v <> Some "10" ->
  YouTubeMonitor.is_short isodate_total_seconds v 60 = true ->
  isodate_parse_datetime (YouTubeMonitor.publishedAt v) = Raise x ->
  exists x' : exn,
    YouTubeMonitor.filter_videos isodate_total_seconds isodate_parse_datetime
        videos max_age_hours min_vph w
    = (Raise x', set_ticks (S (ticks w)) w).
Proof.
  intros Hin Hcat Hshort Hparse.
  assert (Hloop : exists x' : exn,
            YouTubeMonitor.filter_loop isodate_total_seconds isodate_parse_datetime
                (clock w (ticks w)) max_age_hours min_vph videos = Raise x').
  { induction videos as [|y videos IH]; [inversion Hin|].
    cbn [YouTubeMonitor.filter_loop]. unfold mbind, outcome_bind.
    apply elem_of_cons in Hin as [<-|Hin].
    - rewrite bool_decide_eq_false_2 by exact Hcat. rewrite Hshort. simpl.
      rewrite Hparse. exists x. reflexivity.
    - destruct (IH Hin) as [x' Hx']. rewrite Hx'.
      destruct (bool_decide (YouTubeMonitor.categoryId y = Some "10"));
        [exists x'; reflexivity|].
      destruct (negb (YouTubeMonitor.is_short isodate_total_seconds y 60));
        [exists x'; reflexivity|].
      destruct (isodate_parse_datetime (YouTubeMonitor.publishedAt y)) as [t|e0];
        [|exists e0; reflexivity].
      destruct (YouTubeMonitor.hours_since_published (clock w (ticks w)) t)
        as [hours|e0]; [|exists e0; reflexivity].
      destruct (Float.ge_int hours max_age_hours || Float.le_int hours 0);
        [exists x'; reflexivity|].
      destruct (YouTubeMonitor.views_per_hour (default 0 (YouTubeMonitor.viewCount y))
                  hours) as [vph|e0]; [|exists e0; reflexivity].
      destruct (Float.lt_int vph min_vph); [exists x'; reflexivity|].
      destruct (Float.to_int vph) as [vph_int|e0]; [|exists e0; reflexivity].
      exists x'. reflexivity. }
  destruct Hloop as [x' Hloop]. exists x'.
  unfold YouTubeMonitor.filter_videos. unfold_M. simpl. rewrite Hloop. reflexivity.
Qed.

(** X24.  A video whose duration cannot be read counts as no Short, for every
    bound, and [filter_videos] drops it without an error and without
    reading its publication time: the result is the one for the list
    without the video. *)
Theorem filter_videos_drops_unreadable_duration (w : world)
    (before after : list YouTubeMonitor.video) (max_age_hours min_vph : Z)
    (v : YouTubeMonitor.video) (x : exn) :
  isodate_total_seconds (YouTubeMonitor.duration v) = Raise x ->
  (forall max_duration : Z, YouTubeMonitor.is_short isodate_total_seconds v max_duration = false)
  /\ YouTubeMonitor.filter_videos isodate_total_seconds isodate_parse_datetime
      (before ++ v :: after)%list max_age_hours min_vph w
     = YouTubeMonitor.filter_videos isodate_total_seconds isodate_parse_datetime
         (before ++ after)%list max_age_hours min_vph w.
Proof.
  intros Hdur.
  assert (Hshort : forall max_duration : Z, YouTubeMonitor.is_short isodate_total_seconds v max_duration = false).
  { intros n. unfold YouTubeMonitor.is_short, YouTubeMonitor.parse_duration.
    rewrite Hdur. reflexivity. }
  split; [exact Hshort|].
  unfold YouTubeMonitor.filter_videos. unfold_M. simpl. f_equal.
  induction before as [|y before IH].
  - simpl. rewrite Hshort. simpl.
    destruct (bool_decide (YouTubeMonitor.categoryId v = Some "10")); reflexivity.
  - simpl. rewrite IH. reflexivity.
Qed.

(** X25.  Every record that [filter_videos] returns comes from a video of the
    input that is not music; it holds that video's id, title, channel and
    view count, and the Shorts URL of the id; its views per hour are at
    least [min_vph]; its duration is at most 60 seconds; and it was
    published before the time of the call and less than [max_age_hours]
    hours before it. *)
Theorem filter_videos_records_meet_thresholds (w w' : world)
    (videos : list YouTubeMonitor.video) (max_age_hours min_vph : Z)
    (records : list YouTubeMonitor.video_data) :
  YouTubeMonitor.filter_videos isodate_total_seconds isodate_parse_datetime
      videos max_age_hours min_vph w = (Ok records, w') ->
  forall d : YouTubeMonitor.video_data,
    d ∈ records ->
    exists v : YouTubeMonitor.video,
      v ∈ videos
      /\ YouTubeMonitor.categoryId v <> Some "10"
      /\ YouTubeMonitor.vd_video_id d = YouTubeMonitor.id v
      /\ YouTubeMonitor.vd_title d = YouTubeMonitor.title v
      /\ YouTubeMonitor.vd_channel d = YouTubeMonitor.channelTitle v
      /\ YouTubeMonitor.vd_views d = default 0 (YouTubeMonitor.viewCount v)
      /\ YouTubeMonitor.vd_url d
         = "https://www.youtube.com/shorts/" ++ YouTubeMonitor.id v
      /\ min_vph <= YouTubeMonitor.vd_vph d
      /\ 0 <= YouTubeMonitor.vd_duration d <= 60
      /\ isodate_parse_datetime (YouTubeMonitor.publishedAt v)
         = Ok (YouTubeMonitor.vd_published_at d)
      /\ 0 < clock w (ticks w) - YouTubeMonitor.vd_published_at d
         < max_age_hours * Datetime.us_per_hour.
Proof.
  intros Hrun d Hd.
  unfold YouTubeMonitor.filter_videos in Hrun. unfold_M. simpl in Hrun.
  set (now := clock w (ticks w)) in *.
  assert (Hloop : YouTubeMonitor.filter_loop isodate_total_seconds isodate_parse_datetime
      now max_age_hours min_vph videos = Ok records)
    by (destruct (YouTubeMonitor.filter_loop isodate_total_seconds isodate_parse_datetime
        now max_age_hours min_vph videos);
        [injection Hrun as <- _; reflexivity|discriminate Hrun]).
  clear Hrun. revert records Hloop d Hd.
  induction videos as [|y videos IH]; intros records Hloop d Hd.
  - injection Hloop as <-. inversion Hd.
  - cbn [YouTubeMonitor.filter_loop] in Hloop. unfold mbind, outcome_bind in Hloop.
    assert (Hskip : YouTubeMonitor.filter_loop isodate_total_seconds isodate_parse_datetime
        now max_age_hours min_vph videos = Ok records ->
              exists v : YouTubeMonitor.video,
                v ∈ y :: videos
                /\ YouTubeMonitor.categoryId v <> Some "10"
                /\ YouTubeMonitor.vd_video_id d = YouTubeMonitor.id v
                /\ YouTubeMonitor.vd_title d = YouTubeMonitor.title v
                /\ YouTubeMonitor.vd_channel d = YouTubeMonitor.channelTitle v
                /\ YouTubeMonitor.vd_views d = default 0 (YouTubeMonitor.viewCount v)
                /\ YouTubeMonitor.vd_url d
                   = "https://www.youtube.com/shorts/" ++ YouTubeMonitor.id v
                /\ min_vph <= YouTubeMonitor.vd_vph d
                /\ 0 <= YouTubeMonitor.vd_duration d <= 60
                /\ isodate_parse_datetime (YouTubeMonitor.publishedAt v)
                   = Ok (YouTubeMonitor.vd_published_at d)
                /\ 0 < now - YouTubeMonitor.vd_published_at d
                   < max_age_hours * Datetime.us_per_hour).
    { intros Hrest. destruct (IH records Hrest d Hd) as (v & Hv & Hfacts).
      exists v. split; [right; exact Hv|exact Hfacts]. }
    destruct (bool_decide (YouTubeMonitor.categoryId y = Some "10")) eqn:Hcat;
      [exact (Hskip Hloop)|].
    apply bool_decide_eq_false in Hcat.
    destruct (YouTubeMonitor.is_short isodate_total_seconds y 60) eqn:Hshort;
      simpl in Hloop; [|exact (Hskip Hloop)].
    destruct (isodate_parse_datetime (YouTubeMonitor.publishedAt y)) as [published|e0]
      eqn:Hparse; [|discriminate Hloop].
    destruct (YouTubeMonitor.hours_since_published now published) as [hours|e0]
      eqn:Hhours; [|discriminate Hloop].
    destruct (Float.ge_int hours max_age_hours || Float.le_int hours 0) eqn:Hwin;
      [exact (Hskip Hloop)|].
    pose proof (hours_since_published_window _ _ _ _ Hhours Hwin) as Hage.
    destruct (YouTubeMonitor.views_per_hour (default 0 (YouTubeMonitor.viewCount y))
                hours) as [vph|e0]; [|discriminate Hloop].
    destruct (Float.lt_int vph min_vph) eqn:Hvph; [exact (Hskip Hloop)|].
    destruct vph as [r|negative|]; simpl in Hloop;
      [|discriminate Hloop|discriminate Hloop].
    simpl in Hvph. apply Qltb_ge in Hvph.
    destruct (YouTubeMonitor.filter_loop isodate_total_seconds isodate_parse_datetime
        now max_age_hours min_vph videos) as [rest|e0] eqn:Hrest;
      [|discriminate Hloop].
    injection Hloop as <-. apply elem_of_cons in Hd as [->|Hd].
    + exists y. split; [left|]. split; [exact Hcat|].
      cbn [YouTubeMonitor.vd_video_id YouTubeMonitor.vd_title YouTubeMonitor.vd_channel
           YouTubeMonitor.vd_views YouTubeMonitor.vd_url YouTubeMonitor.vd_vph
           YouTubeMonitor.vd_duration YouTubeMonitor.vd_published_at].
      do 5 (split; [reflexivity|]).
      split; [apply (int_of_lower_bound min_vph r Hvph)|].
      split.
      { apply is_short_spec in Hshort as [Hlo Hhi].
        apply int_of_upper_bound; [apply Qlt_le_weak; exact Hlo|exact Hhi]. }
      split; [exact Hparse|exact Hage].
    + destruct (IH rest eq_refl d Hd) as (v & Hv & Hfacts).
      exists v. split; [right; exact Hv|exact Hfacts].
Qed.

End ViralFilterMore.

Lemma filter_videos_unreadable_publication_time_witness :
  exists x' : exn,
    YouTubeMonitor.filter_videos Isodate.total_seconds Isodate.parse_datetime
      [video_45s; video_bad_date; video_60s] 48 10000
      (empty_world (stepping_clock noon 1000000))
    = (Raise x', set_ticks 1 (empty_world (stepping_clock noon 1000000))).
Proof.
  apply (filter_videos_raises_on_unreadable_publication_time Isodate.total_seconds
           Isodate.parse_datetime (empty_world (stepping_clock noon 1000000))
           [video_45s; video_bad_date; video_60s] 48 10000 video_bad_date ValueError).
  - right; left.
  - intros Hbad. discriminate Hbad.
  - vm_compute. reflexivity.
  - vm_compute. reflexivity.
Defined.

Lemma filter_videos_unreadable_duration_witness :
  YouTubeMonitor.is_short Isodate.total_seconds video_bad_duration 60 = false
  /\ YouTubeMonitor.filter_videos Isodate.total_seconds Isodate.parse_datetime
       [video_45s; video_bad_duration; video_60s] 48 10000
       (empty_world (stepping_clock noon 1000000))
     = YouTubeMonitor.filter_videos Isodate.total_seconds Isodate.parse_datetime
         [video_45s; video_60s] 48 10000
         (empty_world (stepping_clock noon 1000000)).
Proof.
  destruct (filter_videos_drops_unreadable_duration Isodate.total_seconds
              Isodate.parse_datetime (empty_world (stepping_clock noon 1000000))
              [video_45s] [video_60s] 48 10000 video_bad_duration ValueError)
    as [Hshort Hsame].
  - vm_compute. reflexivity.
  - split; [apply Hshort|exact Hsame].
Defined.

Lemma filter_videos_records_witness :
  exists (records : list YouTubeMonitor.video_data) (w' : world),
    YouTubeMonitor.filter_videos Isodate.total_seconds Isodate.parse_datetime
      [video_45s; video_90s; video_60s; video_slow] 48 10000
      (empty_world (stepping_clock noon 1000000))
    = (Ok records, w')
    /\ length records = 2%nat
    /\ forall d : YouTubeMonitor.video_data,
         d ∈ records ->
         10000 <= YouTubeMonitor.vd_vph d /\ 0 <= YouTubeMonitor.vd_duration d <= 60.
Proof.
  assert (Hrun :
    YouTubeMonitor.filter_videos Isodate.total_seconds Isodate.parse_datetime
      [video_45s; video_90s; video_60s; video_slow] 48 10000
      (empty_world (stepping_clock noon 1000000))
    = (Ok [YouTubeMonitor.mk_video_data "v45" "title v45" "channel" 20000 10 10000
             (noon - 2 * Datetime.us_per_hour) 45 "https://www.youtube.com/shorts/v45";
           YouTubeMonitor.mk_video_data "v60" "title v60" "channel" 20000 10 10000
             (noon - 2 * Datetime.us_per_hour) 60 "https://www.youtube.com/shorts/v60"],
       set_ticks 1 (empty_world (stepping_clock noon 1000000))))
    by (vm_compute; reflexivity).
  eexists _, _. split; [exact Hrun|]. split; [reflexivity|].
  intros d Hd.
  destruct (filter_videos_records_meet_thresholds Isodate.total_seconds
              Isodate.parse_datetime _ _ _ _ _ _ Hrun d Hd)
    as (v & _ & _ & _ & _ & _ & _ & _ & Hvph & Hdur & _).
  split; [exact Hvph|exact Hdur].
Defined.

(** * The callers of the repositories *)

Ltac unfold_ME :=
  unfold mbind, mret, ME_bind, ME_ret, M_bind, M_ret, run, fail, try_except,
    with_session, lift, raise, utcnow in *.

Lemma video_update_analysis_data_stored (w : world) (i : Z) (v : VideoURL.t)
    (data : string) :
  video_urls w !! i = Some v ->
  VideoRepository.update_analysis_data i data w
  = (Ok (Some (VideoRepository.set_updated_at (clock w (ticks w))
                 (VideoRepository.set_analysis_data (Some data) v))),
     set_video_urls
       (<[i := VideoRepository.set_updated_at (clock w (ticks w))
                 (VideoRepository.set_analysis_data (Some data) v)]> (video_urls w))
       (set_ticks (S (ticks w)) w)).
Proof.
  intros Hsome. unfold VideoRepository.update_analysis_data,
    VideoRepository.session_get, VideoRepository.flush.
  unfold_M. rewrite Hsome. reflexivity.
Qed.

Section SceneAnalysis.

Variable analyze_video_scenes : string -> option string -> option Z -> completion string.
Variable set_item : string -> string -> string -> string.
Variable str : error -> string.

(** ** analyze_video_by_id *)

(** X26.  [analyze_video_by_id] for an id that the database can hold (a
    signed 64-bit integer) and that is not stored raises
    [SceneAnalysisError] and changes nothing.  For a stored video whose
    analysis raises, it raises the same exception, and the table is as it
    was before the call: the status ANALYZING that the call wrote first,
    and the status FAILED and the error message that its handler wrote,
    are rolled back with the session, so the row keeps the status it
    had. *)
Theorem analyze_video_by_id_failure_is_rolled_back (w : world) (video_url_id : Z) :
  (sqlite_integer video_url_id ->
   video_urls w !! video_url_id = None ->
   exists w' : world,
     SceneAnalyzer.analyze_video_by_id analyze_video_scenes set_item str video_url_id w
     = (Failed SceneAnalysisError, w')
     /\ video_urls w' = video_urls w /\ ticks w' = ticks w)
  /\ (forall (v : VideoURL.t) (e : error),
        video_urls w !! video_url_id = Some v ->
        analyze_video_scenes (VideoURL.url v) (VideoURL.title v) (VideoURL.duration v)
        = Failed e ->
        exists w' : world,
          SceneAnalyzer.analyze_video_by_id analyze_video_scenes set_item str
            video_url_id w = (Failed e, w')
          /\ video_urls w' = video_urls w
          /\ video_urls w' !! video_url_id = Some v
          /\ ticks w' = S (S (ticks w))).
Proof.
  split.
  - intros _ Hnone. unfold SceneAnalyzer.analyze_video_by_id, VideoRepository.get_by_id,
      VideoRepository.session_get. unfold_ME. rewrite Hnone.
    eexists. split; [reflexivity|]. split; reflexivity.
  - intros v e Hsome Hfail.
    unfold SceneAnalyzer.analyze_video_by_id, VideoRepository.get_by_id,
      VideoRepository.session_get. unfold_ME. rewrite Hsome.
    rewrite (video_update_status_stored w video_url_id v VS_ANALYZING None Hsome).
    cbn zeta. rewrite Hfail.
    set (v1 := (if truthy None then VideoRepository.set_error_message None
                else fun x => x)
                 (VideoRepository.set_updated_at (clock w (ticks w))
                    (VideoRepository.set_status VS_ANALYZING v))).
    set (w1 := set_video_urls (<[video_url_id := v1]> (video_urls w))
                 (set_ticks (S (ticks w)) w)).
    rewrite (video_update_status_stored w1 video_url_id v1 VS_FAILED (Some (str e)))
      by (subst w1; simpl; apply lookup_insert_eq).
    cbn zeta.
    eexists. split; [reflexivity|]. cbn.
    split; [reflexivity|]. split; [exact Hsome|reflexivity].
Qed.

(** X27.  [analyze_video_by_id] for a stored video whose analysis returns:
    the call returns the analysis with the keys analyzed_at (the time
    read after the analysis) and video_id set, and the row is stored with
    this as its analysis data, with the status ANALYZED and with the
    fourth reading of the clock as its time of update; its error message,
    its retry count and the other columns are as before, and no other
    row changes. *)
Theorem analyze_video_by_id_success_stores_analysis (w : world) (video_url_id : Z)
    (v : VideoURL.t) (analysis : string) :
  video_urls w !! video_url_id = Some v ->
  analyze_video_scenes (VideoURL.url v) (VideoURL.title v) (VideoURL.duration v)
  = Returned analysis ->
  let stored :=
    set_item
      (set_item analysis "analyzed_at" (Datetime.isoformat (clock w (S (ticks w)))))
      "video_id" (VideoURL.video_id v) in
  exists w' : world,
    SceneAnalyzer.analyze_video_by_id analyze_video_scenes set_item str video_url_id w
    = (Returned stored, w')
    /\ video_urls w' !! video_url_id
       = Some (VideoURL.mk (VideoURL.id v) (VideoURL.url v) (VideoURL.video_id v)
                 (VideoURL.title v) (VideoURL.channel v) (VideoURL.views v)
                 (VideoURL.likes v) (VideoURL.duration v) (VideoURL.published_at v)
                 VS_ANALYZED (VideoURL.discovered_at v)
                 (clock w (S (S (S (ticks w))))) (Some stored)
                 (VideoURL.error_message v) (VideoURL.retry_count v))
    /\ (forall j : Z, j <> video_url_id -> video_urls w' !! j = video_urls w !! j)
    /\ ticks w' = S (S (S (S (ticks w)))).
Proof.
  intros Hsome Hdone stored.
  unfold SceneAnalyzer.analyze_video_by_id, VideoRepository.get_by_id,
    VideoRepository.session_get. unfold_ME. rewrite Hsome.
  rewrite (video_update_status_stored w video_url_id v VS_ANALYZING None Hsome).
  cbn zeta. rewrite Hdone.
  set (v1 := (if truthy None then VideoRepository.set_error_message None
              else fun x => x)
               (VideoRepository.set_updated_at (clock w (ticks w))
                  (VideoRepository.set_status VS_ANALYZING v))).
  set (w1 := set_video_urls (<[video_url_id := v1]> (video_urls w))
               (set_ticks (S (ticks w)) w)).
  cbn [clock ticks set_ticks set_video_urls fst snd].
  set (w2 := set_ticks (S (ticks w1)) w1).
  assert (H2 : video_urls w2 !! video_url_id = Some v1)
    by (subst w2 w1; simpl; apply lookup_insert_eq).
  change (clock w1 (ticks w1)) with (clock w (S (ticks w))). fold stored.
  rewrite (video_update_analysis_data_stored w2 video_url_id v1 stored H2).
  set (v2 := VideoRepository.set_updated_at (clock w2 (ticks w2))
               (VideoRepository.set_analysis_data (Some stored) v1)).
  set (w3 := set_video_urls (<[video_url_id := v2]> (video_urls w2))
               (set_ticks (S (ticks w2)) w2)).
  rewrite (video_update_status_stored w3 video_url_id v2 VS_ANALYZED None)
    by (subst w3; simpl; apply lookup_insert_eq).
  cbn zeta.
  eexists. split; [reflexivity|]. cbn [video_urls set_video_urls set_ticks ticks].
  split; [rewrite lookup_insert_eq; reflexivity|].
  split; [|reflexivity].
  intros j Hj. rewrite lookup_insert_ne by congruence.
  subst w3 w2 w1. cbn [video_urls set_video_urls set_ticks].
  rewrite !lookup_insert_ne by congruence. reflexivity.
Qed.

End SceneAnalysis.

Lemma analyze_video_by_id_success_witness :
  exists w' : world,
    SceneAnalyzer.analyze_video_by_id
      (fun _ _ _ => Returned "scenes") (fun d k v => d ++ ";" ++ k ++ "=" ++ v)
      (fun _ => "failed") 1 sample_db
    = (Returned "scenes;analyzed_at=2024-01-01T12:00:05.000001;video_id=abc", w')
    /\ (VideoURL.status <$> video_urls w' !! 1) = Some VS_ANALYZED
    /\ (VideoURL.analysis_data <$> video_urls w' !! 1)
       = Some (Some "scenes;analyzed_at=2024-01-01T12:00:05.000001;video_id=abc").
Proof.
  destruct (analyze_video_by_id_success_stores_analysis
              (fun _ _ _ => Returned "scenes") (fun d k v => d ++ ";" ++ k ++ "=" ++ v)
              (fun _ => "failed") sample_db 1 sample_video "scenes" eq_refl eq_refl)
    as (w' & Hrun & Hrow & _).
  exists w'. split; [rewrite Hrun; vm_compute; reflexivity|].
  rewrite Hrow. split; [reflexivity|vm_compute; reflexivity].
Defined.

Lemma analyze_video_by_id_failure_witness :
  (exists w' : world,
     SceneAnalyzer.analyze_video_by_id
       (fun _ _ _ => Failed (External "GeminiAPIError"))
       (fun d k v => d ++ ";" ++ k ++ "=" ++ v) (fun _ => "quota") 1 pending_db
     = (Failed (External "GeminiAPIError"), w')
     /\ (VideoURL.status <$> video_urls w' !! 1) = Some VS_PENDING
     /\ (VideoURL.error_message <$> video_urls w' !! 1) = Some None)
  /\ (exists w' : world,
        SceneAnalyzer.analyze_video_by_id
          (fun _ _ _ => Failed (External "GeminiAPIError"))
          (fun d k v => d ++ ";" ++ k ++ "=" ++ v) (fun _ => "quota") 7 pending_db
        = (Failed SceneAnalysisError, w')
        /\ video_urls w' = video_urls pending_db).
Proof.
  split.
  - destruct (analyze_video_by_id_failure_is_rolled_back
                (fun _ _ _ => Failed (External "GeminiAPIError"))
                (fun d k v => d ++ ";" ++ k ++ "=" ++ v) (fun _ => "quota")
                pending_db 1) as [_ Hfail].
    destruct (Hfail (VideoRepository.set_status VS_PENDING sample_video)
                (External "GeminiAPIError") eq_refl eq_refl)
      as (w' & Hrun & _ & Hrow & _).
    exists w'. split; [exact Hrun|]. rewrite Hrow. split; reflexivity.
  - destruct (analyze_video_by_id_failure_is_rolled_back
                (fun _ _ _ => Failed (External "GeminiAPIError"))
                (fun d k v => d ++ ";" ++ k ++ "=" ++ v) (fun _ => "quota")
                pending_db 7) as [Habsent _].
    destruct Habsent as (w' & Hrun & Hsame & _).
    + unfold sqlite_integer. lia.
    + reflexivity.
    + exists w'. split; [exact Hrun|exact Hsame].
Defined.

(** ** discover_and_save *)

Lemma append_inj_l (p a b : string) : (p ++ a = p ++ b)%string -> a = b.
Proof.
  induction p as [|c p IH]; simpl; intros H; [exact H|].
  injection H as H. apply IH. exact H.
Qed.

Lemma exists_by_video_id_spec (w : world) (video_id : string) :
  exists b : bool,
    VideoRepository.exists_by_video_id video_id w = (Ok b, w)
    /\ (b = true <-> stored_video_id (video_urls w) video_id).
Proof.
  eexists. split; [reflexivity|].
  rewrite bool_decide_eq_true, map_Exists_lookup. reflexivity.
Qed.

Section AddUrl.

Variable next_id : gmap Z VideoURL.t -> Z.

Lemma add_url_run (w : world) (url video_id : string) (title channel : option string)
    (views likes duration published_at : option Z) :
  (forall (i : Z) (v : VideoURL.t), video_urls w !! i = Some v -> VideoURL.url v <> url) ->
  let row :=
    VideoURL.mk (next_id (video_urls w)) url video_id title channel views likes
      duration published_at VS_PENDING (clock w (ticks w)) (clock w (S (ticks w)))
      None None 0 in
  VideoRepository.add_url next_id url video_id title channel views likes duration
    published_at w
  = (Returned row,
     set_video_urls (<[next_id (video_urls w) := row]> (video_urls w))
       (set_ticks (S (S (ticks w))) w)).
Proof.
  intros Hfree row. unfold VideoRepository.add_url, VideoRepository.flush.
  unfold_ME. cbn [video_urls set_ticks clock ticks].
  rewrite bool_decide_eq_false_2; [reflexivity|].
  rewrite map_Exists_lookup. intros (i & v & Hv & Hurl). exact (Hfree i v Hv Hurl).
Qed.

Lemma add_url_taken (w : world) (url video_id : string) (title channel : option string)
    (views likes duration published_at : option Z) (i : Z) (v : VideoURL.t) :
  video_urls w !! i = Some v -> VideoURL.url v = url ->
  VideoRepository.add_url next_id url video_id title channel views likes duration
    published_at w
  = (Failed IntegrityError, set_ticks (S (S (ticks w))) w).
Proof.
  intros Hv Hurl. unfold VideoRepository.add_url. unfold_ME.
  cbn [video_urls set_ticks clock ticks].
  rewrite bool_decide_eq_true_2; [reflexivity|].
  rewrite map_Exists_lookup. exists i, v. split; assumption.
Qed.

End AddUrl.

Section Discovery.

Variable isodate_total_seconds : string -> outcome Q.
Variable isodate_parse_datetime : string -> outcome Z.
Variable get_most_popular_videos : string -> list YouTubeMonitor.video.
Variable next_id : gmap Z VideoURL.t -> Z.

Hypothesis next_id_fresh : forall m : gmap Z VideoURL.t, m !! next_id m = None.

Lemma stored_video_id_mono (m m' : gmap Z VideoURL.t) (s : string) :
  m ⊆ m' -> stored_video_id m s -> stored_video_id m' s.
Proof.
  intros Hsub (i & v & Hv & Hs). exists i, v. split; [|exact Hs].
  apply (lookup_weaken m m' i v Hv Hsub).
Qed.

Lemma save_loop_spec (records : list YouTubeMonitor.video_data) (w : world) :
  canonical_urls (video_urls w) ->
  (forall d : YouTubeMonitor.video_data,
     d ∈ records ->
     YouTubeMonitor.vd_url d = shorts_url (YouTubeMonitor.vd_video_id d)) ->
  exists (n : Z) (w' : world),
    YouTubeMonitor.save_loop next_id records w = (Returned n, w')
    /\ canonical_urls (video_urls w')
    /\ video_urls w ⊆ video_urls w'
    /\ (forall d : YouTubeMonitor.video_data,
          d ∈ records ->
          stored_video_id (video_urls w') (YouTubeMonitor.vd_video_id d))
    /\ (forall (i : Z) (v : VideoURL.t),
          video_urls w' !! i = Some v -> video_urls w !! i = None ->
          VideoURL.status v = VS_PENDING
          /\ ~ stored_video_id (video_urls w) (VideoURL.video_id v)
          /\ exists d : YouTubeMonitor.video_data,
               d ∈ records /\ VideoURL.video_id v = YouTubeMonitor.vd_video_id d)
    /\ (distinct_video_ids (video_urls w) -> distinct_video_ids (video_urls w'))
    /\ Z.of_nat (size (video_urls w')) = Z.of_nat (size (video_urls w)) + n
    /\ 0 <= n
    /\ tasks w' = tasks w /\ queue_file w' = queue_file w.
Proof.
  revert w. induction records as [|d rest IH]; intros w Hcan Hurls.
  - exists 0, w. split; [reflexivity|]. split; [exact Hcan|].
    split; [reflexivity|]. split; [intros d Hd; inversion Hd|].
    split; [intros i v Hv Hnone; congruence|]. split; [auto|].
    split; [lia|]. split; [lia|]. split; reflexivity.
  - destruct (exists_by_video_id_spec w (YouTubeMonitor.vd_video_id d))
      as (known & Hknown & Hstored).
    assert (Hrest : forall d0 : YouTubeMonitor.video_data,
              d0 ∈ rest ->
              YouTubeMonitor.vd_url d0 = shorts_url (YouTubeMonitor.vd_video_id d0))
      by (intros d0 Hd0; apply Hurls; right; exact Hd0).
    cbn [YouTubeMonitor.save_loop]. unfold mbind at 1. unfold ME_bind at 1.
    unfold run at 1. rewrite Hknown. destruct known.
    + (* the video is known: nothing is added *)
      destruct (IH w Hcan Hrest)
        as (n & w' & Hrun & Hcan' & Hsub & Hall & Hnew & Hdist & Hsize & Hn & Ht & Hq).
      exists (0 + n), w'. unfold_ME. rewrite Hrun.
      split; [reflexivity|]. split; [exact Hcan'|]. split; [exact Hsub|].
      split.
      { intros d0 Hd0. apply elem_of_cons in Hd0 as [->|Hd0]; [|apply Hall; exact Hd0].
        apply (stored_video_id_mono _ _ _ Hsub). apply Hstored. reflexivity. }
      split.
      { intros i v Hv Hnone. destruct (Hnew i v Hv Hnone) as (Hst & Hno & d0 & Hd0 & Hid).
        split; [exact Hst|]. split; [exact Hno|]. exists d0. split; [right; exact Hd0|exact Hid]. }
      split; [exact Hdist|]. split; [lia|]. split; [lia|]. split; assumption.
    + (* the video is new: one row is added *)
      assert (Hunknown : ~ stored_video_id (video_urls w) (YouTubeMonitor.vd_video_id d)).
      { intros Hs. apply Hstored in Hs. discriminate Hs. }
      assert (Hfree : forall (i : Z) (v : VideoURL.t),
                video_urls w !! i = Some v -> VideoURL.url v <> YouTubeMonitor.vd_url d).
      { intros i v Hv Hurl. apply Hunknown. exists i, v. split; [exact Hv|].
        rewrite (Hcan i v Hv), (Hurls d) in Hurl by left.
        apply (append_inj_l _ _ _ Hurl). }
      unfold mbind at 1. unfold ME_bind at 1. unfold mbind at 1. unfold ME_bind at 1.
      rewrite (add_url_run next_id w _ _ _ _ _ _ _ _ Hfree).
      set (row := VideoURL.mk _ _ _ _ _ _ _ _ _ _ _ _ _ _ _).
      set (w1 := set_video_urls _ _).
      assert (Hk : video_urls w !! next_id (video_urls w) = None) by apply next_id_fresh.
      assert (Hsub1 : video_urls w ⊆ video_urls w1)
        by (subst w1; simpl; apply insert_subseteq; exact Hk).
      assert (Hcan1 : canonical_urls (video_urls w1)).
      { intros i v Hv. subst w1. simpl in Hv.
        apply lookup_insert_Some in Hv as [[<- <-]|[Hne Hv]].
        - subst row. simpl. apply Hurls. left.
        - apply (Hcan i v Hv). }
      destruct (IH w1 Hcan1 Hrest)
        as (n & w' & Hrun & Hcan' & Hsub & Hall & Hnew & Hdist & Hsize & Hn & Ht & Hq).
      exists (1 + n), w'. unfold_ME. rewrite Hrun.
      split; [reflexivity|]. split; [exact Hcan'|].
      split; [transitivity (video_urls w1); assumption|].
      split.
      { intros d0 Hd0. apply elem_of_cons in Hd0 as [->|Hd0]; [|apply Hall; exact Hd0].
        apply (stored_video_id_mono _ _ _ Hsub). exists (next_id (video_urls w)), row.
        split; [subst w1; simpl; apply lookup_insert_eq|reflexivity]. }
      split.
      { intros i v Hv Hnone.
        destruct (video_urls w1 !! i) as [v0|] eqn:Hv1.
        - assert (Hsame : v = v0).
          { pose proof (lookup_weaken _ _ i v0 Hv1 Hsub) as Hv'. congruence. }
          subst v0. subst w1. simpl in Hv1.
          apply lookup_insert_Some in Hv1 as [[<- <-]|[Hne Hv1]]; [|congruence].
          split; [reflexivity|]. split; [exact Hunknown|].
          exists d. split; [left|reflexivity].
        - destruct (Hnew i v Hv Hv1) as (Hst & Hno & d0 & Hd0 & Hid).
          split; [exact Hst|]. split.
          + intros Hs. apply Hno. apply (stored_video_id_mono _ _ _ Hsub1 Hs).
          + exists d0. split; [right; exact Hd0|exact Hid]. }
      split.
      { intros Hd. apply Hdist. intros i j v v' Hi Hj Hid. subst w1. simpl in Hi, Hj.
        apply lookup_insert_Some in Hi as [[<- <-]|[Hni Hi]];
          apply lookup_insert_Some in Hj as [[<- <-]|[Hnj Hj]].
        - reflexivity.
        - exfalso. apply Hunknown. exists j, v'. split; [exact Hj|].
          rewrite <- Hid. reflexivity.
        - exfalso. apply Hunknown. exists i, v. split; [exact Hi|].
          rewrite Hid. reflexivity.
        - apply (Hd i j v v' Hi Hj Hid). }
      split.
      { rewrite Hsize. subst w1. simpl. rewrite map_size_insert_None by exact Hk. lia. }
      split; [lia|]. split; [rewrite Ht|rewrite Hq]; reflexivity.
Qed.

Lemma vph_sort_returns (records : list YouTubeMonitor.video_data) :
  exists sorted : list YouTubeMonitor.video_data,
    list_sort YouTubeMonitor.vd_vph YouTubeMonitor.vph_gt records = Ok sorted
    /\ sorted ≡ₚ records.
Proof.
  destruct (list_sort_total YouTubeMonitor.vd_vph YouTubeMonitor.vph_gt records)
    as [sorted Hsort].
  - intros x y _ _. eexists. reflexivity.
  - exists sorted. split; [exact Hsort|]. apply (list_sort_perm _ _ _ _ Hsort).
Qed.

(** X28.  Let the database assign fresh keys and every stored row hold
    the Shorts URL of its YouTube id; let the time of the call be an
    instant that [datetime] represents, the fetched videos that the
    filter examines (those that are not music and are Shorts) be
    readable, and the view and like counts of the fetched videos be
    integers that the database stores.  Then [discover_and_save] returns,
    and the number it returns is the number of rows by which the table
    has grown.  Every row that was stored is stored unchanged.  Every
    fetched video that the filter accepts, by the floats that the code
    computes, has its YouTube id stored afterwards.  Every new row has
    the status PENDING and the id of such a video, an id that was not
    stored before; so no id is stored twice if none was: videos that are
    known already, and videos that come twice in the answer, are
    skipped. *)
Theorem discover_and_save_stores_each_new_video_once (w : world)
    (region_code : string) (max_age_hours min_vph : Z) :
  canonical_urls (video_urls w) ->
  Datetime.representable (clock w (ticks w)) ->
  (forall v : YouTubeMonitor.video,
     v ∈ get_most_popular_videos region_code ->
     (examined isodate_total_seconds v -> readable isodate_parse_datetime v)
     /\ sqlite_integer (default 0 (YouTubeMonitor.viewCount v))
     /\ sqlite_integer (default 0 (YouTubeMonitor.likeCount v))) ->
  exists (new_count : Z) (w' : world),
    YouTubeMonitor.discover_and_save isodate_total_seconds isodate_parse_datetime
      get_most_popular_videos next_id region_code max_age_hours min_vph w
    = (Returned new_count, w')
    /\ video_urls w ⊆ video_urls w'
    /\ Z.of_nat (size (video_urls w')) = Z.of_nat (size (video_urls w)) + new_count
    /\ (forall v : YouTubeMonitor.video,
          v ∈ get_most_popular_videos region_code ->
          accepted isodate_total_seconds isodate_parse_datetime (clock w (ticks w))
            max_age_hours min_vph v ->
          stored_video_id (video_urls w') (YouTubeMonitor.id v))
    /\ (forall (i : Z) (row : VideoURL.t),
          video_urls w' !! i = Some row -> video_urls w !! i = None ->
          VideoURL.status row = VS_PENDING
          /\ ~ stored_video_id (video_urls w) (VideoURL.video_id row)
          /\ exists v : YouTubeMonitor.video,
               v ∈ get_most_popular_videos region_code
               /\ accepted isodate_total_seconds isodate_parse_datetime
                    (clock w (ticks w)) max_age_hours min_vph v
               /\ VideoURL.video_id row = YouTubeMonitor.id v)
    /\ (distinct_video_ids (video_urls w) -> distinct_video_ids (video_urls w'))
    /\ canonical_urls (video_urls w').
Proof.
  intros Hcan Hnow Hraw.
  set (raw := get_most_popular_videos region_code) in *.
  set (now := clock w (ticks w)) in *.
  set (kept := List.filter (acceptedb isodate_total_seconds isodate_parse_datetime now
                              max_age_hours min_vph) raw).
  set (records := map (video_data_of isodate_total_seconds isodate_parse_datetime now) kept).
  assert (Hfilter : YouTubeMonitor.filter_loop isodate_total_seconds
                      isodate_parse_datetime now max_age_hours min_vph raw = Ok records).
  { destruct (filter_loop_total isodate_total_seconds isodate_parse_datetime now
                max_age_hours min_vph raw Hnow) as [records0 Hloop].
    - intros v Hv. apply (Hraw v Hv).
    - rewrite Hloop. f_equal. apply filter_loop_returns. exact Hloop. }
  destruct (vph_sort_returns records) as (sorted & Hsort & Hperm).
  assert (Hin : forall d : YouTubeMonitor.video_data,
            d ∈ sorted <->
            exists v : YouTubeMonitor.video,
              v ∈ raw
              /\ accepted isodate_total_seconds isodate_parse_datetime now
                   max_age_hours min_vph v
              /\ d = video_data_of isodate_total_seconds isodate_parse_datetime now v).
  { intros d. rewrite Hperm. subst records. rewrite list_elem_of_fmap. split.
    - intros (v & -> & Hv). exists v. subst kept.
      apply list_elem_of_In, List.filter_In in Hv as [Hv Hacc].
      split; [apply list_elem_of_In; exact Hv|].
      split; [apply acceptedb_spec; exact Hacc|reflexivity].
    - intros (v & Hv & Hacc & ->). exists v. split; [reflexivity|].
      subst kept. apply list_elem_of_In, List.filter_In.
      split; [apply list_elem_of_In; exact Hv|apply acceptedb_spec; exact Hacc]. }
  set (w1 := set_ticks (S (ticks w)) w).
  destruct (save_loop_spec sorted w1) as
    (n & w' & Hrun & Hcan' & Hsub & Hall & Hnew & Hdist & Hsize & Hn & Ht & Hq).
  { exact Hcan. }
  { intros d Hd. apply Hin in Hd as (v & _ & _ & ->). reflexivity. }
  exists n, w'. split.
  { unfold YouTubeMonitor.discover_and_save, YouTubeMonitor.filter_videos.
    unfold_ME. cbn [fst snd]. fold raw now. rewrite Hfilter. fold w1. rewrite Hsort.
    rewrite Hrun. reflexivity. }
  split; [exact Hsub|]. split; [exact Hsize|]. split.
  { intros v Hv Hacc.
    apply (Hall (video_data_of isodate_total_seconds isodate_parse_datetime now v)).
    apply Hin. exists v. split; [exact Hv|]. split; [exact Hacc|reflexivity]. }
  split.
  { intros i row Hrow Hnone. destruct (Hnew i row Hrow Hnone) as (Hst & Hno & d & Hd & Hid).
    split; [exact Hst|]. split; [exact Hno|].
    apply Hin in Hd as (v & Hv & Hacc & ->). exists v.
    split; [exact Hv|]. split; [exact Hacc|exact Hid]. }
  split; [exact Hdist|exact Hcan'].
Qed.

End Discovery.

Lemma foldr_max_ge (l : list Z) (k : Z) : k ∈ l -> k <= foldr Z.max 0 l.
Proof.
  induction l as [|x l IH]; intros Hk; [inversion Hk|].
  simpl. apply elem_of_cons in Hk as [->|Hk]; [lia|]. specialize (IH Hk). lia.
Qed.

Lemma sqlite_rowid_fresh {A : Type} (m : gmap Z A) : m !! sqlite_rowid m = None.
Proof.
  destruct (m !! sqlite_rowid m) as [a|] eqn:Hm; [|reflexivity].
  exfalso. apply elem_of_map_to_list in Hm.
  assert (Hk : sqlite_rowid m ∈ (map_to_list m).*1).
  { apply list_elem_of_fmap. exists (sqlite_rowid m, a). split; [reflexivity|exact Hm]. }
  apply foldr_max_ge in Hk. unfold sqlite_rowid in Hk at 1. lia.
Qed.

Section DiscoveryAtomic.

Variable isodate_total_seconds : string -> outcome Q.
Variable isodate_parse_datetime : string -> outcome Z.
Variable get_most_popular_videos : string -> list YouTubeMonitor.video.
Variable next_id : gmap Z VideoURL.t -> Z.

(** X29.  When [discover_and_save] raises (the filter, or an INSERT that the
    unique URL refuses), the tables are as before the call: the rows that
    the loop had added are rolled back with the session. *)
Theorem discover_and_save_rolls_back_when_it_raises (w w' : world)
    (region_code : string) (max_age_hours min_vph : Z) (e : error) :
  YouTubeMonitor.discover_and_save isodate_total_seconds isodate_parse_datetime
    get_most_popular_videos next_id region_code max_age_hours min_vph w
  = (Failed e, w') ->
  video_urls w' = video_urls w /\ tasks w' = tasks w
  /\ publish_records w' = publish_records w.
Proof.
  unfold YouTubeMonitor.discover_and_save, YouTubeMonitor.filter_videos.
  unfold_ME. cbn [fst snd].
  destruct (YouTubeMonitor.filter_loop isodate_total_seconds isodate_parse_datetime
              (clock w (ticks w)) max_age_hours min_vph
              (get_most_popular_videos region_code)) as [records|x].
  - destruct (list_sort YouTubeMonitor.vd_vph YouTubeMonitor.vph_gt records)
      as [sorted|x].
    + destruct (YouTubeMonitor.save_loop next_id sorted (set_ticks (S (ticks w)) w))
        as [[n|e'] w2]; intros Hrun; [discriminate Hrun|].
      injection Hrun as _ <-. repeat split.
    + intros Hrun. injection Hrun as _ <-. repeat split.
  - intros Hrun. injection Hrun as _ <-. repeat split.
Qed.

End DiscoveryAtomic.

Lemma discover_and_save_rollback_witness :
  exists w' : world,
    YouTubeMonitor.discover_and_save Isodate.total_seconds Isodate.parse_datetime
      popular_now sqlite_rowid "US" 48 5000 clash_world
    = (Failed IntegrityError, w')
    /\ video_urls w' = video_urls clash_world.
Proof.
  assert (Hrun : exists w' : world,
    YouTubeMonitor.discover_and_save Isodate.total_seconds Isodate.parse_datetime
      popular_now sqlite_rowid "US" 48 5000 clash_world
    = (Failed IntegrityError, w')).
  { eexists. vm_compute. reflexivity. }
  destruct Hrun as [w' Hrun]. exists w'. split; [exact Hrun|].
  apply (discover_and_save_rolls_back_when_it_raises _ _ _ _ _ _ _ _ _ _ Hrun).
Defined.

Lemma discover_and_save_witness :
  exists (new_count : Z) (w' : world),
    YouTubeMonitor.discover_and_save Isodate.total_seconds Isodate.parse_datetime
      popular_now sqlite_rowid "US" 48 5000 sample_db
    = (Returned new_count, w')
    /\ video_urls w' !! 1 = Some sample_video
    /\ stored_video_id (video_urls w') "v45"
    /\ Z.of_nat (size (video_urls w')) = 1 + new_count.
Proof.
  destruct (discover_and_save_stores_each_new_video_once Isodate.total_seconds
              Isodate.parse_datetime popular_now sqlite_rowid
              (@sqlite_rowid_fresh VideoURL.t) sample_db "US" 48 5000)
    as (n & w' & Hrun & Hsub & Hsize & Hall & _).
  - intros i v Hv.
    change (video_urls sample_db) with ({[ 1 := sample_video ]} : gmap Z VideoURL.t) in Hv.
    apply lookup_singleton_Some in Hv as [<- <-]. reflexivity.
  - split; vm_compute; intros Hcmp; discriminate Hcmp.
  - intros v Hv.
    repeat (apply elem_of_cons in Hv as [->|Hv];
            [split;
             [intros _; split;
              [eexists; split; [vm_compute; reflexivity|];
               split; vm_compute; intros Hcmp; discriminate Hcmp
              |simpl; lia]
             |split; unfold sqlite_integer; simpl; lia]|]).
    inversion Hv.
  - exists n, w'. split; [exact Hrun|].
    split; [apply (lookup_weaken (video_urls sample_db) _ 1 sample_video);
            [vm_compute; reflexivity|exact Hsub]|].
    split; [|exact Hsize].
    apply (Hall video_45s); [left|].
    apply acceptedb_spec. vm_compute. reflexivity.
Defined.

(** ** record_upload_to_database and the daily limit *)

Lemma same_day_iff (start now : Z) :
  Datetime.start_of_day start = start ->
  (start <=? now) && (now <? start + 24 * Datetime.us_per_hour) = true
  <-> Datetime.start_of_day now = start.
Proof.
  unfold Datetime.start_of_day, Datetime.us_per_day, Datetime.us_per_hour,
    Datetime.us_per_second.
  intros Hstart. rewrite andb_true_iff, Z.leb_le, Z.ltb_lt. split.
  - intros [Hlo Hhi]. Z.div_mod_to_equations. lia.
  - intros <-. Z.div_mod_to_equations. lia.
Qed.

Lemma start_of_day_idem (t : Z) :
  Datetime.start_of_day (Datetime.start_of_day t) = Datetime.start_of_day t.
Proof.
  unfold Datetime.start_of_day, Datetime.us_per_day, Datetime.us_per_second.
  Z.div_mod_to_equations. lia.
Qed.

Section Uploads.

Variable next_id : list PublishRecord.t -> Z.


End Uploads.

